(** * PokeForge SDK (Python): request pipeline and pager

    A shallow embedding of the client core of [pokeforge_sdk]:

    - [client/errors.py]     : the exception classes and [PokeForgeError.from_response];
    - [client/auth.py]       : [TokenManager];
    - [client/config.py]     : [RetryConfig], [AuthConfig], [PokeForgeClientConfig];
    - [client/http.py]       : [HttpClient.request] and its helpers;
    - [client/pagination.py] : [Page.next_page] and [Page.to_list];
    - further on: the rest of [http.py] and [pagination.py] (the HTTP verbs,
      [__aexit__], the async iteration, [create_page]),
      [client/resources/base.py], [CardsResource.get],
      [FavoritesResource.list] and [client/client.py].

    Conventions of the embedding.

    - Python [int] is [Z]; [str] is [string]; [None] in an [Optional] is [None].
    - Python [float] durations (seconds) are exact rationals [Q]: rounding is
      not modelled. The range of IEEE doubles is modelled where the code
      turns an [int] into a [float]: the [OverflowError] of the conversion
      and of the true division is an outcome of [_calculate_delay].
    - A coroutine is a computation in a state-and-exception monad over a
      [World]: the state of everything outside the client (server, token
      source) together with a chronological trace of the interactions the
      client performed (token callback, physical HTTP call, sleep).
    - What the SDK only imports (the [int] builtin on strings, pydantic's
      [model_validate], float formatting, the HTTP transport) is a parameter
      of the development. *)

From Stdlib Require Import ZArith QArith Qminmax Qpower String Ascii List Bool Lia.
From Stdlib Require Import DecimalString.
Import ListNotations.

Set Warnings "-register-all".

Local Open Scope string_scope.
Local Open Scope Z_scope.

(* ================================================================= *)
(** ** Python values *)

(** JSON documents and query-parameter values ([Any] in the source). *)
Inductive pyvalue : Type :=
| PNone
| PBool (b : bool)
| PInt (z : Z)
| PFloat (q : Q)
| PStr (s : string)
| PList (l : list pyvalue)
| PDict (d : list (string * pyvalue)).

(** [bool(v)]: Python truthiness. *)
Definition truthy (v : pyvalue) : bool :=
  match v with
  | PNone => false
  | PBool b => b
  | PInt z => negb (z =? 0)
  | PFloat q => negb (Qnum q =? 0)
  | PStr s => negb (String.eqb s "")
  | PList l => match l with [] => false | _ => true end
  | PDict d => match d with [] => false | _ => true end
  end.

(** [v is not None]. *)
Definition is_not_None (v : pyvalue) : bool :=
  match v with PNone => false | _ => true end.

(** Truthiness of an [Optional[str]]. *)
Definition str_truthy (o : option string) : bool :=
  match o with
  | Some s => negb (String.eqb s "")
  | None => false
  end.

(** Truthiness of an [Optional[int]]. *)
Definition int_truthy (o : option Z) : bool :=
  match o with
  | Some z => negb (z =? 0)
  | None => false
  end.

(** Truthiness of an [Optional[float]]. *)
Definition float_truthy (o : option Q) : bool :=
  match o with
  | Some q => negb (Qnum q =? 0)
  | None => false
  end.

(** [str(n)] for an [int]. *)
Definition str_int (n : Z) : string := NilZero.string_of_int (Z.to_int n).

(** [sub in s] on strings. *)
Definition str_contains (sub s : string) : bool :=
  match String.index 0 sub s with
  | Some _ => true
  | None => false
  end.

(** Exceptions that are not SDK errors, each with its [str(e)]. *)
Inductive pyexn : Type :=
| TimeoutException (text : string)   (* httpx.TimeoutException *)
| HttpxNetworkError (text : string)  (* httpx.NetworkError *)
| ValueError (text : string)         (* raised by int() and response.json() *)
| ValidationFailure (text : string)  (* pydantic's ValidationError *)
| RuntimeError (text : string)
| OtherException (text : string).    (* any other subclass of Exception *)

Definition exn_str (e : pyexn) : string :=
  match e with
  | TimeoutException t | HttpxNetworkError t | ValueError t
  | ValidationFailure t | RuntimeError t | OtherException t => t
  end.

(** Result of a call that may raise an exception of type [X]. *)
Inductive result (X A : Type) : Type :=
| Return (a : A)
| Raise (e : X).
Arguments Return {X A} a.
Arguments Raise {X A} e.

(* ================================================================= *)
(** ** generated/models/problem_details.py *)

Record ProblemDetails : Type := {
  pd_type : option string;
  pd_title : option string;
  pd_status : option Z;
  pd_detail : option string;
  pd_instance : option string;
  pd_errors : option (list (string * list string))
}.

(* ================================================================= *)
(** ** client/errors.py *)

(** The exception classes of the SDK. *)
Inductive ErrorClass : Type :=
| ClsPokeForgeError
| ClsNotFoundError
| ClsAuthenticationError
| ClsForbiddenError
| ClsRateLimitError
| ClsValidationError
| ClsTimeoutError
| ClsNetworkError.

Definition ErrorClass_eqb (a b : ErrorClass) : bool :=
  match a, b with
  | ClsPokeForgeError, ClsPokeForgeError
  | ClsNotFoundError, ClsNotFoundError
  | ClsAuthenticationError, ClsAuthenticationError
  | ClsForbiddenError, ClsForbiddenError
  | ClsRateLimitError, ClsRateLimitError
  | ClsValidationError, ClsValidationError
  | ClsTimeoutError, ClsTimeoutError
  | ClsNetworkError, ClsNetworkError => true
  | _, _ => false
  end.

Definition class_name (c : ErrorClass) : string :=
  match c with
  | ClsPokeForgeError => "PokeForgeError"
  | ClsNotFoundError => "NotFoundError"
  | ClsAuthenticationError => "AuthenticationError"
  | ClsForbiddenError => "ForbiddenError"
  | ClsRateLimitError => "RateLimitError"
  | ClsValidationError => "ValidationError"
  | ClsTimeoutError => "TimeoutError"
  | ClsNetworkError => "NetworkError"
  end.

(** An attribute that only the [__init__] of some classes assigns: on an
    instance of another class it does not exist. *)
Inductive attribute (A : Type) : Type :=
| NoAttribute
| Attribute (value : A).
Arguments NoAttribute {A}.
Arguments Attribute {A} value.

(** An instance of [PokeForgeError] or of one of its subclasses: the class,
    the attributes set by [PokeForgeError.__init__], the attributes that
    [RateLimitError] ([retry_after]) and [ValidationError] ([errors]) add,
    and [__cause__]. *)
Record PokeForgeError : Type := {
  cls : ErrorClass;
  message : string;
  status : Z;
  type_ : option string;
  detail : option string;
  instance : option string;
  raw : option ProblemDetails;
  retry_after : attribute (option Z);
  errors : attribute (option (list (string * list string)));
  cause : option pyexn
}.

(** [PokeForgeError.__init__(message, status, problem_details)], for an
    instance of class [c]. *)
Definition init_PokeForgeError (c : ErrorClass) (message : string) (status : Z)
    (problem_details : option ProblemDetails) : PokeForgeError :=
  {| cls := c;
     message := message;
     status := status;
     type_ := match problem_details with Some pd => pd_type pd | None => None end;
     detail := match problem_details with Some pd => pd_detail pd | None => None end;
     instance := match problem_details with Some pd => pd_instance pd | None => None end;
     raw := problem_details;
     retry_after := NoAttribute;
     errors := NoAttribute;
     cause := None |}.

Definition NotFoundError (message : string) (pd : option ProblemDetails) :=
  init_PokeForgeError ClsNotFoundError message 404 pd.

Definition AuthenticationError (message : string) (pd : option ProblemDetails) :=
  init_PokeForgeError ClsAuthenticationError message 401 pd.

Definition ForbiddenError (message : string) (pd : option ProblemDetails) :=
  init_PokeForgeError ClsForbiddenError message 403 pd.

(** [e.retry_after = r]. *)
Definition set_retry_after (e : PokeForgeError) (r : option Z) : PokeForgeError :=
  {| cls := cls e; message := message e; status := status e; type_ := type_ e;
     detail := detail e; instance := instance e; raw := raw e;
     retry_after := Attribute r; errors := errors e; cause := cause e |}.

(** [e.errors = r]. *)
Definition set_errors (e : PokeForgeError) (r : option (list (string * list string)))
    : PokeForgeError :=
  {| cls := cls e; message := message e; status := status e; type_ := type_ e;
     detail := detail e; instance := instance e; raw := raw e;
     retry_after := retry_after e; errors := Attribute r; cause := cause e |}.

(** The [AttributeError] of reading an attribute the instance does not
    have. *)
Definition no_attribute (e : PokeForgeError) (name : string) : pyexn :=
  OtherException
    ("'" ++ class_name (cls e) ++ "' object has no attribute '" ++ name ++ "'").

(** [e.retry_after] and [e.errors], read. *)
Definition get_retry_after (e : PokeForgeError) : result pyexn (option Z) :=
  match retry_after e with
  | Attribute r => Return r
  | NoAttribute => Raise (no_attribute e "retry_after")
  end.

Definition get_errors (e : PokeForgeError)
    : result pyexn (option (list (string * list string))) :=
  match errors e with
  | Attribute r => Return r
  | NoAttribute => Raise (no_attribute e "errors")
  end.

Definition set_cause (e : PokeForgeError) (c : option pyexn) : PokeForgeError :=
  {| cls := cls e; message := message e; status := status e; type_ := type_ e;
     detail := detail e; instance := instance e; raw := raw e;
     retry_after := retry_after e; errors := errors e; cause := c |}.

Definition RateLimitError (message : string) (pd : option ProblemDetails)
    (retry_after : option Z) : PokeForgeError :=
  set_retry_after (init_PokeForgeError ClsRateLimitError message 429 pd) retry_after.

(** [self.errors = None], then
    [if problem_details and problem_details.errors]: a non-empty mapping. *)
Definition ValidationError (message : string) (pd : option ProblemDetails)
    : PokeForgeError :=
  let e := set_errors (init_PokeForgeError ClsValidationError message 400 pd) None in
  match pd with
  | Some p =>
      match pd_errors p with
      | Some ((_ :: _) as errs) => set_errors e (Some errs)
      | _ => e
      end
  | None => e
  end.

Definition TimeoutError (message : string) : PokeForgeError :=
  init_PokeForgeError ClsTimeoutError message 0 None.

Definition NetworkError (message : string) (cause : option pyexn) : PokeForgeError :=
  set_cause (init_PokeForgeError ClsNetworkError message 0 None) cause.

(** [error_map.get(status, PokeForgeError)]. *)
Definition error_map_get (status : Z) : ErrorClass :=
  if status =? 400 then ClsValidationError
  else if status =? 401 then ClsAuthenticationError
  else if status =? 403 then ClsForbiddenError
  else if status =? 404 then ClsNotFoundError
  else if status =? 429 then ClsRateLimitError
  else ClsPokeForgeError.

(** The [message = (...) or (...) or f"HTTP {status} error"] expression. *)
Definition response_message (status : Z) (pd : option ProblemDetails) : string :=
  let title := match pd with
               | Some p => if str_truthy (pd_title p) then pd_title p else None
               | None => None
               end in
  let detail := match pd with
                | Some p => if str_truthy (pd_detail p) then pd_detail p else None
                | None => None
                end in
  match title with
  | Some t => t
  | None =>
      match detail with
      | Some d => d
      | None => "HTTP " ++ str_int status ++ " error"
      end
  end.

Section FromResponse.

(** [ProblemDetails.model_validate]: pydantic's validation of a document
    against the declared fields; on a document that does not fit it raises
    a validation error, given here by its text. *)
Variable model_validate : pyvalue -> result string ProblemDetails.

(** [ProblemDetails.model_validate(body) if body else None]. *)
Definition validate_body (body : option pyvalue)
    : result pyexn (option ProblemDetails) :=
  match body with
  | Some b =>
      if truthy b then
        match model_validate b with
        | Return p => Return (Some p)
        | Raise text => Raise (ValidationFailure text)
        end
      else Return None
  | None => Return None
  end.

(** [PokeForgeError.from_response(status, body)]. *)
Definition from_response (status : Z) (body : option pyvalue)
    : result pyexn PokeForgeError :=
  match validate_body body with
  | Raise e => Raise e
  | Return pd =>
      let message := response_message status pd in
      let error_class := error_map_get status in
      if ErrorClass_eqb error_class ClsRateLimitError then
        Return (RateLimitError message pd None)
      else if ErrorClass_eqb error_class ClsValidationError then
        Return (ValidationError message pd)
      else if ErrorClass_eqb error_class ClsNotFoundError then
        Return (NotFoundError message pd)
      else if ErrorClass_eqb error_class ClsAuthenticationError then
        Return (AuthenticationError message pd)
      else if ErrorClass_eqb error_class ClsForbiddenError then
        Return (ForbiddenError message pd)
      else
        Return (init_PokeForgeError error_class message status pd)
  end.

End FromResponse.

(* ================================================================= *)
(** ** client/config.py *)

(** [RetryConfig]: the two delays are floats, in seconds. *)
Record RetryConfig : Type := {
  base_delay : Q;
  max_delay : Q;
  exponential : bool
}.

Definition default_RetryConfig : RetryConfig :=
  {| base_delay := 1; max_delay := 30; exponential := true |}.

(** [min(a, b)] of Python: the first argument unless the second is smaller. *)
Definition py_min (a b : Q) : Q := if Qle_bool a b then a else b.

(** The magnitude from which an [int] has no [float]: the midpoint of
    the largest double and [2 ** 1024], which rounds up. *)
Definition float_limit : Z := 2 ^ 1024 - 2 ^ 970.

(** Whether [float(n)] exists for the [int] [n]. *)
Definition converts_to_float (n : Z) : bool := Z.abs n <? float_limit.

(** The two [OverflowError]s of float arithmetic on an [int], by their
    text. *)
Definition int_too_large : pyexn :=
  OtherException "int too large to convert to float".

Definition division_too_large : pyexn :=
  OtherException "integer division result too large for a float".

(** [n / 1000] on an [int] [n]: the true division raises when the quotient
    has no [float]. *)
Definition div_1000 (n : Z) : result pyexn Q :=
  if Z.abs n <? 1000 * float_limit then Return (inject_Z n / 1000)%Q
  else Raise division_too_large.

(** [base * (2 ** k)] for a [float] [base] and an [int] [k]. From zero on,
    [2 ** k] is an [int], converted for the product; below zero it is the
    float power, for which the exponent is converted. *)
Definition times_power_of_two (base : Q) (k : Z) : result pyexn Q :=
  let converted := if 0 <=? k then converts_to_float (2 ^ k)
                   else converts_to_float k in
  if converted then Return (base * Qpower 2 k)%Q else Raise int_too_large.

(** [HttpClient._calculate_delay(attempt, error)]; of [self] it reads
    [self._retry_config] only. *)
Definition _calculate_delay (retry_config : RetryConfig) (attempt : Z)
    (error : option PokeForgeError) : result pyexn Q :=
  (* [isinstance(error, RateLimitError) and error.retry_after] *)
  let hint : result pyexn (option Z) :=
    match error with
    | Some e =>
        if ErrorClass_eqb (cls e) ClsRateLimitError then
          match get_retry_after e with
          | Return r => Return (if int_truthy r then r else None)
          | Raise x => Raise x
          end
        else Return None
    | None => Return None
    end in
  match hint with
  | Raise x => Raise x
  | Return (Some ms) =>
      match div_1000 ms with
      | Return seconds => Return (py_min seconds (max_delay retry_config))
      | Raise x => Raise x
      end
  | Return None =>
      if exponential retry_config then
        match times_power_of_two (base_delay retry_config) (attempt - 1) with
        | Return delay => Return (py_min delay (max_delay retry_config))
        | Raise x => Raise x
        end
      else Return (base_delay retry_config)
  end.

(** [HttpClient._filter_none(d)]. *)
Definition _filter_none (d : list (string * pyvalue)) : list (string * pyvalue) :=
  filter (fun kv => is_not_None (snd kv)) d.

(** The [params=] argument of the physical call:
    [self._filter_none(query) if query else None]. *)
Definition request_params (query : option (list (string * pyvalue)))
    : option (list (string * pyvalue)) :=
  match query with
  | Some ((_ :: _) as d) => Some (_filter_none d)
  | _ => None
  end.

(* ================================================================= *)
(** ** Coroutines *)

(** A coroutine over a state [W] that returns an [A] or raises an [X]. *)
Definition Coro (W X A : Type) : Type := W -> result X A * W.

Definition ret {W X A} (a : A) : Coro W X A := fun w => (Return a, w).

Definition raise {W X A} (e : X) : Coro W X A := fun w => (Raise e, w).

Definition bind {W X A B} (m : Coro W X A) (k : A -> Coro W X B) : Coro W X B :=
  fun w =>
    match m w with
    | (Return a, w') => k a w'
    | (Raise e, w') => (Raise e, w')
    end.

(** [try: m except ...: h]. *)
Definition try_except {W X A} (m : Coro W X A) (h : X -> Coro W X A)
    : Coro W X A :=
  fun w =>
    match m w with
    | (Return a, w') => (Return a, w')
    | (Raise e, w') => h e w'
    end.

Notation "x <- m ;; k" := (bind m (fun x => k))
  (at level 100, m at next level, right associativity).
Notation "m ;;; k" := (bind m (fun _ => k))
  (at level 100, right associativity).

(* ================================================================= *)
(** ** The world outside the client *)

Section Client.

(** State of everything the client talks to: the server behind the
    transport and the source of dynamic tokens. *)
Variable E : Type.

(** The [get_token] callable of a [DynamicAuth]: it reads and may change
    the outside state, and returns a token, [None], or raises. *)
Definition TokenFn : Type := E -> result pyexn (option string) * E.

Inductive Auth : Type :=
| StaticAuth (token : string)
| DynamicAuth (get_token : TokenFn).

(** [AuthConfig = Union[StaticAuth, DynamicAuth, None]]. *)
Definition AuthConfig : Type := option Auth.

Record PokeForgeClientConfig : Type := {
  base_url : string;
  auth : AuthConfig;
  timeout : Q;
  retries : Z;
  retry_config : RetryConfig
}.

(** An outgoing physical call: the keyword arguments of
    [self._client.request(...)]. *)
Record Request : Type := {
  req_method : string;
  req_url : string;
  req_params : option (list (string * pyvalue));
  req_json : option pyvalue;
  req_headers : list (string * string);
  req_timeout : Q
}.

(** What the code reads of an [httpx.Response]: the status code, the
    headers (names in lower case, as httpx looks them up) and the outcome
    of [response.json()]: the decoded document, or the text of the
    [ValueError] the decoder raises. *)
Record Response : Type := {
  status_code : Z;
  resp_headers : list (string * string);
  resp_json : result string pyvalue
}.

(** [response.is_success]. *)
Definition is_success (r : Response) : bool :=
  (200 <=? status_code r) && (status_code r <=? 299).

(** [headers.get(name)]. *)
Fixpoint headers_get (name : string) (hs : list (string * string)) : option string :=
  match hs with
  | [] => None
  | (k, v) :: tl => if String.eqb k name then Some v else headers_get name tl
  end.

(** The opened [httpx.AsyncClient]: one physical call either yields a
    response or raises. *)
Definition Transport : Type := Request -> E -> result pyexn Response * E.

(** One interaction of the client with the outside. *)
Inductive Event : Type :=
| EvToken (r : result pyexn (option string))  (* the token callback was called *)
| EvSend (req : Request)                      (* a physical HTTP call was issued *)
| EvSleep (d : Q).                            (* asyncio.sleep(d) *)

Record World : Type := {
  env : E;
  trace : list Event
}.

(** Exceptions that leave the client. *)
Inductive exn : Type :=
| SDK (e : PokeForgeError)
| Foreign (e : pyexn).

(** Coroutines of the client. *)
Definition M (A : Type) : Type := Coro World exn A.

(** A pure call that may raise. *)
Definition lift {A} (r : result pyexn A) : M A :=
  match r with
  | Return a => ret a
  | Raise e => raise (Foreign e)
  end.

Definition record (ev : Event) (e' : E) (w : World) : World :=
  {| env := e'; trace := (trace w ++ [ev])%list |}.

(** Calling (and awaiting) the token callback. *)
Definition call_token_fn (f : TokenFn) : M (option string) :=
  fun w =>
    let (r, e') := f (env w) in
    lift r (record (EvToken r) e' w).

(** [await self._client.request(...)]. *)
Definition client_request (client : Transport) (req : Request) : M Response :=
  fun w =>
    let (r, e') := client req (env w) in
    lift r (record (EvSend req) e' w).

(** [await asyncio.sleep(delay)]. *)
Definition sleep (delay : Q) : M unit :=
  fun w => (Return tt, record (EvSleep delay) (env w) w).

(* --------------------------------------------------------------- *)
(** *** client/auth.py *)

Record TokenManager : Type := {
  _static_token : option string;
  _get_token_fn : option TokenFn
}.

(** [TokenManager.__init__(auth)]. *)
Definition init_TokenManager (auth : AuthConfig) : TokenManager :=
  match auth with
  | Some (StaticAuth token) =>
      {| _static_token := Some token; _get_token_fn := None |}
  | Some (DynamicAuth f) =>
      {| _static_token := None; _get_token_fn := Some f |}
  | None =>
      {| _static_token := None; _get_token_fn := None |}
  end.

(** [TokenManager.get_token()]. *)
Definition get_token (self : TokenManager) : M (option string) :=
  if str_truthy (_static_token self) then ret (_static_token self)
  else
    match _get_token_fn self with
    | Some f => call_token_fn f
    | None => ret None
    end.

(** [TokenManager.set_token(token)]. *)
Definition set_token (self : TokenManager) (token : string) : TokenManager :=
  {| _static_token := Some token; _get_token_fn := None |}.

(** [TokenManager.has_auth()]. *)
Definition has_auth (self : TokenManager) : bool :=
  str_truthy (_static_token self)
  || match _get_token_fn self with Some _ => true | None => false end.

(* --------------------------------------------------------------- *)
(** *** client/http.py *)

(** The [int] builtin applied to a string: the integer, or the text of
    the [ValueError] it raises. *)
Variable py_int : string -> result string Z.

Variable model_validate : pyvalue -> result string ProblemDetails.

(** Formatting of a float inside an f-string. *)
Variable str_float : Q -> string.

Record HttpClient : Type := {
  _config : PokeForgeClientConfig;
  _token_manager : TokenManager;
  _timeout : Q;
  _retries : Z;
  _retry_config : RetryConfig;
  _client : option Transport
}.

(** [HttpClient.__init__(config)]. *)
Definition init_HttpClient (config : PokeForgeClientConfig) : HttpClient :=
  {| _config := config;
     _token_manager := init_TokenManager (auth config);
     _timeout := timeout config;
     _retries := retries config;
     _retry_config := retry_config config;
     _client := None |}.

(** [HttpClient.__aenter__()]: the httpx client is created; [transport]
    is its behaviour. *)
Definition aenter (self : HttpClient) (transport : Transport) : HttpClient :=
  {| _config := _config self;
     _token_manager := _token_manager self;
     _timeout := _timeout self;
     _retries := _retries self;
     _retry_config := _retry_config self;
     _client := Some transport |}.

(** [HttpClient._build_headers()]. *)
Definition _build_headers (self : HttpClient) : M (list (string * string)) :=
  token <- get_token (_token_manager self) ;;
  if str_truthy token then
    match token with
    | Some t => ret [("Authorization", "Bearer " ++ t)]
    | None => ret []
    end
  else ret [].

(** [HttpClient._handle_error_response(response)]. A failure of
    [response.json()] is swallowed; [int(...)] and [from_response] may
    raise. *)
Definition _handle_error_response (response : Response)
    : result pyexn PokeForgeError :=
  let body := match resp_json response with
              | Return b => Some b
              | Raise _ => None
              end in
  if status_code response =? 429 then
    let retry_after_header := headers_get "retry-after" (resp_headers response) in
    let retry_ms :=
      if str_truthy retry_after_header then
        match retry_after_header with
        | Some h =>
            match py_int h with
            | Return n => Return (Some (n * 1000))
            | Raise text => Raise (ValueError text)
            end
        | None => Return None
        end
      else Return None in
    match retry_ms with
    | Raise e => Raise e
    | Return ms =>
        match from_response model_validate (status_code response) body with
        | Raise e => Raise e
        | Return error =>
            if ErrorClass_eqb (cls error) ClsRateLimitError
            then Return (set_retry_after error ms)
            else Return error
        end
    end
  else from_response model_validate (status_code response) body.

(** Outcome of one pass through the body of the [for] loop. *)
Inductive step : Type :=
| Finished (value : pyvalue)              (* [return ...] *)
| Continue (last_error : option pyexn).   (* [continue] *)

Section Attempt.

Variable self : HttpClient.
Variable client : Transport.
Variable req : Request.
(** The [timeout] argument of [request]. *)
Variable timeout_arg : option Q.
Variable max_attempts : Z.

(** The [try] block of one attempt. *)
Definition try_block (attempt : Z) (last_error : option pyexn) : M step :=
  response <- client_request client req ;;
  if is_success response then
    if status_code response =? 204 then ret (Finished PNone)
    else
      let content_type :=
        match headers_get "content-type" (resp_headers response) with
        | Some v => v
        | None => ""
        end in
      if str_contains "application/json" content_type then
        v <- lift (match resp_json response with
                   | Return v => Return v
                   | Raise text => Raise (ValueError text)
                   end) ;;
        ret (Finished v)
      else ret (Finished PNone)
  else
    error <- lift (_handle_error_response response) ;;
    if (attempt <? max_attempts)
       && ((status_code response =? 429) || (500 <=? status_code response))
    then
      delay <- lift (_calculate_delay (_retry_config self) attempt (Some error)) ;;
      sleep delay ;;;
      ret (Continue last_error)
    else raise (SDK error).

(** The [except] clauses, tried in the order of the source. What a
    handler raises leaves the loop; [raise ... from e] makes [e] the cause. *)
Definition except_clauses (attempt : Z) (e : exn) : M step :=
  match e with
  | Foreign (TimeoutException t) =>
      let shown := if float_truthy timeout_arg
                   then match timeout_arg with
                        | Some t => t
                        | None => timeout (_config self)
                        end
                   else timeout (_config self) in
      raise (SDK (set_cause
                    (TimeoutError
                       ("Request timed out after " ++ str_float shown ++ "s"))
                    (Some (TimeoutException t))))
  | Foreign (HttpxNetworkError t) =>
      if attempt <? max_attempts then
        delay <- lift (_calculate_delay (_retry_config self) attempt None) ;;
        sleep delay ;;;
        ret (Continue (Some (HttpxNetworkError t)))
      else raise (SDK (NetworkError "Network error" (Some (HttpxNetworkError t))))
  | SDK pe => raise (SDK pe)
  | Foreign other =>
      raise (SDK (NetworkError ("Unexpected error: " ++ exn_str other)
                               (Some other)))
  end.

(** [for attempt in range(1, max_attempts + 1): ...] followed by the
    final [raise]; [remaining] is the number of values the range still
    has to produce and [attempt] the next one. *)
Fixpoint request_loop (remaining : nat) (attempt : Z)
    (last_error : option pyexn) : M pyvalue :=
  match remaining with
  | O => raise (SDK (NetworkError "Request failed after retries" last_error))
  | S n =>
      s <- try_except (try_block attempt last_error) (except_clauses attempt) ;;
      match s with
      | Finished v => ret v
      | Continue last_error' => request_loop n (attempt + 1) last_error'
      end
  end.

End Attempt.

(** [max_attempts = 1 if no_retry else self._retries + 1]. *)
Definition max_attempts_of (self : HttpClient) (no_retry : bool) : Z :=
  if no_retry then 1 else _retries self + 1.

(** [httpx.Timeout(timeout) if timeout else self._timeout]. *)
Definition request_timeout_of (self : HttpClient) (timeout_arg : option Q) : Q :=
  if float_truthy timeout_arg
  then match timeout_arg with Some t => t | None => _timeout self end
  else _timeout self.

(** The arguments of every physical call of one [request]. *)
Definition physical_request (self : HttpClient) (method path : string)
    (query : option (list (string * pyvalue))) (body : option pyvalue)
    (timeout_arg : option Q) (headers : list (string * string)) : Request :=
  {| req_method := method;
     req_url := path;
     req_params := request_params query;
     req_json := body;
     req_headers := headers;
     req_timeout := request_timeout_of self timeout_arg |}.

(** [HttpClient.request(method, path, query, body, timeout, no_retry)]. *)
Definition request (self : HttpClient) (method path : string)
    (query : option (list (string * pyvalue))) (body : option pyvalue)
    (timeout_arg : option Q) (no_retry : bool) : M pyvalue :=
  match _client self with
  | None =>
      raise (Foreign (RuntimeError
                        "HttpClient must be used as async context manager"))
  | Some client =>
      headers <- _build_headers self ;;
      let max_attempts := max_attempts_of self no_retry in
      request_loop self client
        (physical_request self method path query body timeout_arg headers)
        timeout_arg max_attempts (Z.to_nat max_attempts) 1 None
  end.

(** Number of physical calls, token consultations and sleeps in a trace. *)
Definition is_send (ev : Event) : bool :=
  match ev with EvSend _ => true | _ => false end.

Definition is_token (ev : Event) : bool :=
  match ev with EvToken _ => true | _ => false end.

Definition is_sleep (ev : Event) : bool :=
  match ev with EvSleep _ => true | _ => false end.

Definition sends (tr : list Event) : nat := length (filter is_send tr).

Definition token_calls (tr : list Event) : nat := length (filter is_token tr).

Definition sleeps (tr : list Event) : nat := length (filter is_sleep tr).

(** The headers of the physical calls of a trace, in order. *)
Definition sent_headers (tr : list Event) : list (list (string * string)) :=
  flat_map (fun ev => match ev with
                      | EvSend r => [req_headers r]
                      | _ => []
                      end) tr.

End Client.

Arguments StaticAuth {E} token.
Arguments DynamicAuth {E} get_token.
Arguments base_url {E} p.
Arguments auth {E} p.
Arguments timeout {E} p.
Arguments retries {E} p.
Arguments retry_config {E} p.
Arguments env {E} w.
Arguments trace {E} w.
Arguments record {E} ev e' w.
Arguments call_token_fn {E} f w.
Arguments client_request {E} client req w.
Arguments sleep {E} delay w.
Arguments _static_token {E} t.
Arguments _get_token_fn {E} t.
Arguments init_TokenManager {E} auth.
Arguments get_token {E} self w.
Arguments set_token {E} self token.
Arguments has_auth {E} self.
Arguments _config {E} h.
Arguments _token_manager {E} h.
Arguments _timeout {E} h.
Arguments _retries {E} h.
Arguments _retry_config {E} h.
Arguments _client {E} h.
Arguments init_HttpClient {E} config.
Arguments aenter {E} self transport.
Arguments _build_headers {E} self w.
Arguments try_block {E} py_int model_validate self client req
  max_attempts attempt last_error w.
Arguments except_clauses {E} str_float self timeout_arg max_attempts attempt e w.
Arguments request_loop {E} py_int model_validate str_float self client req
  timeout_arg max_attempts remaining attempt last_error w.
Arguments max_attempts_of {E} self no_retry.
Arguments request_timeout_of {E} self timeout_arg.
Arguments physical_request {E} self method path query body timeout_arg headers.
Arguments request {E} py_int model_validate str_float self method path
  query body timeout_arg no_retry w.

(* ================================================================= *)
(** ** client/pagination.py *)

Record PageInfo : Type := {
  page : Z;
  page_size : Z;
  total_count : Z;
  total_pages : Z;
  has_next : bool;
  has_previous : bool
}.

Section Pager.

(** Items of a page. *)
Variable T : Type.
(** The fetcher closures a page may hold, and what calling one does:
    [call f page page_size] reads and may change the state [S] of the
    resource behind it and returns a page, [None], or raises an [X]. *)
Variable F : Type.
Variable S : Type.
Variable X : Type.

Record Page : Type := {
  _data : list T;
  _pagination : PageInfo;
  _fetcher : F
}.

Variable call : F -> Z -> Z -> S -> result X (option Page) * S.

(** State of a walk: the resource, and the fetcher calls made so far as
    [(page, page_size)] pairs in chronological order. *)
Record Walk : Type := {
  resource : S;
  fetches : list (Z * Z)
}.

(** [await self._fetcher(page, page_size)]. *)
Definition await_fetcher (f : F) (page page_size : Z)
    : Coro Walk X (option Page) :=
  fun st =>
    let (r, s') := call f page page_size (resource st) in
    (r, {| resource := s'; fetches := (fetches st ++ [(page, page_size)])%list |}).

(** [Page.next_page()]. *)
Definition next_page (self : Page) : Coro Walk X (option Page) :=
  if negb (has_next (_pagination self)) then ret None
  else await_fetcher (_fetcher self)
                     (page (_pagination self) + 1)
                     (page_size (_pagination self)).

(** [Page.previous_page()]. *)
Definition previous_page (self : Page) : Coro Walk X (option Page) :=
  if negb (has_previous (_pagination self)) then ret None
  else await_fetcher (_fetcher self)
                     (page (_pagination self) - 1)
                     (page_size (_pagination self)).

(** [Page.go_to_page(page)]. *)
Definition go_to_page (self : Page) (page : Z) : Coro Walk X (option Page) :=
  await_fetcher (_fetcher self) page (page_size (_pagination self)).

(** The [while] loop of [Page.to_list]; [fuel] bounds the number of
    passes through its body, and [None] means the bound was reached with
    the loop still running. *)
Fixpoint to_list_loop (fuel : nat) (all_items : list T)
    (current_page : option Page) (st : Walk)
    : option (result X (list T) * Walk) :=
  match current_page with
  | Some cp =>
      if has_next (_pagination cp) then
        match fuel with
        | O => None
        | Datatypes.S fuel' =>
            match next_page cp st with
            | (Raise e, st') => Some (Raise e, st')
            | (Return nxt, st') =>
                let all_items' :=
                  match nxt with
                  | Some p => (all_items ++ _data p)%list
                  | None => all_items
                  end in
                to_list_loop fuel' all_items' nxt st'
            end
        end
      else Some (Return all_items, st)
  | None => Some (Return all_items, st)
  end.

(** [Page.to_list()]. *)
Definition to_list (fuel : nat) (self : Page) (st : Walk)
    : option (result X (list T) * Walk) :=
  to_list_loop fuel (_data self) (Some self) st.

(** The pages that follow [p]: each is what [next_page] returns on the
    one before, as long as [has_next] holds; the walk ends at the first
    page whose [has_next] is false. *)
Inductive successive_pages : Walk -> Page -> list Page -> Walk -> Prop :=
| successive_end st p :
    has_next (_pagination p) = false ->
    successive_pages st p [] st
| successive_next st p q st1 qs st' :
    has_next (_pagination p) = true ->
    next_page p st = (Return (Some q), st1) ->
    successive_pages st1 q qs st' ->
    successive_pages st p (q :: qs) st'.

End Pager.

Arguments _data {T F} p.
Arguments _pagination {T F} p.
Arguments _fetcher {T F} p.
Arguments resource {S} w.
Arguments fetches {S} w.
Arguments await_fetcher {T F S X} call f page page_size st.
Arguments next_page {T F S X} call self st.
Arguments previous_page {T F S X} call self st.
Arguments go_to_page {T F S X} call self page st.
Arguments to_list_loop {T F S X} call fuel all_items current_page st.
Arguments to_list {T F S X} call fuel self st.
Arguments successive_pages {T F S X} call st p qs st'.

(* ================================================================= *)
(** ** Instances of the parameters, for the examples *)

Definition digit_value (c : ascii) : option Z :=
  let n := Z.of_nat (nat_of_ascii c) in
  if (48 <=? n) && (n <=? 57) then Some (n - 48) else None.

Fixpoint decimal_digits (acc : Z) (s : string) : option Z :=
  match s with
  | EmptyString => Some acc
  | String c tl =>
      match digit_value c with
      | Some d => decimal_digits (acc * 10 + d) tl
      | None => None
      end
  end.

(** The [int] builtin on the literals of the examples: ASCII decimal
    digits, possibly after a minus sign; anything else is rejected. *)
Definition decimal_int (s : string) : result string Z :=
  let bad := Raise ("invalid literal for int() with base 10: '" ++ s ++ "'") in
  match s with
  | EmptyString => bad
  | String "-" EmptyString => bad
  | String "-" tl =>
      match decimal_digits 0 tl with
      | Some n => Return (- n)
      | None => bad
      end
  | _ =>
      match decimal_digits 0 s with
      | Some n => Return n
      | None => bad
      end
  end.

Fixpoint dict_get (k : string) (d : list (string * pyvalue)) : option pyvalue :=
  match d with
  | [] => None
  | (k', v) :: tl => if String.eqb k' k then Some v else dict_get k tl
  end.

Definition str_field (k : string) (d : list (string * pyvalue))
    : result string (option string) :=
  match dict_get k d with
  | None | Some PNone => Return None
  | Some (PStr s) => Return (Some s)
  | Some _ => Raise (k ++ ": Input should be a valid string")
  end.

Definition int_field (k : string) (d : list (string * pyvalue))
    : result string (option Z) :=
  match dict_get k d with
  | None | Some PNone => Return None
  | Some (PInt z) => Return (Some z)
  | Some _ => Raise (k ++ ": Input should be a valid integer")
  end.

(** [model_validate] on the documents of the examples: an object whose
    [type], [title], [status], [detail] and [instance] entries, when
    present, hold a value of the declared type; [errors] is not read. *)
Definition fields_validate (b : pyvalue) : result string ProblemDetails :=
  match b with
  | PDict d =>
      match str_field "type" d, str_field "title" d, int_field "status" d,
            str_field "detail" d, str_field "instance" d with
      | Return ty, Return ti, Return st, Return de, Return ins =>
          Return {| pd_type := ty; pd_title := ti; pd_status := st;
                    pd_detail := de; pd_instance := ins; pd_errors := None |}
      | Raise t, _, _, _, _ | _, Raise t, _, _, _ | _, _, Raise t, _, _
      | _, _, _, Raise t, _ | _, _, _, _, Raise t => Raise t
      end
  | _ => Raise "Input should be a valid dictionary"
  end.

(** Formatting of the whole-number floats of the examples. *)
Definition whole_float (q : Q) : string :=
  str_int (Qnum q / Zpos (Qden q)) ++ ".0".

(* ================================================================= *)
(** ** The statements of the specification, in its own words *)

(** §4.2, rule 2: the title if present, else the detail if present, else
    the default text. *)
Definition message_as_specified (status : Z) (pd : option ProblemDetails) : string :=
  match pd with
  | Some p =>
      match pd_title p with
      | Some t => t
      | None =>
          match pd_detail p with
          | Some d => d
          | None => "HTTP " ++ str_int status ++ " error"
          end
      end
  | None => "HTTP " ++ str_int status ++ " error"
  end.

(** A string attribute that is absent or empty. *)
Definition blank (o : option string) : Prop := o = None \/ o = Some "".

Definition body_title (pd : option ProblemDetails) : option string :=
  match pd with Some p => pd_title p | None => None end.

Definition body_detail (pd : option ProblemDetails) : option string :=
  match pd with Some p => pd_detail p | None => None end.

(** §4.3, rule 1, with the hint in milliseconds and the delays in seconds. *)
Definition hinted_delay_as_specified (retry_config : RetryConfig) (ms : Z) : Q :=
  Qmin (inject_Z ms / 1000) (max_delay retry_config).


(** No rate-limit hint is in play: there is no error, or it is not a
    [RateLimitError], or its [retry_after] is [None] or zero. *)
Definition no_hint (error : option PokeForgeError) : Prop :=
  match error with
  | Some e =>
      cls e = ClsRateLimitError ->
      retry_after e = Attribute None \/ retry_after e = Attribute (Some 0)
  | None => True
  end.

(** The entries of an optional mapping. *)
Definition entries (d : option (list (string * pyvalue))) : list (string * pyvalue) :=
  match d with
  | Some l => l
  | None => []
  end.

(** What [_build_headers] makes of a token. *)
Definition headers_for (token : option string) : list (string * string) :=
  match token with
  | Some t => if String.eqb t "" then [] else [("Authorization", "Bearer " ++ t)]
  | None => []
  end.

(** §4.1, "consulted on every physical attempt", read on a trace: as many
    consultations of the callback as physical calls. *)
Definition consulted_on_every_attempt (tr : list Event) : Prop :=
  token_calls tr = sends tr.

(** §4.4: an outcome of the physical call ends the logical call on the
    attempt it occurs on, whatever the attempt number and the budget. *)
Definition short_circuits {E : Type}
    (py_int : string -> result string Z)
    (model_validate : pyvalue -> result string ProblemDetails)
    (str_float : Q -> string)
    (outcome : result pyexn Response) : Prop :=
  forall (self : HttpClient E) client req timeout_arg max_attempts
         n attempt last w e',
    client req (env w) = (outcome, e') ->
    exists err,
      request_loop py_int model_validate str_float self client req
        timeout_arg max_attempts (S n) attempt last w
      = (Raise err, record (EvSend req) e' w).

(** A response with status 429 or at least 500. *)
Definition retryable (r : Response) : Prop :=
  status_code r = 429 \/ 500 <= status_code r.

(** The state of the outside in which physical call number [i], counted
    from zero, of a logical call is made, when the first one is made in
    [e]: between two calls the client only sleeps. *)
Fixpoint attempt_state {E : Type} (client : Transport E) (req : Request)
    (e : E) (i : nat) : E :=
  match i with
  | O => e
  | S j => attempt_state client req (snd (client req e)) j
  end.

(* ================================================================= *)
(** ** Worlds of the examples *)

Definition json_response (code : Z) (hs : list (string * string))
    (body : pyvalue) : Response :=
  {| status_code := code;
     resp_headers := ("content-type", "application/json") :: hs;
     resp_json := Return body |}.

(** A 429 whose [Retry-After] is an HTTP date. *)
Definition dated_429 : Response :=
  json_response 429 [("retry-after", "Wed, 21 Oct 2015 07:28:00 GMT")]
    (PDict [("title", PStr "Too Many Requests")]).

(** A 429 whose [Retry-After] has an empty value. *)
Definition empty_hint_429 : Response :=
  json_response 429 [("retry-after", "")]
    (PDict [("title", PStr "Too Many Requests")]).

(** A 429 without [Retry-After]. *)
Definition plain_429 : Response :=
  json_response 429 [] (PDict [("title", PStr "Too Many Requests")]).

Definition plain_404 : Response :=
  json_response 404 [] (PDict [("title", PStr "Not Found")]).

Definition plain_500 : Response :=
  json_response 500 [] (PDict [("title", PStr "Internal Server Error")]).

Definition ok_200 : Response :=
  json_response 200 [] (PDict [("success", PBool true)]).

(** A server that answers every call with the same response. *)
Definition constant_server (r : Response) : Transport unit :=
  fun _ e => (Return r, e).

(** A transport whose every call times out. *)
Definition timing_out : Transport unit :=
  fun _ e => (Raise (TimeoutException "timed out"), e).

Definition config_with {E : Type} (a : AuthConfig E) (n : Z)
    : PokeForgeClientConfig E :=
  {| base_url := "https://api.pokeforge.gg";
     auth := a;
     timeout := 30;
     retries := n;
     retry_config := default_RetryConfig |}.

(** An opened client without credentials and with [n] retries. *)
Definition anonymous_client (n : Z) (server : Transport unit) : HttpClient unit :=
  aenter (init_HttpClient (config_with None n)) server.

Definition start {E : Type} (e : E) : World E := {| env := e; trace := [] |}.

(** A world that counts the token consultations and the physical calls
    made so far: the callback hands out a fresh token each time, the
    server fails once and then succeeds. *)
Definition rotating_token : TokenFn (nat * nat) :=
  fun e => (Return (Some (nth (fst e) ["t1"; "t2"] "t3")), (S (fst e), snd e)).

Definition failing_once : Transport (nat * nat) :=
  fun _ e => (Return (nth (snd e) [plain_500] ok_200), (fst e, S (snd e))).

Definition rotating_client : HttpClient (nat * nat) :=
  aenter (init_HttpClient (config_with (Some (DynamicAuth rotating_token)) 1))
         failing_once.

(** A callback that returns the empty string. *)
Definition empty_token : TokenFn unit := fun e => (Return (Some ""), e).

Definition empty_token_client : HttpClient unit :=
  aenter (init_HttpClient (config_with (Some (DynamicAuth empty_token)) 0))
         (constant_server ok_200).

(** The fetcher call that [next_page] makes on a page. *)
Definition next_call {T F : Type} (p : Page T F) : Z * Z :=
  (page (_pagination p) + 1, page_size (_pagination p)).

(** A listing of three pages of one item each. *)
Definition page_of_three (n : Z) (item : string) : Page string unit :=
  {| _data := [item];
     _pagination := {| page := n; page_size := 1; total_count := 3;
                       total_pages := 3; has_next := n <? 3;
                       has_previous := 1 <? n |};
     _fetcher := tt |}.

Definition three_pages (f : unit) (page page_size : Z) (s : unit)
    : result pyexn (option (Page string unit)) * unit :=
  if page =? 1 then (Return (Some (page_of_three 1 "Pikachu")), s)
  else if page =? 2 then (Return (Some (page_of_three 2 "Charizard")), s)
  else if page =? 3 then (Return (Some (page_of_three 3 "Bulbasaur")), s)
  else (Return None, s).

(* ================================================================= *)
(** ** The rest of client/http.py *)

(** [HttpClient.__aexit__(...)]: the httpx client is closed and dropped. *)
Definition aexit {E : Type} (self : HttpClient E) : HttpClient E :=
  {| _config := _config self;
     _token_manager := _token_manager self;
     _timeout := _timeout self;
     _retries := _retries self;
     _retry_config := _retry_config self;
     _client := None |}.

(** [HttpClient.get_config()]. *)
Definition get_config {E : Type} (self : HttpClient E) : PokeForgeClientConfig E :=
  _config self.

Module Http.
Section Verbs.

Variable E : Type.
Variable py_int : string -> result string Z.
Variable model_validate : pyvalue -> result string ProblemDetails.
Variable str_float : Q -> string.

(** [HttpClient.get(path, query)]. *)
Definition get (self : HttpClient E) (path : string)
    (query : option (list (string * pyvalue))) : M E pyvalue :=
  request py_int model_validate str_float self "GET" path query None None false.

(** [HttpClient.post(path, body)]. *)
Definition post (self : HttpClient E) (path : string) (body : option pyvalue)
    : M E pyvalue :=
  request py_int model_validate str_float self "POST" path None body None false.

(** [HttpClient.put(path, body)]. *)
Definition put (self : HttpClient E) (path : string) (body : option pyvalue)
    : M E pyvalue :=
  request py_int model_validate str_float self "PUT" path None body None false.

(** [HttpClient.delete(path, body)]. *)
Definition delete (self : HttpClient E) (path : string) (body : option pyvalue)
    : M E pyvalue :=
  request py_int model_validate str_float self "DELETE" path None body None false.

End Verbs.
End Http.

Arguments Http.get {E} py_int model_validate str_float self path query w.
Arguments Http.post {E} py_int model_validate str_float self path body w.
Arguments Http.put {E} py_int model_validate str_float self path body w.
Arguments Http.delete {E} py_int model_validate str_float self path body w.

(** The delays slept in a trace, in order. *)
Definition slept (tr : list Event) : list Q :=
  flat_map (fun ev => match ev with
                      | EvSleep d => [d]
                      | _ => []
                      end) tr.

(** The attempt numbers [first], [first + 1], ..., [n] of them. *)
Definition attempts_from (first : Z) (n : nat) : list Z :=
  map (fun i => first + Z.of_nat i) (seq 0 n).

(** A transport that never connects. *)
Definition refusing : Transport unit :=
  fun _ e => (Raise (HttpxNetworkError "connection refused"), e).

(* ================================================================= *)
(** ** The rest of client/pagination.py *)

Section PagerIteration.

Variables T F S X : Type.
Variable call : F -> Z -> Z -> S -> result X (option (Page T F)) * S.

(** The state of the generator [Page._async_iter] between two items: the
    items of the page at hand that are still to be yielded, and the
    variable [current_page] (the page itself while its own items are
    yielded). *)
Record Cursor : Type := {
  pending : list T;
  current_page : option (Page T F)
}.

(** [Page.__aiter__()]: a new generator, at the start of its body. *)
Definition aiter (self : Page T F) : Cursor :=
  {| pending := _data self; current_page := Some self |}.

(** One [__anext__()] on the generator: it runs the body up to the next
    [yield], which gives [Some] of the item and of the state to resume
    from, or to the end of the body, which gives [None]
    ([StopAsyncIteration]). [fuel] bounds the passes through the [while]
    body made on the way, and a result of [None] means the bound was
    reached first. *)
Fixpoint anext (fuel : nat) (c : Cursor) (st : Walk S)
    : option (result X (option (T * Cursor)) * Walk S) :=
  match pending c with
  | x :: rest =>
      Some (Return (Some (x, {| pending := rest;
                                current_page := current_page c |})), st)
  | [] =>
      match current_page c with
      | Some cp =>
          if has_next (_pagination cp) then
            match fuel with
            | O => None
            | Datatypes.S fuel' =>
                match next_page call cp st with
                | (Raise e, st') => Some (Raise e, st')
                | (Return nxt, st') =>
                    anext fuel'
                      {| pending := match nxt with
                                    | Some p => _data p
                                    | None => []
                                    end;
                         current_page := nxt |} st'
                end
            end
          else Some (Return None, st)
      | None => Some (Return None, st)
      end
  end.

(** [async for item in page: items.append(item)], run to the end of the
    generator; [fuel] bounds the number of [__anext__()] calls and the
    passes each may make. *)
Fixpoint drain (fuel : nat) (c : Cursor) (st : Walk S)
    : option (result X (list T) * Walk S) :=
  match fuel with
  | O => None
  | Datatypes.S fuel' =>
      match anext fuel' c st with
      | None => None
      | Some (Raise e, st') => Some (Raise e, st')
      | Some (Return None, st') => Some (Return [], st')
      | Some (Return (Some (x, c')), st') =>
          match drain fuel' c' st' with
          | Some (Return xs, st'') => Some (Return (x :: xs), st'')
          | other => other
          end
      end
  end.

(** The same loop left by [break] once [n] items are taken. *)
Fixpoint take (n : nat) (fuel : nat) (c : Cursor) (st : Walk S)
    : option (result X (list T) * Walk S) :=
  match n with
  | O => Some (Return [], st)
  | Datatypes.S n' =>
      match anext fuel c st with
      | None => None
      | Some (Raise e, st') => Some (Raise e, st')
      | Some (Return None, st') => Some (Return [], st')
      | Some (Return (Some (x, c')), st') =>
          match take n' fuel c' st' with
          | Some (Return xs, st'') => Some (Return (x :: xs), st'')
          | other => other
          end
      end
  end.

(** [pagination_info.get(key, default)] where [PageInfo] expects an [int]:
    [None] when the key holds a value that is not an [int]. *)
Definition get_int (d : list (string * pyvalue)) (key : string) (default : Z)
    : option Z :=
  match dict_get key d with
  | None => Some default
  | Some (PInt z) => Some z
  | Some _ => None
  end.

(** The same where [PageInfo] expects a [bool]. *)
Definition get_bool (d : list (string * pyvalue)) (key : string) (default : bool)
    : option bool :=
  match dict_get key d with
  | None => Some default
  | Some (PBool b) => Some b
  | Some _ => None
  end.

(** [create_page(data, pagination_info, fetcher)]. The source stores
    whatever the metadata holds under a key; the fields of [PageInfo] are
    integers and booleans here, so the result is [None] on metadata that
    holds a value of another type under one of the six keys. *)
Definition create_page (data : list T)
    (pagination_info : option (list (string * pyvalue))) (fetcher : F)
    : option (Page T F) :=
  let len := Z.of_nat (length data) in
  let int_field key default :=
    match pagination_info with
    | Some ((_ :: _) as d) => get_int d key default
    | _ => Some default
    end in
  let bool_field key default :=
    match pagination_info with
    | Some ((_ :: _) as d) => get_bool d key default
    | _ => Some default
    end in
  match int_field "page" 1, int_field "pageSize" len,
        int_field "totalCount" len, int_field "totalPages" 1,
        bool_field "hasNext" false, bool_field "hasPrevious" false with
  | Some pg, Some ps, Some tc, Some tp, Some hn, Some hp =>
      Some {| _data := data;
              _pagination := {| page := pg; page_size := ps; total_count := tc;
                                total_pages := tp; has_next := hn;
                                has_previous := hp |};
              _fetcher := fetcher |}
  | _, _, _, _, _, _ => None
  end.

(** The pages reached from [p] by [next_page], up to a page [last] that
    need not be the final one. *)
Inductive pages_up_to : Walk S -> Page T F -> list (Page T F) -> Page T F
                        -> Walk S -> Prop :=
| up_to_here st p : pages_up_to st p [] p st
| up_to_next st p q st1 qs last st' :
    has_next (_pagination p) = true ->
    next_page call p st = (Return (Some q), st1) ->
    pages_up_to st1 q qs last st' ->
    pages_up_to st p (q :: qs) last st'.

End PagerIteration.

Arguments pending {T F} c.
Arguments current_page {T F} c.
Arguments aiter {T F} self.
Arguments anext {T F S X} call fuel c st.
Arguments drain {T F S X} call fuel c st.
Arguments take {T F S X} call n fuel c st.
Arguments create_page {T F} data pagination_info fetcher.
Arguments pages_up_to {T F S X} call st p qs last st'.

(** A listing whose every page claims a successor. *)
Definition endless (f : unit) (page page_size : Z) (s : unit)
    : result pyexn (option (Page string unit)) * unit :=
  (Return (Some {| _data := ["Ditto"];
                   _pagination := {| page := page; page_size := page_size;
                                     total_count := 1; total_pages := 1;
                                     has_next := true; has_previous := false |};
                   _fetcher := f |}), s).

(** The three pages, with the third fetch failing. *)
Definition third_fails (f : unit) (page page_size : Z) (s : unit)
    : result pyexn (option (Page string unit)) * unit :=
  if page =? 3 then (Raise (HttpxNetworkError "connection refused"), s)
  else three_pages f page page_size s.

(* ================================================================= *)
(** ** client/resources/base.py *)

Module Base.

(** [BaseResource._build_query] applied to keyword arguments, given in
    the order of the call. *)
Definition _build_query (kwargs : list (string * pyvalue))
    : list (string * pyvalue) :=
  filter (fun kv => is_not_None (snd kv)) kwargs.

(** [type(v).__name__]. *)
Definition type_name (v : pyvalue) : string :=
  match v with
  | PNone => "NoneType"
  | PBool _ => "bool"
  | PInt _ => "int"
  | PFloat _ => "float"
  | PStr _ => "str"
  | PList _ => "list"
  | PDict _ => "dict"
  end.

(** The [AttributeError] of [v.get(...)] on a value that is not a mapping. *)
Definition no_attribute_get (v : pyvalue) : pyexn :=
  OtherException ("'" ++ type_name v ++ "' object has no attribute 'get'").

(** The [TypeError] of iterating a value that cannot be iterated. *)
Definition not_iterable (v : pyvalue) : pyexn :=
  OtherException ("'" ++ type_name v ++ "' object is not iterable").

(** [d.get(key)] on a mapping, whose keys are distinct: the value, or
    [None] for a missing key. *)
Definition py_get (key : string) (d : list (string * pyvalue)) : pyvalue :=
  match dict_get key d with
  | Some v => v
  | None => PNone
  end.

(** An item of a page: a validated model, or the raw value when the
    response held something else than a mapping there. *)
Inductive Item (Mdl : Type) : Type :=
| Validated (m : Mdl)
| Raw (v : pyvalue).
Arguments Validated {Mdl} m.
Arguments Raw {Mdl} v.

Section PagedResponse.

(** The model class [item_type], with its [model_validate], and the
    fetcher closures. *)
Variable Mdl : Type.
Variable validate : pyvalue -> result string Mdl.
Variable F : Type.

(** [for item in data]: the items a value yields when iterated (a string
    yields its characters, a mapping its keys). *)
Definition iterate (data : pyvalue) : result pyexn (list pyvalue) :=
  match data with
  | PList l => Return l
  | PStr s => Return (map (fun c => PStr (String c "")) (list_ascii_of_string s))
  | PDict d => Return (map (fun kv => PStr (fst kv)) d)
  | v => Raise (not_iterable v)
  end.

(** The list comprehension over the items, left to right. *)
Fixpoint validate_items (l : list pyvalue) : result pyexn (list (Item Mdl)) :=
  match l with
  | [] => Return []
  | item :: tl =>
      let first :=
        match item with
        | PDict _ =>
            match validate item with
            | Return m => Return (Validated m)
            | Raise text => Raise (ValidationFailure text)
            end
        | _ => Return (Raw item)
        end in
      match first with
      | Raise e => Raise e
      | Return x =>
          match validate_items tl with
          | Return xs => Return (x :: xs)
          | Raise e => Raise e
          end
      end
  end.

(** [BaseResource._create_paged_response(response, item_type, fetcher)].
    A truthy [pagination] entry that is not a mapping makes [create_page]
    raise on its first [.get]; the result is [Return None] where
    [create_page] is outside its model. *)
Definition _create_paged_response (response : pyvalue) (fetcher : F)
    : result pyexn (option (Page (Item Mdl) F)) :=
  match response with
  | PDict d =>
      let got := py_get "data" d in
      let data := if truthy got then got else PList [] in
      match iterate data with
      | Raise e => Raise e
      | Return raw =>
          match validate_items raw with
          | Raise e => Raise e
          | Return items =>
              match py_get "pagination" d with
              | PDict info => Return (create_page items (Some info) fetcher)
              | v =>
                  if truthy v then Raise (no_attribute_get v)
                  else Return (create_page items None fetcher)
              end
          end
      end
  | v => Raise (no_attribute_get v)
  end.

End PagedResponse.

End Base.

Arguments Base.validate_items {Mdl} validate l.
Arguments Base._create_paged_response {Mdl} validate {F} response fetcher.

(* ================================================================= *)
(** ** client/resources/cards.py and favorites.py *)

Module Cards.
Section Get.

Variable E : Type.
Variable py_int : string -> result string Z.
Variable model_validate : pyvalue -> result string ProblemDetails.
Variable str_float : Q -> string.

(** The model class [CardDetail], with its [model_validate]. *)
Variable CardDetail : Type.
Variable validate_card : pyvalue -> result string CardDetail.

(** [CardsResource.get(id)]; [self] is the [_http] of the resource. *)
Definition get (self : HttpClient E) (id : string) : M E CardDetail :=
  response <- Http.get py_int model_validate str_float self ("/Cards/" ++ id) None ;;
  let not_found := raise (SDK (NotFoundError "Card not found" None)) in
  if negb (truthy response) then not_found
  else
    match response with
    | PDict d =>
        if negb (truthy (Base.py_get "data" d)) then not_found
        else
          match validate_card (Base.py_get "data" d) with
          | Return card => ret card
          | Raise text => raise (Foreign (ValidationFailure text))
          end
    | v => raise (Foreign (Base.no_attribute_get v))
    end.

End Get.
End Cards.

Arguments Cards.get {E} py_int model_validate str_float {CardDetail}
  validate_card self id w.

Module Favorites.

(** [ListFavoritesOptions]. *)
Record ListFavoritesOptions : Type := {
  page : Z;
  page_size : Z
}.

Definition default_options : ListFavoritesOptions :=
  {| page := 1; page_size := 20 |}.

(** The closure [fetcher] that [list] defines; it captures [self] only. *)
Inductive Fetcher : Type := ListAgain.

Section List.

Variable E : Type.
Variable py_int : string -> result string Z.
Variable model_validate : pyvalue -> result string ProblemDetails.
Variable str_float : Q -> string.

(** The model class [FavoriteCard], with its [model_validate]. *)
Variable FavoriteCard : Type.
Variable validate_favorite : pyvalue -> result string FavoriteCard.

(** [FavoritesResource.list(options)]; [self] is the [_http] of the
    resource. *)
Definition list (self : HttpClient E) (options : option ListFavoritesOptions)
    : M E (option (Page (Base.Item FavoriteCard) Fetcher)) :=
  let opts := match options with
              | Some o => o
              | None => default_options
              end in
  let query := Base._build_query [("page", PInt (page opts));
                                  ("pageSize", PInt (page_size opts))] in
  response <- Http.get py_int model_validate str_float self "/Favorites"
                (Some query) ;;
  lift E (Base._create_paged_response validate_favorite response ListAgain).

(** The body of the closure: [fetcher(page, page_size)]. *)
Definition fetcher (self : HttpClient E) (page page_size : Z)
    : M E (option (Page (Base.Item FavoriteCard) Fetcher)) :=
  list self (Some {| page := page; page_size := page_size |}).

End List.
End Favorites.

Arguments Favorites.list {E} py_int model_validate str_float {FavoriteCard}
  validate_favorite self options w.
Arguments Favorites.fetcher {E} py_int model_validate str_float {FavoriteCard}
  validate_favorite self page page_size w.

(* ================================================================= *)
(** ** client/client.py *)

Module Client.
Section Client.

Variable E : Type.
Variable py_int : string -> result string Z.
Variable model_validate : pyvalue -> result string ProblemDetails.
Variable str_float : Q -> string.

(** [PokeForgeClientConfig()]. *)
Definition default_config : PokeForgeClientConfig E :=
  {| base_url := "https://api.pokeforge.gg";
     auth := None;
     timeout := 30;
     retries := 3;
     retry_config := default_RetryConfig |}.

(** A [PokeForgeClient]: its configuration and its [HttpClient], which all
    its resources share. *)
Record PokeForgeClient : Type := {
  _config : PokeForgeClientConfig E;
  _http : HttpClient E
}.

(** [PokeForgeClient.__init__(config)]. *)
Definition init (config : option (PokeForgeClientConfig E)) : PokeForgeClient :=
  let c := match config with
           | Some c => c
           | None => default_config
           end in
  {| _config := c; _http := init_HttpClient c |}.

(** [PokeForgeClient.__aenter__()]. *)
Definition aenter (self : PokeForgeClient) (transport : Transport E)
    : PokeForgeClient :=
  {| _config := _config self;
     _http := aenter (_http self) transport |}.

(** [PokeForgeClient.__aexit__(...)]. *)
Definition aexit (self : PokeForgeClient) : PokeForgeClient :=
  {| _config := _config self; _http := aexit (_http self) |}.

(** The keyword arguments of [with_config]: the fields to replace. Names
    that are not fields of the configuration, on which [replace] raises,
    have no counterpart. *)
Record Changes : Type := {
  new_base_url : option string;
  new_auth : option (AuthConfig E);
  new_timeout : option Q;
  new_retries : option Z;
  new_retry_config : option RetryConfig
}.

(** [dataclasses.replace] of [config] with the keyword arguments. *)
Definition replace (config : PokeForgeClientConfig E) (kwargs : Changes)
    : PokeForgeClientConfig E :=
  {| base_url := match new_base_url kwargs with
                 | Some v => v
                 | None => base_url config
                 end;
     auth := match new_auth kwargs with
             | Some v => v
             | None => auth config
             end;
     timeout := match new_timeout kwargs with
                | Some v => v
                | None => timeout config
                end;
     retries := match new_retries kwargs with
                | Some v => v
                | None => retries config
                end;
     retry_config := match new_retry_config kwargs with
                     | Some v => v
                     | None => retry_config config
                     end |}.

(** [PokeForgeClient.with_config] applied to keyword arguments. *)
Definition with_config (self : PokeForgeClient) (kwargs : Changes)
    : PokeForgeClient :=
  init (Some (replace (_config self) kwargs)).

(** [PokeForgeClient.health()]. *)
Definition health (self : PokeForgeClient) : M E unit :=
  Http.get py_int model_validate str_float (_http self) "/health" None ;;;
  ret tt.

End Client.
End Client.

Arguments Client._config {E} p.
Arguments Client._http {E} p.
Arguments Client.init {E} config.
Arguments Client.aenter {E} self transport.
Arguments Client.aexit {E} self.
Arguments Client.new_base_url {E} c.
Arguments Client.new_auth {E} c.
Arguments Client.new_timeout {E} c.
Arguments Client.new_retries {E} c.
Arguments Client.new_retry_config {E} c.
Arguments Client.replace {E} config kwargs.
Arguments Client.with_config {E} self kwargs.
Arguments Client.health {E} py_int model_validate str_float self w.

(** A 204. *)
Definition no_content_204 : Response :=
  {| status_code := 204; resp_headers := []; resp_json := Raise "no content" |}.

(** A 200 whose envelope holds no data. *)
Definition empty_envelope_200 : Response :=
  json_response 200 [] (PDict [("success", PBool true); ("data", PNone)]).

(* ================================================================= *)
(** * Properties *)

(* ----------------------------------------------------------------- *)
(** ** Error classification *)

Lemma error_map_get_cases (status : Z) :
  (status = 400 /\ error_map_get status = ClsValidationError)
  \/ (status = 401 /\ error_map_get status = ClsAuthenticationError)
  \/ (status = 403 /\ error_map_get status = ClsForbiddenError)
  \/ (status = 404 /\ error_map_get status = ClsNotFoundError)
  \/ (status = 429 /\ error_map_get status = ClsRateLimitError)
  \/ (status <> 400 /\ status <> 401 /\ status <> 403 /\ status <> 404
      /\ status <> 429 /\ error_map_get status = ClsPokeForgeError).
Proof.
  unfold error_map_get.
  destruct (Z.eqb_spec status 400); [tauto|].
  destruct (Z.eqb_spec status 401); [tauto|].
  destruct (Z.eqb_spec status 403); [tauto|].
  destruct (Z.eqb_spec status 404); [tauto|].
  destruct (Z.eqb_spec status 429); tauto.
Qed.

Lemma str_truthy_false (o : option string) :
  str_truthy o = false <-> blank o.
Proof.
  unfold blank. destruct o as [s|]; simpl.
  - destruct (String.eqb_spec s ""); simpl; split; intros H.
    + right. now subst.
    + reflexivity.
    + discriminate.
    + destruct H as [H|H]; [discriminate | congruence].
  - split; auto.
Qed.

Lemma str_truthy_true (o : option string) :
  str_truthy o = true <-> exists s, o = Some s /\ s <> "".
Proof.
  destruct o as [s|]; simpl.
  - destruct (String.eqb_spec s ""); simpl; split; intros H.
    + discriminate.
    + destruct H as (s' & [= <-] & Hne). contradiction.
    + eauto.
    + reflexivity.
  - split; [discriminate | intros (s & H & _); discriminate].
Qed.

Lemma response_message_spec (status : Z) (pd : option ProblemDetails) :
  (forall t, body_title pd = Some t -> t <> "" -> response_message status pd = t)
  /\ (forall d, blank (body_title pd) -> body_detail pd = Some d -> d <> "" ->
      response_message status pd = d)
  /\ (blank (body_title pd) -> blank (body_detail pd) ->
      response_message status pd = "HTTP " ++ str_int status ++ " error").
Proof.
  unfold response_message, body_title, body_detail, blank, str_truthy.
  destruct pd as [p|]; [|repeat split; intros; congruence].
  destruct (pd_title p) as [t|], (pd_detail p) as [d|];
    try destruct (String.eqb_spec t ""); try destruct (String.eqb_spec d "");
    simpl; repeat split; intros; subst;
    repeat match goal with
           | H : _ \/ _ |- _ => destruct H
           end;
    congruence.
Qed.

(** C4, as amended. For every status and every body that validates as
    problem details [pd] (an absent or falsy body gives no problem details),
    [from_response] returns an error of the class chosen by the status:
    [ValidationError] for 400, [AuthenticationError] for 401,
    [ForbiddenError] for 403, [NotFoundError] for 404, [RateLimitError] for
    429 and plain [PokeForgeError] for any other status. Its message is the
    title when the title is present and not empty; else the detail when the
    detail is present and not empty; else ["HTTP {status} error"]. *)
Theorem from_response_classifies
    (model_validate : pyvalue -> result string ProblemDetails)
    (status : Z) (body : option pyvalue) (pd : option ProblemDetails) :
  validate_body model_validate body = Return pd ->
  exists e,
    from_response model_validate status body = Return e
    /\ (status = 400 -> cls e = ClsValidationError)
    /\ (status = 401 -> cls e = ClsAuthenticationError)
    /\ (status = 403 -> cls e = ClsForbiddenError)
    /\ (status = 404 -> cls e = ClsNotFoundError)
    /\ (status = 429 -> cls e = ClsRateLimitError)
    /\ (status <> 400 -> status <> 401 -> status <> 403 -> status <> 404 ->
        status <> 429 -> cls e = ClsPokeForgeError)
    /\ (forall t, body_title pd = Some t -> t <> "" -> message e = t)
    /\ (forall d, blank (body_title pd) -> body_detail pd = Some d -> d <> "" ->
        message e = d)
    /\ (blank (body_title pd) -> blank (body_detail pd) ->
        message e = "HTTP " ++ str_int status ++ " error").
Proof.
  intros Hv. unfold from_response. rewrite Hv.
  pose proof (response_message_spec status pd) as (Ht & Hd & Hdef).
  assert (Hmsg : forall e, message e = response_message status pd ->
                 (forall t, body_title pd = Some t -> t <> "" -> message e = t)
                 /\ (forall d, blank (body_title pd) -> body_detail pd = Some d ->
                     d <> "" -> message e = d)
                 /\ (blank (body_title pd) -> blank (body_detail pd) ->
                     message e = "HTTP " ++ str_int status ++ " error")).
  { intros e ->. auto. }
  assert (Hval : message (ValidationError (response_message status pd) pd)
                 = response_message status pd
                 /\ cls (ValidationError (response_message status pd) pd)
                    = ClsValidationError).
  { unfold ValidationError. destruct pd as [p|]; [|split; reflexivity].
    destruct (pd_errors p) as [[|? ?]|]; split; reflexivity. }
  destruct (error_map_get_cases status)
    as [[-> ->]|[[-> ->]|[[-> ->]|[[-> ->]|[[-> ->]|(H0 & H1 & H3 & H4 & H9 & ->)]]]]];
    simpl; eexists; (split; [reflexivity|]);
    repeat match goal with
           | |- (_ = _ -> _) /\ _ => split; [intros; try lia; try reflexivity|]
           | |- (_ <> _ -> _) /\ _ => split; [intros; try lia; try reflexivity|]
           end;
    try (apply Hmsg; reflexivity); try contradiction.
  - apply Hval.
  - apply Hmsg, Hval.
Qed.

(** C4, as stated, fails on a body whose title is present and empty: the
    message is the detail, not the title. *)
Lemma from_response_empty_title :
  let body := Some (PDict [("title", PStr ""); ("detail", PStr "gone")]) in
  exists pd e,
    validate_body fields_validate body = Return pd
    /\ from_response fields_validate 404 body = Return e
    /\ body_title pd = Some ""
    /\ message_as_specified 404 pd = ""
    /\ message e = "gone"
    /\ message e <> message_as_specified 404 pd.
Proof.
  simpl. eexists. eexists.
  repeat split; try reflexivity. discriminate.
Qed.

(** The 404 body [{"title": "Not Found"}] of §8. *)
Lemma from_response_not_found :
  validate_body fields_validate (Some (PDict [("title", PStr "Not Found")]))
  = Return (Some {| pd_type := None; pd_title := Some "Not Found";
                    pd_status := None; pd_detail := None;
                    pd_instance := None; pd_errors := None |})
  /\ exists e,
       from_response fields_validate 404
         (Some (PDict [("title", PStr "Not Found")])) = Return e
       /\ cls e = ClsNotFoundError
       /\ message e = "Not Found".
Proof.
  split; [reflexivity|].
  destruct (from_response_classifies fields_validate 404
              (Some (PDict [("title", PStr "Not Found")])) _ eq_refl)
    as (e & He & _ & _ & _ & H404 & _ & _ & Ht & _).
  exists e. split; [exact He|]. split.
  - apply H404. reflexivity.
  - apply Ht; [reflexivity | discriminate].
Defined.

(* ----------------------------------------------------------------- *)
(** ** Retry delays *)

Lemma py_min_Qmin (a b : Q) : py_min a b = Qmin a b.
Proof.
  unfold py_min, Qmin, GenericMinMax.gmin.
  destruct (Qle_bool a b) eqn:Hle.
  - apply Qle_bool_iff in Hle.
    destruct (a ?= b)%Q eqn:Hc; try reflexivity.
    apply Qgt_alt in Hc. exfalso. exact (Qlt_not_le _ _ Hc Hle).
  - destruct (a ?= b)%Q eqn:Hc; try reflexivity.
    + apply Qeq_alt in Hc.
      assert (Hab : (a <= b)%Q) by (rewrite Hc; apply Qle_refl).
      apply Qle_bool_iff in Hab. congruence.
    + apply Qlt_alt in Hc. apply Qlt_le_weak, Qle_bool_iff in Hc. congruence.
Qed.

Lemma float_limit_bounds : 2 ^ 1023 < float_limit < 2 ^ 1024.
Proof. split; vm_compute; reflexivity. Qed.

Lemma power_converts (k : Z) :
  0 <= k -> converts_to_float (2 ^ k) = (k <? 1024).
Proof.
  intros Hk. unfold converts_to_float.
  rewrite Z.abs_eq by (apply Z.pow_nonneg; lia).
  pose proof float_limit_bounds as [Hlo Hhi].
  destruct (Z.ltb_spec k 1024) as [H|H].
  - apply Z.ltb_lt.
    assert (2 ^ k <= 2 ^ 1023) by (apply Z.pow_le_mono_r; lia). lia.
  - apply Z.ltb_ge.
    assert (2 ^ 1024 <= 2 ^ k) by (apply Z.pow_le_mono_r; lia). lia.
Qed.

Lemma times_power_of_two_computed (base : Q) (k : Z) :
  0 <= k < 1024 ->
  times_power_of_two base k = Return (base * 2 ^ k)%Q.
Proof.
  intros [H0 H1]. unfold times_power_of_two.
  destruct (Z.leb_spec 0 k); [|lia].
  rewrite (power_converts k H0).
  destruct (Z.ltb_spec k 1024); [reflexivity | lia].
Qed.


Lemma div_1000_computed (ms : Z) :
  Z.abs ms < 1000 * float_limit ->
  div_1000 ms = Return (inject_Z ms / 1000)%Q.
Proof.
  intros H. unfold div_1000.
  destruct (Z.ltb_spec (Z.abs ms) (1000 * float_limit)); [reflexivity | lia].
Qed.

Lemma div_1000_overflow (ms : Z) :
  1000 * float_limit <= Z.abs ms ->
  div_1000 ms = Raise division_too_large.
Proof.
  intros H. unfold div_1000.
  destruct (Z.ltb_spec (Z.abs ms) (1000 * float_limit)); [lia | reflexivity].
Qed.

(** Without a hint in play the error does not matter. *)
Lemma calculate_delay_no_hint (rc : RetryConfig) (attempt : Z)
    (error : option PokeForgeError) :
  no_hint error ->
  _calculate_delay rc attempt error = _calculate_delay rc attempt None.
Proof.
  unfold no_hint, _calculate_delay, get_retry_after.
  destruct error as [e|]; [|reflexivity].
  intros H. destruct (cls e); simpl; try reflexivity.
  destruct (H eq_refl) as [-> | ->]; reflexivity.
Qed.

Lemma calculate_delay_backoff (rc : RetryConfig) (attempt : Z) :
  1 <= attempt <= 1024 ->
  _calculate_delay rc attempt None
  = Return (if exponential rc
            then py_min (base_delay rc * 2 ^ (attempt - 1)) (max_delay rc)
            else base_delay rc).
Proof.
  intros H. unfold _calculate_delay.
  destruct (exponential rc); [|reflexivity].
  rewrite times_power_of_two_computed by lia. reflexivity.
Qed.


Lemma calculate_delay_constant (rc : RetryConfig) (attempt : Z) :
  exponential rc = false ->
  _calculate_delay rc attempt None = Return (base_delay rc).
Proof.
  intros Hexp. unfold _calculate_delay. rewrite Hexp. reflexivity.
Qed.

(** What [_calculate_delay] raises is neither a timeout nor a connectivity
    failure of the transport. *)
Lemma calculate_delay_raises (rc : RetryConfig) (attempt : Z)
    (error : option PokeForgeError) (x : pyexn) :
  _calculate_delay rc attempt error = Raise x ->
  exists t, x = OtherException t.
Proof.
  unfold _calculate_delay.
  assert (Hrest : forall h : option Z,
            match h with
            | Some ms =>
                match div_1000 ms with
                | Return seconds => Return (py_min seconds (max_delay rc))
                | Raise x => Raise x
                end
            | None =>
                if exponential rc then
                  match times_power_of_two (base_delay rc) (attempt - 1) with
                  | Return delay => Return (py_min delay (max_delay rc))
                  | Raise x => Raise x
                  end
                else Return (base_delay rc)
            end = Raise x -> exists t, x = OtherException t).
  { intros [ms|].
    - unfold div_1000. destruct (_ <? _); [discriminate|].
      intros [= <-]. unfold division_too_large. eauto.
    - destruct (exponential rc); [|discriminate].
      unfold times_power_of_two. destruct (if 0 <=? _ then _ else _);
        [discriminate|].
      intros [= <-]. unfold int_too_large. eauto. }
  destruct error as [e|]; [|exact (Hrest None)].
  destruct (ErrorClass_eqb (cls e) ClsRateLimitError); [|exact (Hrest None)].
  unfold get_retry_after. destruct (retry_after e) as [|r].
  - intros [= <-]. unfold no_attribute. eauto.
  - exact (Hrest (if int_truthy r then r else None)).
Qed.

Lemma calculate_delay_hinted (rc : RetryConfig) (attempt : Z)
    (e : PokeForgeError) (ms : Z) :
  cls e = ClsRateLimitError ->
  retry_after e = Attribute (Some ms) ->
  ms <> 0 ->
  _calculate_delay rc attempt (Some e)
  = match div_1000 ms with
    | Return seconds => Return (py_min seconds (max_delay rc))
    | Raise x => Raise x
    end.
Proof.
  intros Hc Hr Hms. unfold _calculate_delay, get_retry_after.
  rewrite Hc, Hr. simpl.
  destruct (Z.eqb_spec ms 0); [contradiction|]. reflexivity.
Qed.

(** C2, as amended. For every attempt number and every retry configuration,
    when [_calculate_delay] is given a [RateLimitError] whose [retry_after]
    is a non-zero number of milliseconds, then, whatever the attempt number
    and the [exponential] flag: if that number, in seconds, is within the
    range of a float (its magnitude is below [1000 * (2^1024 - 2^970)]
    milliseconds), the delay in seconds is
    [min(retry_after / 1000, max_delay)]; otherwise the division raises
    [OverflowError] and no delay is computed. *)
Theorem calculate_delay_hint (rc : RetryConfig) (attempt : Z)
    (e : PokeForgeError) (ms : Z) :
  cls e = ClsRateLimitError ->
  retry_after e = Attribute (Some ms) ->
  ms <> 0 ->
  (Z.abs ms < 1000 * float_limit ->
   _calculate_delay rc attempt (Some e)
   = Return (hinted_delay_as_specified rc ms))
  /\ (1000 * float_limit <= Z.abs ms ->
      _calculate_delay rc attempt (Some e) = Raise division_too_large).
Proof.
  intros Hc Hr Hms.
  rewrite (calculate_delay_hinted rc attempt e ms Hc Hr Hms).
  split; intros H.
  - rewrite (div_1000_computed ms H). unfold hinted_delay_as_specified.
    now rewrite py_min_Qmin.
  - now rewrite (div_1000_overflow ms H).
Qed.

(** [retry_after = 5000] with [max_delay = 30] gives 5 seconds, at attempt 7
    and without exponential backoff as well. *)
Lemma calculate_delay_hint_5000 :
  let e := RateLimitError "Rate Limit Exceeded" None (Some 5000) in
  let rc := {| base_delay := 1; max_delay := 30; exponential := false |} in
  (cls e = ClsRateLimitError /\ retry_after e = Attribute (Some 5000)
   /\ 5000 <> 0)
  /\ exists d, _calculate_delay rc 7 (Some e) = Return d /\ (d == 5)%Q.
Proof.
  intros e rc. split; [repeat split; discriminate|].
  destruct (calculate_delay_hint rc 7 e 5000 eq_refl eq_refl) as [H _];
    [discriminate|].
  eexists. split; [apply H; vm_compute; reflexivity | reflexivity].
Defined.

(** C2, as stated, fails on a [RateLimitError] that carries
    [retry_after = 0] (from [Retry-After: 0]): the delay is the computed
    backoff and changes with the attempt number. *)
Lemma calculate_delay_zero_hint :
  let e := RateLimitError "Rate Limit Exceeded" None (Some 0) in
  cls e = ClsRateLimitError
  /\ retry_after e = Attribute (Some 0)
  /\ (hinted_delay_as_specified default_RetryConfig 0 == 0)%Q
  /\ exists d1 d2,
       _calculate_delay default_RetryConfig 1 (Some e) = Return d1
       /\ _calculate_delay default_RetryConfig 2 (Some e) = Return d2
       /\ (d1 == 1)%Q /\ (d2 == 2)%Q
       /\ ~ (d2 == hinted_delay_as_specified default_RetryConfig 0)%Q.
Proof.
  split; [reflexivity|]. split; [reflexivity|]. split; [reflexivity|].
  eexists. eexists.
  split; [vm_compute; reflexivity|]. split; [vm_compute; reflexivity|].
  split; [reflexivity|]. split; [reflexivity|].
  intros H. discriminate H.
Qed.

(** A hint of [10 ** 400] milliseconds, well formed as an [int], has no
    float quotient: [_calculate_delay] raises. *)
Lemma calculate_delay_hint_too_large :
  let e := RateLimitError "Rate Limit Exceeded" None (Some (10 ^ 400)) in
  _calculate_delay default_RetryConfig 1 (Some e) = Raise division_too_large.
Proof. vm_compute. reflexivity. Qed.




(* ----------------------------------------------------------------- *)
(** ** Query parameters *)

Lemma filter_none_In (d : list (string * pyvalue)) (k : string) (v : pyvalue) :
  In (k, v) (_filter_none d) <-> In (k, v) d /\ v <> PNone.
Proof.
  unfold _filter_none. rewrite filter_In. simpl.
  split; intros [Hin Hv]; (split; [exact Hin|]).
  - intros ->. discriminate.
  - destruct v; try reflexivity. contradiction.
Qed.

Lemma request_params_entries (query : option (list (string * pyvalue))) :
  entries (request_params query) = _filter_none (entries query).
Proof.
  destruct query as [[|kv d]|]; reflexivity.
Qed.

(* ----------------------------------------------------------------- *)
(** ** One attempt *)

Section AttemptProperties.

Variable E : Type.
Variable py_int : string -> result string Z.
Variable model_validate : pyvalue -> result string ProblemDetails.
Variable str_float : Q -> string.

Variable self : HttpClient E.
Variable client : Transport E.
Variable req : Request.
Variable timeout_arg : option Q.
Variable max_attempts : Z.

Local Abbreviation loop := (request_loop py_int model_validate str_float
                          self client req timeout_arg max_attempts).
Local Abbreviation handle := (_handle_error_response py_int model_validate).

(** The message of the [TimeoutError] raised by [request]. *)
Local Abbreviation timeout_text :=
  ("Request timed out after "
   ++ str_float (if float_truthy timeout_arg
                 then match timeout_arg with
                      | Some t => t
                      | None => timeout (_config self)
                      end
                 else timeout (_config self))
   ++ "s").

Ltac run_attempt H :=
  simpl; unfold bind, try_except, try_block, bind, client_request;
  rewrite H; simpl.

Lemma handle_raises (r : Response) (x : pyexn) :
  handle r = Raise x ->
  (exists t, x = ValueError t) \/ (exists t, x = ValidationFailure t).
Proof.
  assert (Hfrom : forall st b x', from_response model_validate st b = Raise x' ->
                  exists t, x' = ValidationFailure t).
  { intros st b x'. unfold from_response, validate_body.
    destruct b as [b|]; [destruct (truthy b); [destruct (model_validate b)|]|];
      simpl; repeat match goal with
                    | |- context [if ?c then _ else _] => destruct c
                    end; try discriminate.
    intros [= <-]. eauto. }
  unfold _handle_error_response.
  destruct (status_code r =? 429); [|intros H; right; eapply Hfrom; eauto].
  destruct (str_truthy _).
  - destruct (headers_get _ _) as [h|].
    + destruct (py_int h) as [n|t].
      * destruct (from_response _ _ _) eqn:Hf.
        -- destruct (ErrorClass_eqb _ _); discriminate.
        -- intros [= <-]. right. eapply Hfrom; eauto.
      * intros [= <-]. left. eauto.
    + destruct (from_response _ _ _) eqn:Hf.
      * destruct (ErrorClass_eqb _ _); discriminate.
      * intros [= <-]. right. eapply Hfrom; eauto.
  - destruct (from_response _ _ _) eqn:Hf.
    + destruct (ErrorClass_eqb _ _); discriminate.
    + intros [= <-]. right. eapply Hfrom; eauto.
Qed.

(** A transport timeout ends the call on the spot. *)
Lemma loop_timeout n attempt last w t e' :
  client req (env w) = (Raise (TimeoutException t), e') ->
  loop (S n) attempt last w
  = (Raise (SDK (set_cause (TimeoutError timeout_text)
                           (Some (TimeoutException t)))),
     record (EvSend req) e' w).
Proof.
  intros H. run_attempt H. reflexivity.
Qed.

(** A connectivity failure with attempts left: sleep, then go on. *)
Lemma loop_network_retry n attempt last w t e' d :
  client req (env w) = (Raise (HttpxNetworkError t), e') ->
  attempt < max_attempts ->
  _calculate_delay (_retry_config self) attempt None = Return d ->
  loop (S n) attempt last w
  = loop n (attempt + 1) (Some (HttpxNetworkError t))
      (record (EvSleep d) e' (record (EvSend req) e' w)).
Proof.
  intros H Hlt Hd. run_attempt H.
  apply Z.ltb_lt in Hlt. unfold except_clauses. rewrite Hlt.
  unfold bind. rewrite Hd. reflexivity.
Qed.


(** A connectivity failure on the last attempt. *)
Lemma loop_network_final n attempt last w t e' :
  client req (env w) = (Raise (HttpxNetworkError t), e') ->
  max_attempts <= attempt ->
  loop (S n) attempt last w
  = (Raise (SDK (NetworkError "Network error" (Some (HttpxNetworkError t)))),
     record (EvSend req) e' w).
Proof.
  intros H Hge. run_attempt H.
  apply Z.ltb_ge in Hge. unfold except_clauses. rewrite Hge. reflexivity.
Qed.

(** Any other exception of the transport. *)
Lemma loop_unexpected n attempt last w x e' :
  client req (env w) = (Raise x, e') ->
  (forall t, x <> TimeoutException t) ->
  (forall t, x <> HttpxNetworkError t) ->
  loop (S n) attempt last w
  = (Raise (SDK (NetworkError ("Unexpected error: " ++ exn_str x) (Some x))),
     record (EvSend req) e' w).
Proof.
  intros H Ht Hn. run_attempt H.
  destruct x; try reflexivity; [now elim (Ht text) | now elim (Hn text)].
Qed.

(** A response that is not a success and whose conversion to an error
    raises. *)
Lemma loop_conversion_raises n attempt last w r x e' :
  client req (env w) = (Return r, e') ->
  is_success r = false ->
  handle r = Raise x ->
  loop (S n) attempt last w
  = (Raise (SDK (NetworkError ("Unexpected error: " ++ exn_str x) (Some x))),
     record (EvSend req) e' w).
Proof.
  intros H Hs Hh. run_attempt H. rewrite Hs. unfold bind. rewrite Hh. simpl.
  destruct (handle_raises _ _ Hh) as [[t ->]|[t ->]]; reflexivity.
Qed.

(** An error response that is retried. *)
Lemma loop_status_retry n attempt last w r err e' d :
  client req (env w) = (Return r, e') ->
  is_success r = false ->
  handle r = Return err ->
  attempt < max_attempts ->
  status_code r = 429 \/ 500 <= status_code r ->
  _calculate_delay (_retry_config self) attempt (Some err) = Return d ->
  loop (S n) attempt last w
  = loop n (attempt + 1) last
      (record (EvSleep d) e' (record (EvSend req) e' w)).
Proof.
  intros H Hs Hh Hlt Hst Hd. run_attempt H. rewrite Hs. unfold bind.
  rewrite Hh. simpl.
  apply Z.ltb_lt in Hlt. rewrite Hlt.
  assert (Hr : (status_code r =? 429) || (500 <=? status_code r) = true).
  { apply orb_true_iff. destruct Hst as [Hst|Hst];
      [left; now apply Z.eqb_eq | right; now apply Z.leb_le]. }
  rewrite Hr. simpl. rewrite Hd. reflexivity.
Qed.

(** An error response that would be retried, and whose delay is not
    computed: what [_calculate_delay] raises inside the [try] block is
    caught by the last clause, and the call ends without a sleep. *)
Lemma loop_status_delay_raises n attempt last w r err e' x :
  client req (env w) = (Return r, e') ->
  is_success r = false ->
  handle r = Return err ->
  attempt < max_attempts ->
  status_code r = 429 \/ 500 <= status_code r ->
  _calculate_delay (_retry_config self) attempt (Some err) = Raise x ->
  loop (S n) attempt last w
  = (Raise (SDK (NetworkError ("Unexpected error: " ++ exn_str x) (Some x))),
     record (EvSend req) e' w).
Proof.
  intros H Hs Hh Hlt Hst Hd. run_attempt H. rewrite Hs. unfold bind.
  rewrite Hh. simpl.
  apply Z.ltb_lt in Hlt. rewrite Hlt.
  assert (Hr : (status_code r =? 429) || (500 <=? status_code r) = true).
  { apply orb_true_iff. destruct Hst as [Hst|Hst];
      [left; now apply Z.eqb_eq | right; now apply Z.leb_le]. }
  rewrite Hr. simpl. rewrite Hd.
  destruct (calculate_delay_raises _ _ _ _ Hd) as [t ->]. reflexivity.
Qed.

(** An error response that is not retried. *)
Lemma loop_status_final n attempt last w r err e' :
  client req (env w) = (Return r, e') ->
  is_success r = false ->
  handle r = Return err ->
  max_attempts <= attempt \/ (status_code r <> 429 /\ status_code r < 500) ->
  loop (S n) attempt last w = (Raise (SDK err), record (EvSend req) e' w).
Proof.
  intros H Hs Hh Hc. run_attempt H. rewrite Hs. unfold bind. rewrite Hh. simpl.
  assert (Hr : (attempt <? max_attempts)
               && ((status_code r =? 429) || (500 <=? status_code r)) = false).
  { destruct Hc as [Hge|[H429 H500]].
    - apply Z.ltb_ge in Hge. now rewrite Hge.
    - apply Z.eqb_neq in H429. apply Z.leb_gt in H500.
      rewrite H429, H500. apply andb_false_r. }
  rewrite Hr. reflexivity.
Qed.

(** Whatever happens, one attempt issues exactly one physical call, followed
    by at most one sleep; it sleeps exactly when the loop goes on. *)
Lemma attempt_shape attempt last w :
  exists res e' tl,
    try_except (try_block py_int model_validate self client req
                  max_attempts attempt last)
               (except_clauses str_float self timeout_arg max_attempts attempt) w
    = (res, {| env := e'; trace := trace w ++ EvSend req :: tl |})
    /\ ((tl = [] /\ forall l, res <> Return (Continue l))
        \/ (exists d l, tl = [EvSleep d] /\ res = Return (Continue l)
                        /\ attempt < max_attempts)).
Proof.
  unfold try_except, try_block, bind, client_request, record.
  destruct (client req (env w)) as [[r|x] e'] eqn:Hc; simpl.
  - destruct (is_success r).
    + destruct (status_code r =? 204); simpl.
      { do 3 eexists. split; [reflexivity|]. left. split; [reflexivity|discriminate]. }
      destruct (str_contains _ _); simpl.
      * unfold bind. destruct (resp_json r); simpl;
          do 3 eexists; (split; [reflexivity|]); left;
          (split; [reflexivity|discriminate]).
      * do 3 eexists. split; [reflexivity|]. left. split; [reflexivity|discriminate].
    + unfold bind. destruct (handle r) as [err|x] eqn:Hh; simpl.
      * destruct (attempt <? max_attempts) eqn:Hlt; simpl.
        -- destruct ((status_code r =? 429) || (500 <=? status_code r)); simpl.
           ++ destruct (_calculate_delay _ _ _) as [d|x] eqn:Hd; simpl.
              ** unfold record. simpl. rewrite <- app_assoc. simpl.
                 do 3 eexists. split; [reflexivity|]. right.
                 do 2 eexists. repeat split. now apply Z.ltb_lt.
              ** destruct (calculate_delay_raises _ _ _ _ Hd) as [t ->]. simpl.
                 do 3 eexists. split; [reflexivity|]. left.
                 split; [reflexivity|discriminate].
           ++ do 3 eexists. split; [reflexivity|]. left.
              split; [reflexivity|discriminate].
        -- do 3 eexists. split; [reflexivity|]. left.
           split; [reflexivity|discriminate].
      * destruct (handle_raises _ _ Hh) as [[t ->]|[t ->]]; simpl;
          do 3 eexists; (split; [reflexivity|]); left;
          (split; [reflexivity|discriminate]).
  - destruct x; simpl;
      try (do 3 eexists; (split; [reflexivity|]); left;
           (split; [reflexivity|discriminate])).
    destruct (attempt <? max_attempts) eqn:Hlt; simpl.
    + unfold bind. destruct (_calculate_delay _ _ _) as [d|x]; simpl.
      * unfold sleep, record. simpl. rewrite <- app_assoc. simpl.
        do 3 eexists. split; [reflexivity|]. right.
        do 2 eexists. repeat split. now apply Z.ltb_lt.
      * do 3 eexists. split; [reflexivity|]. left.
        split; [reflexivity|discriminate].
    + do 3 eexists. split; [reflexivity|]. left. split; [reflexivity|discriminate].
Qed.

(** The trace of the loop: only physical calls of [req] and sleeps, at most
    one call per value left in the range, and no sleep after the last call. *)
Lemma loop_trace n : forall attempt last w,
  exists res e' tr,
    loop n attempt last w = (res, {| env := e'; trace := trace w ++ tr |})
    /\ Forall (fun ev => ev = EvSend req \/ exists d, ev = EvSleep d) tr
    /\ (sends tr <= n)%nat
    /\ (sleeps tr <= sends tr)%nat.
Proof.
  induction n as [|n IH]; intros attempt last w.
  - simpl. unfold raise. exists (Raise (SDK (NetworkError
      "Request failed after retries" last))), (env w), []. split.
    + rewrite app_nil_r. destruct w; reflexivity.
    + repeat split; auto.
  - destruct (attempt_shape attempt last w) as (res & e' & tl & Hstep & Hcase).
    cbn [request_loop]. unfold bind at 1. rewrite Hstep.
    destruct Hcase as [[-> Hne]|(d & l & -> & -> & Hlt)].
    + destruct res as [[v|l]|x].
      * unfold ret. do 3 eexists. split; [reflexivity|].
        repeat split; [repeat constructor | cbv; lia | cbv; lia].
      * now elim (Hne l).
      * do 3 eexists. split; [reflexivity|].
        repeat split; [repeat constructor | cbv; lia | cbv; lia].
    + destruct (IH (attempt + 1) l
                  {| env := e'; trace := trace w ++ [EvSend req; EvSleep d] |})
        as (res' & e'' & tr & Hloop & Hall & Hsends & Hsleeps).
      rewrite Hloop. cbn [trace]. rewrite <- app_assoc.
      do 3 eexists. split; [reflexivity|].
      split; [|split].
      * constructor; [now left|]. constructor; [right; eauto | exact Hall].
      * unfold sends in *. simpl. lia.
      * unfold sends, sleeps in *. simpl. lia.
Qed.

End AttemptProperties.

(* ----------------------------------------------------------------- *)
(** ** Traces *)

Lemma sends_app (a b : list Event) : sends (a ++ b) = (sends a + sends b)%nat.
Proof. unfold sends. now rewrite filter_app, length_app. Qed.

Lemma token_calls_app (a b : list Event) :
  token_calls (a ++ b) = (token_calls a + token_calls b)%nat.
Proof. unfold token_calls. now rewrite filter_app, length_app. Qed.

Lemma sent_headers_app (a b : list Event) :
  sent_headers (a ++ b) = (sent_headers a ++ sent_headers b)%list.
Proof. unfold sent_headers. apply flat_map_app. Qed.

(** A trace made of physical calls of one request and of sleeps. *)
Lemma calls_of_one_request (req : Request) (tr : list Event) :
  Forall (fun ev => ev = EvSend req \/ exists d, ev = EvSleep d) tr ->
  token_calls tr = 0%nat
  /\ Forall (eq (req_headers req)) (sent_headers tr)
  /\ Forall (fun ev => forall r, ev = EvSend r -> r = req) tr.
Proof.
  induction 1 as [|ev tr [-> | [d ->]] _ (IHt & IHh & IHr)].
  - repeat split; constructor.
  - repeat split.
    + exact IHt.
    + simpl. constructor; [reflexivity | exact IHh].
    + constructor; [now intros r [= <-] | exact IHr].
  - repeat split.
    + exact IHt.
    + exact IHh.
    + constructor; [discriminate | exact IHr].
Qed.

(* ----------------------------------------------------------------- *)
(** ** The token provider and the headers *)

Section TokenProperties.

Variable E : Type.

Lemma headers_for_cases (token : option string) :
  (exists t, token = Some t /\ t <> ""
             /\ headers_for token = [("Authorization", "Bearer " ++ t)])
  \/ ((token = None \/ token = Some "") /\ headers_for token = []).
Proof.
  destruct token as [t|]; simpl; [|right; auto].
  destruct (String.eqb_spec t ""); [right; subst; auto | left; eauto].
Qed.

Lemma build_headers_get_token (self : HttpClient E) (w : World E) :
  _build_headers self w
  = match get_token (_token_manager self) w with
    | (Return token, w') => (Return (headers_for token), w')
    | (Raise e, w') => (Raise e, w')
    end.
Proof.
  unfold _build_headers, bind.
  destruct (get_token _ w) as [[[t|]|e] w']; simpl; try reflexivity.
  destruct (String.eqb t ""); reflexivity.
Qed.

(** With a callback and no usable static token, [get_token] is one call of
    the callback. *)
Lemma get_token_dynamic (tm : TokenManager E) (f : TokenFn E) (w : World E) :
  str_truthy (_static_token tm) = false ->
  _get_token_fn tm = Some f ->
  get_token tm w
  = (match fst (f (env w)) with
     | Return token => Return token
     | Raise x => Raise (Foreign x)
     end,
     record (EvToken (fst (f (env w)))) (snd (f (env w))) w).
Proof.
  intros Hs Hf. unfold get_token, call_token_fn. rewrite Hs, Hf.
  destruct (f (env w)) as [[token|x] e']; reflexivity.
Qed.

End TokenProperties.

(* ----------------------------------------------------------------- *)
(** ** The logical call *)

Section RequestProperties.

Variable E : Type.
Variable py_int : string -> result string Z.
Variable model_validate : pyvalue -> result string ProblemDetails.
Variable str_float : Q -> string.

Local Abbreviation run := (request py_int model_validate str_float).
Local Abbreviation loop := (request_loop py_int model_validate str_float).
Local Abbreviation handle := (_handle_error_response py_int model_validate).

Lemma request_open (self : HttpClient E) client method path query body
    timeout_arg no_retry w :
  _client self = Some client ->
  run self method path query body timeout_arg no_retry w
  = match _build_headers self w with
    | (Return hs, w1) =>
        loop self client
          (physical_request self method path query body timeout_arg hs)
          timeout_arg (max_attempts_of self no_retry)
          (Z.to_nat (max_attempts_of self no_retry)) 1 None w1
    | (Raise e, w1) => (Raise e, w1)
    end.
Proof.
  intros Hc. unfold request. rewrite Hc. unfold bind.
  destruct (_build_headers self w) as [[hs|e] w1]; reflexivity.
Qed.

(** Building the headers issues no physical call and consults the callback
    at most once. *)
Lemma build_headers_trace (self : HttpClient E) (w : World E) :
  exists tok : list Event,
    trace (snd (_build_headers self w)) = (trace w ++ tok)%list
    /\ sends tok = 0%nat
    /\ (token_calls tok <= 1)%nat.
Proof.
  rewrite build_headers_get_token. unfold get_token, call_token_fn.
  destruct (str_truthy _).
  - exists []. simpl. rewrite app_nil_r. auto.
  - destruct (_get_token_fn _) as [f|].
    + destruct (f (env w)) as [[token|x] e']; simpl;
        eexists; (split; [reflexivity|]); auto.
    + exists []. simpl. rewrite app_nil_r. auto.
Qed.

(** A response that is not a success. *)
Lemma retryable_not_success (r : Response) :
  retryable r -> is_success r = false.
Proof.
  unfold is_success. intros [Hr|Hr].
  - rewrite Hr. reflexivity.
  - apply andb_false_iff. right. apply Z.leb_gt. lia.
Qed.

(** When every physical call of the loop is answered by a retryable
    response that converts to an error, and from that error a delay is
    computed while values are left in the range, the loop uses up the
    range and raises the error of the last response. *)
Lemma loop_all_retryable (self : HttpClient E) client req timeout_arg max_attempts :
  forall n attempt last w,
    attempt + Z.of_nat n = max_attempts ->
    (forall i, (i <= n)%nat ->
       exists r err,
         fst (client req (attempt_state client req (env w) i)) = Return r
         /\ retryable r
         /\ handle r = Return err
         /\ ((i < n)%nat ->
             exists d, _calculate_delay (_retry_config self)
                         (attempt + Z.of_nat i) (Some err) = Return d)) ->
    exists r err e' tr,
      loop self client req timeout_arg max_attempts (S n) attempt last w
      = (Raise (SDK err), {| env := e'; trace := trace w ++ tr |})
      /\ fst (client req (attempt_state client req (env w) n)) = Return r
      /\ retryable r
      /\ handle r = Return err
      /\ sends tr = S n
      /\ sleeps tr = n.
Proof.
  induction n as [|n IH]; intros attempt last w Hmax Hall.
  - destruct (Hall 0%nat (Nat.le_refl _)) as (r & err & Hc & Hr & Hh & _).
    simpl in Hc. destruct (client req (env w)) as [res e'] eqn:Hcall.
    simpl in Hc. subst res.
    rewrite loop_status_final with (r := r) (err := err) (e' := e');
      [|assumption|now apply retryable_not_success|assumption|left; lia].
    exists r, err, e', [EvSend req]. simpl. rewrite Hcall.
    repeat split; auto.
  - destruct (Hall 0%nat (Nat.le_0_l _)) as (r & err & Hc & Hr & Hh & Hd).
    destruct Hd as [d Hd]; [lia|].
    simpl in Hc. destruct (client req (env w)) as [res e'] eqn:Hcall.
    simpl in Hc. subst res. rewrite Z.add_0_r in Hd.
    rewrite loop_status_retry with (r := r) (err := err) (e' := e') (d := d);
      [|assumption|now apply retryable_not_success|assumption|lia|assumption
       |assumption].
    destruct (IH (attempt + 1) last
                (record (EvSleep d) e' (record (EvSend req) e' w)))
      as (r' & err' & e'' & tr & Hloop & Hc' & Hr' & Hh' & Hsends & Hsleeps).
    + lia.
    + intros i Hi. destruct (Hall (S i) ltac:(lia)) as (ri & erri & H1 & H2 & H3 & H4).
      exists ri, erri. simpl in H1. rewrite Hcall in H1. simpl in H1.
      split; [exact H1|]. split; [exact H2|]. split; [exact H3|].
      intros Hlt. destruct H4 as [di Hdi]; [lia|].
      exists di. rewrite <- Hdi. f_equal. lia.
    + rewrite Hloop. simpl. rewrite <- !app_assoc. simpl.
      exists r', err', e'', (EvSend req :: EvSleep d :: tr).
      split; [reflexivity|]. simpl in Hc'.
      split; [simpl; rewrite Hcall; exact Hc'|].
      split; [exact Hr'|]. split; [exact Hh'|]. split.
      * unfold sends in *. simpl. now rewrite Hsends.
      * unfold sleeps in *. simpl. now rewrite Hsleeps.
Qed.

(** A loop with a value left in its range starts with a physical call. *)
Lemma loop_first_send (self : HttpClient E) client req timeout_arg max_attempts
    n attempt last w :
  exists tl : list Event,
    trace (snd (loop self client req timeout_arg max_attempts (S n) attempt
                  last w))
    = (trace w ++ EvSend req :: tl)%list.
Proof.
  destruct (attempt_shape E py_int model_validate str_float self client req
              timeout_arg max_attempts attempt last w)
    as (res & e' & tl & Hstep & Hcase).
  cbn [request_loop]. unfold bind at 1. rewrite Hstep.
  destruct res as [[v|l]|x]; try (exists tl; reflexivity).
  destruct (loop_trace E py_int model_validate str_float self client req
              timeout_arg max_attempts n (attempt + 1) l
              {| env := e'; trace := trace w ++ EvSend req :: tl |})
    as (res' & e'' & tr & Hloop & _).
  rewrite Hloop. simpl. rewrite <- app_assoc. simpl.
  exists (tl ++ tr)%list. reflexivity.
Qed.

(** The trace of a logical call: what building the headers left, then
    physical calls of one request and sleeps. *)
Lemma request_trace (self : HttpClient E) client method path query body
    timeout_arg no_retry w :
  _client self = Some client ->
  exists tok tr : list Event,
    trace (snd (_build_headers self w)) = (trace w ++ tok)%list
    /\ sends tok = 0%nat
    /\ (token_calls tok <= 1)%nat
    /\ trace (snd (run self method path query body timeout_arg no_retry w))
       = (trace w ++ tok ++ tr)%list
    /\ (sends tr <= Z.to_nat (max_attempts_of self no_retry))%nat
    /\ (sleeps tr <= sends tr)%nat
    /\ exists hs,
         Forall (fun ev =>
                   ev = EvSend (physical_request self method path query body
                                  timeout_arg hs)
                   \/ exists d, ev = EvSleep d) tr
         /\ forall hs' w1, _build_headers self w = (Return hs', w1) -> hs' = hs.
Proof.
  intros Hc. rewrite (request_open _ _ _ _ _ _ _ _ _ Hc).
  destruct (build_headers_trace self w) as (tok & Htok & Hsend & Hcalls).
  exists tok.
  destruct (_build_headers self w) as [[hs|e] w1] eqn:Hb; simpl in Htok.
  - destruct (loop_trace E py_int model_validate str_float self client
                (physical_request self method path query body timeout_arg hs)
                timeout_arg (max_attempts_of self no_retry)
                (Z.to_nat (max_attempts_of self no_retry)) 1 None w1)
      as (res & e' & tr & Hloop & Hall & Hn & Hsl).
    exists tr. rewrite Hloop. simpl. rewrite Htok, <- app_assoc.
    do 6 (split; [solve [auto]|]).
    exists hs. split; [exact Hall|]. now intros hs' w1' [= <- _].
  - exists []. simpl. rewrite app_nil_r.
    do 3 (split; [solve [auto]|]).
    split; [exact Htok|]. split; [apply Nat.le_0_l|]. split; [apply Nat.le_0_l|].
    exists []. split; [constructor | discriminate].
Qed.

(** C1, as amended. For every logical call of an opened client configured
    with a non-negative number of retries, at most [max_attempts] physical
    calls are made, where [max_attempts] is 1 with [no_retry] and
    [retries + 1] otherwise. When the headers are built and, on each of the
    [max_attempts] attempts of the call, the physical call is answered by a
    response with status 429 or at least 500 that
    [_handle_error_response] converts to an error, from which, while
    attempts are left, [_calculate_delay] computes a delay, then exactly
    [max_attempts] physical calls are made, a delay is slept between them,
    and the error converted from the last response is raised. A response
    with a 4xx status other than 429 that converts to an error ends the call
    with that error on the attempt it occurs on. *)
Theorem request_attempts (self : HttpClient E) client method path query body
    timeout_arg no_retry w :
  _client self = Some client ->
  0 <= _retries self ->
  let max_attempts := max_attempts_of self no_retry in
  (exists tr : list Event,
      trace (snd (run self method path query body timeout_arg no_retry w))
      = (trace w ++ tr)%list
      /\ Z.of_nat (sends tr) <= max_attempts)
  /\ (forall hs w1,
        _build_headers self w = (Return hs, w1) ->
        let req := physical_request self method path query body timeout_arg hs in
        (forall i, Z.of_nat i < max_attempts ->
           exists r err,
             fst (client req (attempt_state client req (env w1) i)) = Return r
             /\ retryable r
             /\ handle r = Return err
             /\ (Z.of_nat i + 1 < max_attempts ->
                 exists d, _calculate_delay (_retry_config self)
                             (Z.of_nat i + 1) (Some err) = Return d)) ->
        exists r err (tr : list Event),
          fst (run self method path query body timeout_arg no_retry w)
          = Raise (SDK err)
          /\ fst (client req (attempt_state client req (env w1)
                                (Z.to_nat (max_attempts - 1)))) = Return r
          /\ retryable r
          /\ handle r = Return err
          /\ trace (snd (run self method path query body timeout_arg no_retry w))
             = (trace w1 ++ tr)%list
          /\ Z.of_nat (sends tr) = max_attempts
          /\ Z.of_nat (sleeps tr) = max_attempts - 1)
  /\ (forall req n attempt last wk r e' err,
        client req (env wk) = (Return r, e') ->
        400 <= status_code r < 500 ->
        status_code r <> 429 ->
        handle r = Return err ->
        loop self client req timeout_arg max_attempts (S n) attempt last wk
        = (Raise (SDK err), record (EvSend req) e' wk)).
Proof.
  intros Hc Hret max_attempts.
  assert (Hmax : 1 <= max_attempts).
  { unfold max_attempts, max_attempts_of. destruct no_retry; lia. }
  split; [|split].
  - destruct (request_trace self client method path query body timeout_arg
                no_retry w Hc)
      as (tok & tr & _ & Hs0 & _ & Htr & Hn & _).
    exists (tok ++ tr)%list. split; [exact Htr|].
    rewrite sends_app, Hs0. fold max_attempts in Hn. lia.
  - intros hs w1 Hb req Hall.
    rewrite (request_open _ _ _ _ _ _ _ _ _ Hc), Hb.
    fold max_attempts. fold req.
    destruct (Z.to_nat max_attempts) as [|n] eqn:Hn; [lia|].
    replace (Z.to_nat (max_attempts - 1)) with n by lia.
    destruct (loop_all_retryable self client req timeout_arg max_attempts
                n 1 None w1 ltac:(lia))
      as (r & err & e' & tr & Hloop & Hc' & Hr & Hh & Hsends & Hsleeps).
    + intros i Hi. destruct (Hall i ltac:(lia)) as (ri & erri & H1 & H2 & H3 & H4).
      exists ri, erri. split; [exact H1|]. split; [exact H2|].
      split; [exact H3|]. intros Hlt. destruct H4 as [d Hd]; [lia|].
      exists d. rewrite <- Hd. f_equal. lia.
    + rewrite Hloop. simpl.
      exists r, err, tr. repeat split; auto; lia.
  - intros req n attempt last wk r e' err Hc' Hst H429 Hh.
    apply loop_status_final with (r := r); auto.
    + unfold is_success. apply andb_false_iff. right. apply Z.leb_gt. lia.
    + right. lia.
Qed.

(** C3, as amended. For every logical call, a timeout of the transport on
    any attempt makes [request] fail at once with [TimeoutError], whose
    cause is the timeout of the transport: that physical call is the last
    event of the call, so no further attempt is made and no backoff delay
    is slept, however many attempts remain. Of the two transport failures
    the loop tells apart, it is the one that is not retried: a connectivity
    failure with attempts left, after which [_calculate_delay] computes a
    delay, is followed by a sleep of that delay and the next attempt. *)
Theorem timeout_ends_call (self : HttpClient E) client req timeout_arg
    max_attempts :
  (forall n attempt last w t e',
      client req (env w) = (Raise (TimeoutException t), e') ->
      exists err,
        loop self client req timeout_arg max_attempts (S n) attempt last w
        = (Raise (SDK err), record (EvSend req) e' w)
        /\ cls err = ClsTimeoutError
        /\ message err
           = "Request timed out after "
             ++ str_float (if float_truthy timeout_arg
                           then match timeout_arg with
                                | Some t => t
                                | None => timeout (_config self)
                                end
                           else timeout (_config self))
             ++ "s"
        /\ cause err = Some (TimeoutException t))
  /\ (forall n attempt last w t e' d,
        client req (env w) = (Raise (HttpxNetworkError t), e') ->
        attempt < max_attempts ->
        _calculate_delay (_retry_config self) attempt None = Return d ->
        loop self client req timeout_arg max_attempts (S n) attempt last w
        = loop self client req timeout_arg max_attempts n (attempt + 1)
            (Some (HttpxNetworkError t))
            (record (EvSleep d) e' (record (EvSend req) e' w))).
Proof.
  split.
  - intros n attempt last w t e' Hc.
    rewrite loop_timeout with (t := t) (e' := e') by exact Hc.
    eexists. split; [reflexivity|]. repeat split.
  - intros n attempt last w t e' d Hc Hlt Hd.
    now apply loop_network_retry.
Qed.

(** C10, as amended. If a 429 response carries a [Retry-After] header whose
    value is not empty and that [int] does not parse, the call fails on that
    attempt, whatever the attempt number and the attempts left: the error
    raised is a [NetworkError], not a [RateLimitError], its message is
    ["Unexpected error: "] followed by the text of the [ValueError], and
    after the physical call nothing more happens: no sleep and no further
    attempt. *)
Theorem unparseable_retry_after (self : HttpClient E) client req timeout_arg
    max_attempts n attempt last w r e' h text :
  client req (env w) = (Return r, e') ->
  status_code r = 429 ->
  headers_get "retry-after" (resp_headers r) = Some h ->
  h <> "" ->
  py_int h = Raise text ->
  exists err,
    loop self client req timeout_arg max_attempts (S n) attempt last w
    = (Raise (SDK err), record (EvSend req) e' w)
    /\ cls err = ClsNetworkError
    /\ message err = "Unexpected error: " ++ text
    /\ cause err = Some (ValueError text).
Proof.
  intros Hc Hst Hh Hne Hint.
  assert (Hraise : handle r = Raise (ValueError text)).
  { unfold _handle_error_response. rewrite Hst, Hh. simpl.
    destruct (String.eqb_spec h ""); [contradiction|]. simpl.
    now rewrite Hint. }
  rewrite loop_conversion_raises with (r := r) (x := ValueError text) (e' := e');
    auto.
  - eexists. split; [reflexivity|]. repeat split.
  - unfold is_success. now rewrite Hst.
Qed.

(** C5, as amended. When the client is configured with a callback-based
    credential, the callback is consulted exactly once in a logical call,
    before the first physical attempt, and every physical attempt of the
    call, retries included, carries the headers made from the value the
    callback returned then. *)
Theorem token_consulted_once (self : HttpClient E) client f method path query
    body timeout_arg no_retry w :
  _client self = Some client ->
  str_truthy (_static_token (_token_manager self)) = false ->
  _get_token_fn (_token_manager self) = Some f ->
  exists tr : list Event,
    trace (snd (run self method path query body timeout_arg no_retry w))
    = (trace w ++ EvToken (fst (f (env w))) :: tr)%list
    /\ token_calls tr = 0%nat
    /\ forall token,
         fst (f (env w)) = Return token ->
         Forall (eq (headers_for token)) (sent_headers tr).
Proof.
  intros Hc Hs Hf.
  destruct (request_trace self client method path query body timeout_arg
              no_retry w Hc)
    as (tok & tr & Htok & _ & _ & Htr & _ & _ & hs & Hall & Hhs).
  rewrite build_headers_get_token, (get_token_dynamic E _ f w Hs Hf) in Htok.
  assert (Htok' : tok = [EvToken (fst (f (env w)))]).
  { destruct (fst (f (env w))); simpl in Htok;
      apply app_inv_head in Htok; now subst. }
  subst tok. exists tr. split; [now rewrite Htr|].
  destruct (calls_of_one_request _ _ Hall) as (H0 & Hh & _).
  split; [exact H0|].
  intros token Hret.
  assert (Hb : _build_headers self w
               = (Return (headers_for token),
                  record (EvToken (fst (f (env w)))) (snd (f (env w))) w)).
  { rewrite build_headers_get_token, (get_token_dynamic E _ f w Hs Hf), Hret.
    reflexivity. }
  rewrite <- (Hhs _ _ Hb) in Hh. exact Hh.
Qed.

(** C8, as amended. The headers built for a logical call hold
    [Authorization: Bearer <token>] if and only if the token provider
    yields a token that is neither [None] nor the empty string; otherwise
    they hold no [Authorization] header. Every physical attempt of the call
    carries exactly these headers. *)
Theorem authorization_header (self : HttpClient E) (w : World E) token w1 :
  get_token (_token_manager self) w = (Return token, w1) ->
  exists hs,
    _build_headers self w = (Return hs, w1)
    /\ ((exists t, token = Some t /\ t <> ""
                   /\ hs = [("Authorization", "Bearer " ++ t)])
        \/ ((token = None \/ token = Some "")
            /\ headers_get "Authorization" hs = None))
    /\ forall client method path query body timeout_arg no_retry,
         _client self = Some client ->
         exists tr : list Event,
           trace (snd (run self method path query body timeout_arg no_retry w))
           = (trace w1 ++ tr)%list
           /\ Forall (eq hs) (sent_headers tr).
Proof.
  intros Hg. exists (headers_for token).
  assert (Hb : _build_headers self w = (Return (headers_for token), w1)).
  { now rewrite build_headers_get_token, Hg. }
  split; [exact Hb|]. split.
  - destruct (headers_for_cases token) as [(t & -> & Hne & ->)|[Hblank ->]].
    + left. eauto.
    + right. split; [exact Hblank | reflexivity].
  - intros client method path query body timeout_arg no_retry Hc.
    destruct (request_trace self client method path query body timeout_arg
                no_retry w Hc)
      as (tok & tr & Htok & _ & _ & Htr & _ & _ & hs & Hall & Hhs).
    rewrite Hb in Htok. simpl in Htok.
    exists tr. rewrite Htr, Htok, app_assoc. split; [reflexivity|].
    rewrite (Hhs _ _ Hb).
    now destruct (calls_of_one_request _ _ Hall) as (_ & Hh & _).
Qed.

(** C9. For every query mapping passed to [request], the parameters of the
    physical calls are exactly the entries of the mapping whose value is
    not [None], unchanged and in their order; in particular entries whose
    value is the empty string, [0] or [False] are kept. Every physical call
    of the logical call carries these parameters; and a call of an opened
    client whose headers are built and that has an attempt to make begins
    with a physical call that carries them. *)
Theorem query_none_stripped (query : option (list (string * pyvalue))) :
  entries (request_params query)
  = filter (fun kv => is_not_None (snd kv)) (entries query)
  /\ (forall k v, In (k, v) (entries (request_params query))
                  <-> In (k, v) (entries query) /\ v <> PNone)
  /\ (forall k, In (k, PStr "") (entries query) ->
                In (k, PStr "") (entries (request_params query)))
  /\ (forall k, In (k, PInt 0) (entries query) ->
                In (k, PInt 0) (entries (request_params query)))
  /\ (forall k, In (k, PBool false) (entries query) ->
                In (k, PBool false) (entries (request_params query)))
  /\ (forall k, ~ In (k, PNone) (entries (request_params query)))
  /\ (forall (self : HttpClient E) client method path body timeout_arg
             no_retry w,
       _client self = Some client ->
       exists tr : list Event,
         trace (snd (run self method path query body timeout_arg no_retry w))
         = (trace w ++ tr)%list
         /\ Forall (fun ev => forall r, ev = EvSend r ->
                                        req_params r = request_params query) tr)
  /\ (forall (self : HttpClient E) client method path body timeout_arg
             no_retry w hs w1,
       _client self = Some client ->
       _build_headers self w = (Return hs, w1) ->
       1 <= max_attempts_of self no_retry ->
       exists r (tl : list Event),
         trace (snd (run self method path query body timeout_arg no_retry w))
         = (trace w1 ++ EvSend r :: tl)%list
         /\ req_params r = request_params query).
Proof.
  assert (Hin : forall k v, In (k, v) (entries (request_params query))
                            <-> In (k, v) (entries query) /\ v <> PNone).
  { intros k v. rewrite request_params_entries. apply filter_none_In. }
  split; [apply request_params_entries|].
  split; [exact Hin|].
  split; [intros k H; apply Hin; split; [exact H | discriminate]|].
  split; [intros k H; apply Hin; split; [exact H | discriminate]|].
  split; [intros k H; apply Hin; split; [exact H | discriminate]|].
  split; [intros k H; apply Hin in H; now destruct H|].
  split.
  - intros self client method path body timeout_arg no_retry w Hc.
    destruct (request_trace self client method path query body timeout_arg
                no_retry w Hc)
      as (tok & tr & Htok & Hs0 & _ & Htr & _ & _ & hs & Hall & _).
    exists (tok ++ tr)%list. split; [exact Htr|].
    apply Forall_app. split.
    + apply Forall_forall. intros ev Hev r ->.
      exfalso. unfold sends in Hs0.
      assert (Hf : In (EvSend r) (filter is_send tok))
        by (apply filter_In; split; [exact Hev | reflexivity]).
      destruct (filter is_send tok); [contradiction | discriminate].
    + destruct (calls_of_one_request _ _ Hall) as (_ & _ & Hr).
      eapply Forall_impl; [|exact Hr].
      intros ev Hev r Heq. now rewrite (Hev r Heq).
  - intros self client method path body timeout_arg no_retry w hs w1 Hc Hb Hmax.
    rewrite (request_open _ _ _ _ _ _ _ _ _ Hc), Hb.
    destruct (Z.to_nat (max_attempts_of self no_retry)) as [|n] eqn:Hn; [lia|].
    destruct (loop_first_send self client
                (physical_request self method path query body timeout_arg hs)
                timeout_arg (max_attempts_of self no_retry) n 1 None w1)
      as (tl & Htl).
    exists (physical_request self method path query body timeout_arg hs), tl.
    split; [exact Htl | reflexivity].
Qed.

End RequestProperties.

(* ----------------------------------------------------------------- *)
(** ** The logical call on the example worlds *)

(** Three attempts on a server that keeps answering 429 without
    [Retry-After], with [retries = 2]. *)
Lemma request_attempts_plain_429 :
  let self := anonymous_client 2 (constant_server plain_429) in
  let out := request decimal_int fields_validate whole_float self
               "GET" "/Cards" None None None false (start tt) in
  (_client self = Some (constant_server plain_429) /\ 0 <= _retries self)
  /\ exists err (tr : list Event),
       fst out = Raise (SDK err)
       /\ cls err = ClsRateLimitError
       /\ trace (snd out) = tr
       /\ Z.of_nat (sends tr) = 3
       /\ Z.of_nat (sleeps tr) = 2.
Proof.
  intros self out. split; [split; [reflexivity | discriminate]|].
  destruct (request_attempts unit decimal_int fields_validate whole_float self
              (constant_server plain_429) "GET" "/Cards" None None None false
              (start tt) eq_refl ltac:(discriminate))
    as (_ & Hall & _).
  destruct (Hall [] (start tt) eq_refl) as (r & err & tr & H).
  { intros i Hi. exists plain_429. eexists.
    split; [reflexivity|]. split; [left; reflexivity|].
    split; [reflexivity|]. intros Hlt.
    destruct i as [|[|i]]; [eexists; vm_compute; reflexivity ..|].
    exfalso. change (max_attempts_of self false) with 3 in Hlt. lia. }
  destruct H as (Hres & Hc & _ & Hh & Htr & Hsends & Hsleeps).
  exists err, tr. split; [exact Hres|].
  injection Hc as <-.
  split; [now injection Hh as <-|].
  split; [exact Htr|]. split; [exact Hsends | exact Hsleeps].
Defined.

(** C1, as stated, fails on a server that keeps answering 429 with a
    [Retry-After] that is an HTTP date: with [retries = 2] one physical
    call is made, not three, and the error raised is a [NetworkError], not
    the [RateLimitError] of the response. *)
Lemma request_attempts_dated_429 :
  let self := anonymous_client 2 (constant_server dated_429) in
  let out := request decimal_int fields_validate whole_float self
               "GET" "/Cards" None None None false (start tt) in
  max_attempts_of self false = 3
  /\ retryable dated_429
  /\ (forall req e, constant_server dated_429 req e = (Return dated_429, e))
  /\ sends (trace (snd out)) = 1%nat
  /\ sleeps (trace (snd out)) = 0%nat
  /\ exists err, fst out = Raise (SDK err)
                 /\ cls err = ClsNetworkError
                 /\ cls err <> ClsRateLimitError.
Proof.
  intros self out.
  split; [reflexivity|]. split; [left; reflexivity|].
  split; [reflexivity|]. split; [reflexivity|]. split; [reflexivity|].
  eexists. split; [reflexivity|]. split; [reflexivity | discriminate].
Qed.

(** A timeout on attempt 1 of a budget of 3. *)
Lemma timeout_ends_call_first_attempt :
  let self := anonymous_client 2 timing_out in
  let req := physical_request self "GET" "/Cards" None None None [] in
  timing_out req (env (start tt)) = (Raise (TimeoutException "timed out"), tt)
  /\ exists err,
       request_loop decimal_int fields_validate whole_float self timing_out req
         None 3 3 1 None (start tt)
       = (Raise (SDK err), record (EvSend req) tt (start tt))
       /\ cls err = ClsTimeoutError
       /\ message err = "Request timed out after 30.0s"
       /\ cause err = Some (TimeoutException "timed out").
Proof.
  intros self req. split; [reflexivity|].
  destruct (timeout_ends_call unit decimal_int fields_validate whole_float self
              timing_out req None 3) as (Ht & _).
  destruct (Ht 2%nat 1 None (start tt) "timed out" tt eq_refl)
    as (err & Hloop & Hcls & Hmsg & Hcause).
  exists err. split; [exact Hloop|]. split; [exact Hcls|].
  split; [exact Hmsg | exact Hcause].
Defined.

Lemma not_found_short_circuits :
  short_circuits (E := unit) decimal_int fields_validate whole_float
                 (Return plain_404).
Proof.
  intros self client req timeout_arg max_attempts n attempt last w e' Hc.
  eexists.
  apply loop_status_final with (r := plain_404); [exact Hc | | | ];
    [reflexivity | reflexivity | right; split; [discriminate | reflexivity]].
Qed.

Lemma protocol_error_short_circuits :
  short_circuits (E := unit) decimal_int fields_validate whole_float
                 (Raise (OtherException "protocol error")).
Proof.
  intros self client req timeout_arg max_attempts n attempt last w e' Hc.
  eexists. apply loop_unexpected; [exact Hc | discriminate | discriminate].
Qed.

(** C3, as stated, fails on its last clause: the timeout is not the only
    failure that always ends the call on the attempt it occurs on. A 404
    response does, and so does an exception of the transport that is
    neither a timeout nor a connectivity failure. *)
Lemma timeout_not_the_only_short_circuit :
  ~ (forall outcome : result pyexn Response,
        (forall r, outcome = Return r -> is_success r = false) ->
        short_circuits (E := unit) decimal_int fields_validate whole_float outcome ->
        exists t, outcome = Raise (TimeoutException t)).
Proof.
  intros H.
  destruct (H (Return plain_404)) as [t Ht].
  - now intros r [= <-].
  - exact not_found_short_circuits.
  - discriminate Ht.
Qed.

(** The 429 with an HTTP date as [Retry-After], on attempt 1 of 3. *)
Lemma unparseable_retry_after_dated_429 :
  let self := anonymous_client 2 (constant_server dated_429) in
  let req := physical_request self "GET" "/Cards" None None None [] in
  let h := "Wed, 21 Oct 2015 07:28:00 GMT" in
  let text := "invalid literal for int() with base 10: 'Wed, 21 Oct 2015 07:28:00 GMT'" in
  (constant_server dated_429 req (env (start tt)) = (Return dated_429, tt)
   /\ status_code dated_429 = 429
   /\ headers_get "retry-after" (resp_headers dated_429) = Some h
   /\ h <> ""
   /\ decimal_int h = Raise text)
  /\ exists err,
       request_loop decimal_int fields_validate whole_float self
         (constant_server dated_429) req None 3 3 1 None (start tt)
       = (Raise (SDK err), record (EvSend req) tt (start tt))
       /\ cls err = ClsNetworkError
       /\ message err = "Unexpected error: " ++ text.
Proof.
  intros self req h text.
  split; [repeat split; discriminate|].
  destruct (unparseable_retry_after unit decimal_int fields_validate whole_float
              self (constant_server dated_429) req None 3 2%nat 1 None (start tt)
              dated_429 tt h text eq_refl eq_refl eq_refl
              ltac:(discriminate) eq_refl)
    as (err & Hloop & Hcls & Hmsg & _).
  exists err. split; [exact Hloop|]. split; [exact Hcls | exact Hmsg].
Defined.

(** C10, as stated, fails on a [Retry-After] header with an empty value:
    [int] does not parse it, but the header is then taken as absent, so the
    response is converted to a [RateLimitError] without hint and retried;
    with [retries = 2] three physical calls are made. *)
Lemma empty_retry_after_is_retried :
  let self := anonymous_client 2 (constant_server empty_hint_429) in
  let out := request decimal_int fields_validate whole_float self
               "GET" "/Cards" None None None false (start tt) in
  status_code empty_hint_429 = 429
  /\ headers_get "retry-after" (resp_headers empty_hint_429) = Some ""
  /\ decimal_int "" = Raise "invalid literal for int() with base 10: ''"
  /\ sends (trace (snd out)) = 3%nat
  /\ sleeps (trace (snd out)) = 2%nat
  /\ exists err, fst out = Raise (SDK err)
                 /\ cls err = ClsRateLimitError
                 /\ retry_after err = Attribute None.
Proof.
  intros self out.
  split; [reflexivity|]. split; [reflexivity|]. split; [reflexivity|].
  split; [vm_compute; reflexivity|]. split; [vm_compute; reflexivity|].
  eexists. split; [vm_compute; reflexivity|]. split; reflexivity.
Qed.

(** The rotating callback, on a server that fails once: one consultation,
    two physical calls, both with the first token. *)
Lemma token_consulted_once_rotating :
  let out := request decimal_int fields_validate whole_float rotating_client
               "GET" "/Cards" None None None false (start (0%nat, 0%nat)) in
  (_client rotating_client = Some failing_once
   /\ str_truthy (_static_token (_token_manager rotating_client)) = false
   /\ _get_token_fn (_token_manager rotating_client) = Some rotating_token)
  /\ exists tr : list Event,
       trace (snd out) = EvToken (Return (Some "t1")) :: tr
       /\ token_calls tr = 0%nat
       /\ Forall (eq [("Authorization", "Bearer t1")]) (sent_headers tr).
Proof.
  intros out. split; [repeat split|].
  destruct (token_consulted_once (nat * nat) decimal_int fields_validate
              whole_float rotating_client failing_once rotating_token
              "GET" "/Cards" None None None false (start (0%nat, 0%nat))
              eq_refl eq_refl eq_refl)
    as (tr & Htr & H0 & Hh).
  exists tr. split; [exact Htr|]. split; [exact H0|].
  exact (Hh (Some "t1") eq_refl).
Defined.

(** C5, as stated, fails on the same run: the callback is consulted once
    for two physical calls, and the second call carries the token of the
    first although the callback would by then return another one. *)
Lemma token_not_refreshed_on_retry :
  let out := request decimal_int fields_validate whole_float rotating_client
               "GET" "/Cards" None None None false (start (0%nat, 0%nat)) in
  fst out = Return (PDict [("success", PBool true)])
  /\ sends (trace (snd out)) = 2%nat
  /\ token_calls (trace (snd out)) = 1%nat
  /\ ~ consulted_on_every_attempt (trace (snd out))
  /\ sent_headers (trace (snd out))
     = [[("Authorization", "Bearer t1")]; [("Authorization", "Bearer t1")]]
  /\ fst (rotating_token (env (snd out))) = Return (Some "t2").
Proof.
  intros out.
  split; [reflexivity|]. split; [reflexivity|]. split; [reflexivity|].
  split; [discriminate|]. split; reflexivity.
Qed.

(** A static token. *)
Lemma authorization_header_static :
  let self : HttpClient unit :=
    aenter (init_HttpClient (config_with (Some (StaticAuth "secret")) 0))
           (constant_server ok_200) in
  get_token (_token_manager self) (start tt) = (Return (Some "secret"), start tt)
  /\ _build_headers self (start tt)
     = (Return [("Authorization", "Bearer secret")], start tt)
  /\ sent_headers
       (trace (snd (request decimal_int fields_validate whole_float self
                      "GET" "/Cards" None None None false (start tt))))
     = [[("Authorization", "Bearer secret")]].
Proof.
  intros self. split; [reflexivity|].
  destruct (authorization_header unit decimal_int fields_validate whole_float
              self (start tt) (Some "secret") (start tt) eq_refl)
    as (hs & Hb & _ & _).
  split; [|reflexivity].
  rewrite Hb. injection Hb as <-. reflexivity.
Defined.

(** C8, as stated, fails when the callback returns the empty string: the
    token is not [None], and the headers hold no [Authorization]. *)
Lemma authorization_header_empty_token :
  exists token hs w1,
    get_token (_token_manager empty_token_client) (start tt) = (Return token, w1)
    /\ token <> None
    /\ _build_headers empty_token_client (start tt) = (Return hs, w1)
    /\ headers_get "Authorization" hs = None
    /\ sent_headers
         (trace (snd (request decimal_int fields_validate whole_float
                        empty_token_client "GET" "/Cards" None None None false
                        (start tt))))
       = [[]].
Proof.
  exists (Some ""), [], (record (EvToken (Return (Some ""))) tt (start tt)).
  split; [reflexivity|]. split; [discriminate|].
  split; [reflexivity|]. split; reflexivity.
Qed.

(** A query with a [None], an empty string, a zero and a [False]. *)
Lemma query_none_stripped_example :
  let query := Some [("page", PInt 0); ("setId", PNone); ("search", PStr "");
                     ("holo", PBool false); ("rarity", PStr "Rare")] in
  let self := anonymous_client 0 (constant_server ok_200) in
  _client self = Some (constant_server ok_200)
  /\ request_params query
     = Some [("page", PInt 0); ("search", PStr ""); ("holo", PBool false);
             ("rarity", PStr "Rare")]
  /\ (exists tr : list Event,
        trace (snd (request decimal_int fields_validate whole_float self
                      "GET" "/Cards" query None None false (start tt))) = tr
        /\ Forall (fun ev => forall r, ev = EvSend r ->
                                       req_params r = request_params query) tr)
  /\ exists r (tl : list Event),
       trace (snd (request decimal_int fields_validate whole_float self
                     "GET" "/Cards" query None None false (start tt)))
       = EvSend r :: tl
       /\ req_params r = request_params query.
Proof.
  intros query self. split; [reflexivity|]. split; [reflexivity|].
  destruct (query_none_stripped unit decimal_int fields_validate whole_float query)
    as (_ & _ & _ & _ & _ & _ & Hsent & Hfirst).
  split.
  - destruct (Hsent self (constant_server ok_200) "GET" "/Cards" None None false
                (start tt) eq_refl) as (tr & Htr & Hall).
    exists tr. split; [exact Htr | exact Hall].
  - destruct (Hfirst self (constant_server ok_200) "GET" "/Cards" None None false
                (start tt) [] (start tt) eq_refl eq_refl ltac:(discriminate))
      as (r & tl & Htr & Hr).
    exists r, tl. split; [exact Htr | exact Hr].
Defined.

(* ----------------------------------------------------------------- *)
(** ** The pager *)

Section PagerProperties.

Variables T F S X : Type.
Variable call : F -> Z -> Z -> S -> result X (option (Page T F)) * S.

Lemma to_list_loop_walk st p qs st' :
  successive_pages call st p qs st' ->
  forall fuel all_items,
    (length qs <= fuel)%nat ->
    to_list_loop call fuel all_items (Some p) st
    = Some (Return (all_items ++ flat_map _data qs)%list, st').
Proof.
  induction 1 as [st p Hlast | st p q st1 qs st' Hnext Hfetch _ IH];
    intros fuel all_items Hfuel.
  - destruct fuel; simpl; rewrite Hlast, app_nil_r; reflexivity.
  - destruct fuel as [|fuel]; [simpl in Hfuel; lia|].
    simpl. rewrite Hnext, Hfetch.
    rewrite IH by (simpl in Hfuel; lia).
    now rewrite <- app_assoc.
Qed.

Lemma successive_pages_fetches st p qs st' :
  successive_pages call st p qs st' ->
  fetches st' = (fetches st ++ map next_call (removelast (p :: qs)))%list.
Proof.
  induction 1 as [st p Hlast | st p q st1 qs st' Hnext Hfetch _ IH].
  - simpl. now rewrite app_nil_r.
  - rewrite IH. unfold next_page, await_fetcher in Hfetch.
    rewrite Hnext in Hfetch. simpl in Hfetch.
    destruct (call _ _ _ _) as [r s'] in Hfetch.
    injection Hfetch as _ <-.
    cbn [fetches]. rewrite <- app_assoc. reflexivity.
Qed.

(** C7. For every page from which the successive pages [qs] are reached by
    [next_page] while [has_next] holds, [to_list] returns, with fuel for one
    pass per page of [qs] or more, the items of the page followed by the
    items of the pages of [qs] in their order; it calls the fetcher once
    per page of [qs]: on each page that has a successor, for the page
    number after it. *)
Theorem to_list_concatenates st p qs st' :
  successive_pages call st p qs st' ->
  forall fuel,
    (length qs <= fuel)%nat ->
    to_list call fuel p st
    = Some (Return (_data p ++ flat_map _data qs)%list, st')
    /\ fetches st' = (fetches st ++ map next_call (removelast (p :: qs)))%list
    /\ length (fetches st') = (length (fetches st) + length qs)%nat.
Proof.
  intros Hwalk fuel Hfuel.
  split; [now apply to_list_loop_walk|].
  pose proof (successive_pages_fetches _ _ _ _ Hwalk) as Hf.
  split; [exact Hf|].
  rewrite Hf, length_app, length_map.
  f_equal. clear. revert p.
  induction qs as [|q qs' IH]; intros p; [reflexivity|].
  change (removelast (p :: q :: qs')) with (p :: removelast (q :: qs')).
  change (Datatypes.S (length (removelast (q :: qs')))
          = Datatypes.S (length qs')).
  f_equal. apply IH.
Qed.

End PagerProperties.

(** The three pages of §8: three items in page order, two fetches. *)
Lemma to_list_three_pages :
  let st := {| resource := tt; fetches := [] |} in
  successive_pages three_pages st (page_of_three 1 "Pikachu")
    [page_of_three 2 "Charizard"; page_of_three 3 "Bulbasaur"]
    {| resource := tt; fetches := [(2, 1); (3, 1)] |}
  /\ to_list three_pages 2 (page_of_three 1 "Pikachu") st
     = Some (Return ["Pikachu"; "Charizard"; "Bulbasaur"],
             {| resource := tt; fetches := [(2, 1); (3, 1)] |}).
Proof.
  intros st.
  assert (Hwalk : successive_pages three_pages st (page_of_three 1 "Pikachu")
                    [page_of_three 2 "Charizard"; page_of_three 3 "Bulbasaur"]
                    {| resource := tt; fetches := [(2, 1); (3, 1)] |}).
  { eapply successive_next; [reflexivity | reflexivity |].
    eapply successive_next; [reflexivity | reflexivity |].
    apply successive_end. reflexivity. }
  split; [exact Hwalk|].
  exact (proj1 (to_list_concatenates _ _ _ _ three_pages _ _ _ _ Hwalk 2%nat
                  (le_n 2))).
Defined.

(* ================================================================= *)
(** * Further properties of the code *)

(* ----------------------------------------------------------------- *)
(** ** client/auth.py *)

(** X1. After [set_token(t)] with a non-empty [t], [get_token] returns [t]
    without consulting a callback, whatever the manager held before; after
    [set_token("")] the manager holds no credential at all: the callback is
    dropped, [get_token] returns [None] and [has_auth] is false. *)
Theorem set_token_get_token (E : Type) (tm : TokenManager E) (w : World E) :
  (forall token, token <> "" ->
     get_token (set_token tm token) w = (Return (Some token), w)
     /\ has_auth (set_token tm token) = true)
  /\ get_token (set_token tm "") w = (Return None, w)
  /\ has_auth (set_token tm "") = false.
Proof.
  split; [|split; reflexivity].
  intros token Hne. unfold get_token, set_token, has_auth. simpl.
  destruct (String.eqb_spec token ""); [contradiction|]. split; reflexivity.
Qed.

(** X2. When [has_auth] is false, [get_token] returns [None] and leaves the
    world untouched. When it is true, either a non-empty static token is
    returned, again without touching the world and even if a callback is
    held too, or the callback is called exactly once. A [StaticAuth] with
    an empty token counts as no authentication. *)
Theorem has_auth_get_token (E : Type) (tm : TokenManager E) :
  (has_auth tm = false -> forall w, get_token tm w = (Return None, w))
  /\ (has_auth tm = true ->
      forall w,
        (exists t, t <> "" /\ _static_token tm = Some t
                   /\ get_token tm w = (Return (Some t), w))
        \/ (exists f, _get_token_fn tm = Some f
                      /\ trace (snd (get_token tm w))
                         = (trace w ++ [EvToken (fst (f (env w)))])%list
                      /\ env (snd (get_token tm w)) = snd (f (env w))))
  /\ has_auth (init_TokenManager (Some (StaticAuth (E := E) ""))) = false.
Proof.
  unfold has_auth, get_token. split; [|split; [|reflexivity]].
  - intros H w. apply orb_false_iff in H as [Hs Hf]. rewrite Hs.
    destruct (_get_token_fn tm); [discriminate | reflexivity].
  - intros H w. destruct (str_truthy (_static_token tm)) eqn:Hs.
    + left. apply str_truthy_true in Hs as (t & Ht & Hne).
      exists t. rewrite Ht. auto.
    + right. simpl in H. destruct (_get_token_fn tm) as [f|]; [|discriminate].
      exists f. split; [reflexivity|]. unfold call_token_fn.
      destruct (f (env w)) as [[t|x] e']; simpl; auto.
Qed.

(** A configured callback that has not been replaced. *)
Lemma has_auth_get_token_rotating :
  has_auth (_token_manager rotating_client) = true
  /\ trace (snd (get_token (_token_manager rotating_client)
                   (start (0%nat, 0%nat))))
     = [EvToken (Return (Some "t1"))].
Proof.
  split; [reflexivity|].
  destruct (has_auth_get_token (nat * nat) (_token_manager rotating_client))
    as (_ & Htrue & _).
  destruct (Htrue eq_refl (start (0%nat, 0%nat)))
    as [(t & _ & Hs & _) | (f & Hf & Htr & _)].
  - discriminate Hs.
  - rewrite Htr. injection Hf as <-. reflexivity.
Defined.

(* ----------------------------------------------------------------- *)
(** ** client/errors.py *)

(** X3. Every error made by [from_response] carries the status it was made
    from (also in the subclasses, which fix their own), the problem details
    as [raw] with their [type], [detail] and [instance], and no cause. It
    has a [retry_after] only for the status 429, and then it is [None];
    it has [errors] only for the status 400, and then they are the field
    errors of the problem details when these are a non-empty mapping, and
    [None] otherwise. For any other status reading the attribute raises
    [AttributeError]. *)
Theorem from_response_attributes
    (model_validate : pyvalue -> result string ProblemDetails)
    (code : Z) (body : option pyvalue) (pd : option ProblemDetails)
    (e : PokeForgeError) :
  validate_body model_validate body = Return pd ->
  from_response model_validate code body = Return e ->
  status e = code
  /\ raw e = pd
  /\ type_ e = match pd with Some p => pd_type p | None => None end
  /\ detail e = match pd with Some p => pd_detail p | None => None end
  /\ instance e = match pd with Some p => pd_instance p | None => None end
  /\ cause e = None
  /\ (code = 429 -> get_retry_after e = Return None)
  /\ (code <> 429 ->
      get_retry_after e
      = Raise (OtherException
                 ("'" ++ class_name (error_map_get code)
                  ++ "' object has no attribute 'retry_after'")))
  /\ (code <> 400 ->
      get_errors e
      = Raise (OtherException
                 ("'" ++ class_name (error_map_get code)
                  ++ "' object has no attribute 'errors'")))
  /\ (code = 400 ->
      forall p errs, pd = Some p -> pd_errors p = Some errs -> errs <> [] ->
      get_errors e = Return (Some errs))
  /\ (code = 400 ->
      pd = None
      \/ (exists p, pd = Some p
                    /\ (pd_errors p = None \/ pd_errors p = Some [])) ->
      get_errors e = Return None).
Proof.
  intros Hv. unfold from_response. rewrite Hv.
  destruct (error_map_get_cases code)
    as [[-> ->]|[[-> ->]|[[-> ->]|[[-> ->]|[[-> ->]|(H0 & H1 & H3 & H4 & H9 & Hm)]]]]];
    try rewrite Hm; simpl; intros [= <-];
    try (split; [reflexivity|]; do 5 (split; [reflexivity|]);
         split; [intros; try reflexivity; lia|];
         split; [intros; try reflexivity; lia|];
         split; [intros; try reflexivity; lia|];
         split; intros; [lia | contradiction || lia]).
  unfold ValidationError.
  destruct pd as [p|]; [destruct (pd_errors p) as [[|kv errs]|] eqn:He|];
    simpl; (split; [reflexivity|]); do 5 (split; [reflexivity|]);
    (split; [intros; lia|]); (split; [intros; reflexivity|]);
    (split; [intros; lia|]); split.
  - intros _ p' errs' [= <-] Hp Hne. congruence.
  - reflexivity.
  - intros _ p' errs' [= <-] Hp Hne. unfold get_errors. simpl. congruence.
  - intros _ [H|(p' & [= <-] & [H|H])]; congruence.
  - intros _ p' errs' [= <-] Hp Hne. congruence.
  - reflexivity.
  - intros _ p' errs' Hp. discriminate.
  - reflexivity.
Qed.

(** A 400 with a title. *)
Lemma from_response_attributes_400 :
  let body := Some (PDict [("title", PStr "Bad Request"); ("type", PStr "about:blank")]) in
  exists pd e,
    validate_body fields_validate body = Return pd
    /\ from_response fields_validate 400 body = Return e
    /\ status e = 400
    /\ raw e = pd
    /\ type_ e = Some "about:blank"
    /\ get_errors e = Return None
    /\ get_retry_after e
       = Raise (OtherException
                  "'ValidationError' object has no attribute 'retry_after'").
Proof.
  intros body.
  eexists. eexists. split; [reflexivity|]. split; [reflexivity|].
  destruct (from_response_attributes fields_validate 400 body _ _
              eq_refl eq_refl)
    as (Hs & Hr & Ht & _ & _ & _ & _ & Hra & _ & _ & Hnone).
  split; [exact Hs|]. split; [exact Hr|]. split; [exact Ht|].
  split.
  - apply Hnone; [reflexivity|].
    right. eexists. split; [reflexivity|]. left. reflexivity.
  - apply Hra. discriminate.
Defined.

(* ----------------------------------------------------------------- *)
(** ** client/http.py: conversion of an error response *)

Section ConversionProperties.

Variable py_int : string -> result string Z.
Variable model_validate : pyvalue -> result string ProblemDetails.

Local Abbreviation handle := (_handle_error_response py_int model_validate).

(** The body that [_handle_error_response] hands to [from_response]. *)
Local Abbreviation body_of r :=
  (match resp_json r with
   | Return b => Some b
   | Raise _ => None
   end).

Lemma from_response_class code body e :
  from_response model_validate code body = Return e ->
  cls e = error_map_get code.
Proof.
  unfold from_response. destruct (validate_body _ _) as [pd|x]; [|discriminate].
  destruct (error_map_get_cases code)
    as [[-> ->]|[[-> ->]|[[-> ->]|[[-> ->]|[[-> ->]|(H0 & H1 & H3 & H4 & H9 & ->)]]]]];
    simpl; intros [= <-]; try reflexivity.
  unfold ValidationError. destruct pd as [p|]; [|reflexivity].
  destruct (pd_errors p) as [[|? ?]|]; reflexivity.
Qed.

Lemma from_response_no_retry_after code body e :
  code <> 429 ->
  from_response model_validate code body = Return e ->
  retry_after e = NoAttribute.
Proof.
  intros H429.
  unfold from_response. destruct (validate_body _ _) as [pd|x]; [|discriminate].
  destruct (error_map_get_cases code)
    as [[-> ->]|[[-> ->]|[[-> ->]|[[-> ->]|[[-> ->]|(H0 & H1 & H3 & H4 & H9 & ->)]]]]];
    simpl; intros [= <-]; try reflexivity; try contradiction.
  unfold ValidationError. destruct pd as [p|]; [|reflexivity].
  destruct (pd_errors p) as [[|? ?]|]; reflexivity.
Qed.

(** The error made of a 429 response, given what was read of the header. *)
Lemma handle_429_made (r : Response) (err : PokeForgeError) (ms : option Z) :
  match from_response model_validate 429 (body_of r) with
  | Return error =>
      if ErrorClass_eqb (cls error) ClsRateLimitError
      then Return (set_retry_after error ms) else Return error
  | Raise e => Raise e
  end = Return err ->
  cls err = ClsRateLimitError /\ status err = 429
  /\ retry_after err = Attribute ms.
Proof.
  destruct (from_response _ _ _) as [e0|x] eqn:Hf; [|discriminate].
  pose proof (from_response_class _ _ _ Hf) as Hc. simpl in Hc.
  rewrite Hc. simpl. intros [= <-]. simpl. repeat split; auto.
  unfold from_response in Hf.
  destruct (validate_body _ _); [|discriminate].
  simpl in Hf. now injection Hf as <-.
Qed.

(** With a non-empty header that parses. *)
Lemma handle_429_parsed (r : Response) (err : PokeForgeError) h n :
  status_code r = 429 ->
  headers_get "retry-after" (resp_headers r) = Some h ->
  h <> "" ->
  py_int h = Return n ->
  handle r = Return err ->
  cls err = ClsRateLimitError /\ status err = 429
  /\ retry_after err = Attribute (Some (n * 1000)).
Proof.
  intros Hst Hh Hne Hint. unfold _handle_error_response.
  rewrite Hst, Hh. simpl.
  destruct (String.eqb_spec h ""); [contradiction|]. simpl. rewrite Hint.
  apply handle_429_made.
Qed.

(** X4. A 429 response that converts to an error gives a [RateLimitError]
    of status 429. Its [retry_after] is a thousand times the integer read
    from a non-empty [Retry-After] header, and [None] when the header is
    absent or empty. *)
Theorem retry_after_milliseconds (r : Response) (err : PokeForgeError) :
  status_code r = 429 ->
  handle r = Return err ->
  cls err = ClsRateLimitError
  /\ status err = 429
  /\ (headers_get "retry-after" (resp_headers r) = None
      \/ headers_get "retry-after" (resp_headers r) = Some "" ->
      retry_after err = Attribute None)
  /\ (forall h n,
        headers_get "retry-after" (resp_headers r) = Some h ->
        h <> "" ->
        py_int h = Return n ->
        retry_after err = Attribute (Some (n * 1000))).
Proof.
  intros Hst Herr.
  assert (Hparsed : forall h n,
             headers_get "retry-after" (resp_headers r) = Some h ->
             h <> "" -> py_int h = Return n ->
             cls err = ClsRateLimitError /\ status err = 429
             /\ retry_after err = Attribute (Some (n * 1000))).
  { intros h n Hh Hne Hint. exact (handle_429_parsed r err h n Hst Hh Hne Hint Herr). }
  unfold _handle_error_response in Herr. rewrite Hst in Herr. simpl in Herr.
  destruct (str_truthy (headers_get "retry-after" (resp_headers r))) eqn:Ht.
  - apply str_truthy_true in Ht as (h & Hh & Hne).
    rewrite Hh in Herr.
    destruct (py_int h) as [n|text] eqn:Hint; [|discriminate].
    destruct (Hparsed h n Hh Hne Hint) as (Hc & Hs & Hr).
    split; [exact Hc|]. split; [exact Hs|]. split.
    + intros [Hn|Hn]; congruence.
    + intros h' n' Hh' Hne' Hint'. now destruct (Hparsed h' n' Hh' Hne' Hint').
  - apply str_truthy_false in Ht as Hb.
    destruct (handle_429_made r err None Herr) as (Hc & Hs & Hr).
    split; [exact Hc|]. split; [exact Hs|]. split.
    + intros _. exact Hr.
    + intros h n Hh Hne _. destruct Hb as [Hb|Hb]; congruence.
Qed.

(** X5. For a status other than 429 the [Retry-After] header is not read:
    the conversion is [from_response] on the status and the body, whatever
    the header holds, so it cannot fail on the header; the error it gives
    is not a [RateLimitError] and has no [retry_after] attribute, and what
    [_calculate_delay] makes of it, a delay or an exception, is what it
    makes of no error at all. *)
Theorem retry_after_only_for_429 (r : Response) :
  status_code r <> 429 ->
  handle r = from_response model_validate (status_code r) (body_of r)
  /\ forall err,
       handle r = Return err ->
       cls err <> ClsRateLimitError
       /\ retry_after err = NoAttribute
       /\ forall rc attempt,
            _calculate_delay rc attempt (Some err)
            = _calculate_delay rc attempt None.
Proof.
  intros Hst.
  assert (Heq : handle r
                = from_response model_validate (status_code r) (body_of r)).
  { unfold _handle_error_response. apply Z.eqb_neq in Hst. now rewrite Hst. }
  split; [exact Heq|].
  intros err Herr. rewrite Heq in Herr.
  pose proof (from_response_no_retry_after _ _ _ Hst Herr) as Hr.
  assert (Hcls : cls err <> ClsRateLimitError).
  { rewrite (from_response_class _ _ _ Herr).
    destruct (error_map_get_cases (status_code r))
      as [[_ ->]|[[_ ->]|[[_ ->]|[[_ ->]|[[H _]|(_ & _ & _ & _ & _ & ->)]]]]];
      try discriminate. contradiction. }
  split; [exact Hcls|]. split; [exact Hr|].
  intros rc attempt. apply calculate_delay_no_hint.
  simpl. intros Hc. contradiction.
Qed.

(** X6. An error response whose body does not decode as JSON, or decodes to
    a falsy document, is converted without validating anything: for a
    status other than 429, or for a 429 without [Retry-After], the error
    has the class chosen by the status, the status itself, no problem
    details and the message ["HTTP {status} error"]. *)
Theorem unreadable_body_default_message (r : Response) :
  status_code r <> 429
  \/ headers_get "retry-after" (resp_headers r) = None ->
  (exists text, resp_json r = Raise text)
  \/ (exists b, resp_json r = Return b /\ truthy b = false) ->
  exists err,
    handle r = Return err
    /\ cls err = error_map_get (status_code r)
    /\ status err = status_code r
    /\ raw err = None
    /\ message err = "HTTP " ++ str_int (status_code r) ++ " error".
Proof.
  intros Hhdr Hbody.
  assert (Hv : validate_body model_validate (body_of r) = Return None).
  { destruct Hbody as [(text & ->)|(b & -> & Hb)]; simpl; [reflexivity|].
    now rewrite Hb. }
  assert (Hfrom : exists err,
             from_response model_validate (status_code r) (body_of r)
             = Return err
             /\ cls err = error_map_get (status_code r)
             /\ status err = status_code r
             /\ raw err = None
             /\ message err = "HTTP " ++ str_int (status_code r) ++ " error").
  { unfold from_response. rewrite Hv.
    destruct (error_map_get_cases (status_code r))
      as [[Hs ->]|[[Hs ->]|[[Hs ->]|[[Hs ->]|[[Hs ->]|(H0 & H1 & H3 & H4 & H9 & ->)]]]]];
      simpl; eexists; (split; [reflexivity|]); simpl; rewrite ?Hs; repeat split. }
  destruct Hfrom as (err & Hf & Hc & Hs & Hr & Hm).
  unfold _handle_error_response.
  destruct (Z.eqb_spec (status_code r) 429) as [H429|Hne].
  - destruct Hhdr as [Hne|Hnone]; [contradiction|].
    rewrite Hnone. cbn [str_truthy]. rewrite Hf.
    destruct (ErrorClass_eqb (cls err) ClsRateLimitError).
    + exists (set_retry_after err None). split; [reflexivity|]. simpl. auto.
    + exists err. auto.
  - exists err. auto.
Qed.

End ConversionProperties.

(** [Retry-After: 60] on a 429, as in the tests: 60000 milliseconds. *)
Lemma retry_after_milliseconds_60 :
  let r := json_response 429 [("retry-after", "60")]
             (PDict [("title", PStr "Rate Limit Exceeded"); ("status", PInt 429)]) in
  (status_code r = 429
   /\ exists err, _handle_error_response decimal_int fields_validate r = Return err)
  /\ forall err,
       _handle_error_response decimal_int fields_validate r = Return err ->
       cls err = ClsRateLimitError /\ retry_after err = Attribute (Some 60000).
Proof.
  intros r. split; [split; [reflexivity | eexists; reflexivity]|].
  intros err Herr.
  destruct (retry_after_milliseconds decimal_int fields_validate r err
              eq_refl Herr) as (Hc & _ & _ & Hms).
  split; [exact Hc|].
  apply (Hms "60" 60); [reflexivity | discriminate | reflexivity].
Defined.

(** A 503 whose [Retry-After] is an HTTP date. *)
Lemma retry_after_only_for_429_503 :
  let r := json_response 503 [("retry-after", "Wed, 21 Oct 2015 07:28:00 GMT")]
             (PDict [("title", PStr "Service Unavailable")]) in
  status_code r <> 429
  /\ exists err,
       _handle_error_response decimal_int fields_validate r = Return err
       /\ retry_after err = NoAttribute
       /\ exists d,
            _calculate_delay default_RetryConfig 3 (Some err) = Return d
            /\ (d == 4)%Q.
Proof.
  intros r. split; [discriminate|].
  destruct (retry_after_only_for_429 decimal_int fields_validate r
              ltac:(discriminate)) as (_ & H).
  eexists. split; [reflexivity|].
  destruct (H _ eq_refl) as (_ & Hr & Hd).
  split; [exact Hr|]. rewrite Hd.
  eexists. split; [vm_compute; reflexivity | reflexivity].
Defined.

(** A 502 with an HTML body. *)
Lemma unreadable_body_default_message_502 :
  let r := {| status_code := 502;
              resp_headers := [("content-type", "text/html")];
              resp_json := Raise "Expecting value: line 1 column 1 (char 0)" |} in
  (status_code r <> 429
   /\ resp_json r = Raise "Expecting value: line 1 column 1 (char 0)")
  /\ exists err,
       _handle_error_response decimal_int fields_validate r = Return err
       /\ cls err = ClsPokeForgeError
       /\ message err = "HTTP 502 error".
Proof.
  intros r. split; [split; [discriminate | reflexivity]|].
  destruct (unreadable_body_default_message decimal_int fields_validate r)
    as (err & Hh & Hc & _ & _ & Hm).
  - left. discriminate.
  - left. eexists. reflexivity.
  - exists err. split; [exact Hh|]. split; [exact Hc | exact Hm].
Defined.

(* ----------------------------------------------------------------- *)
(** ** client/http.py: the logical call *)

Lemma attempts_from_S (first : Z) (n : nat) :
  attempts_from first (S n) = first :: attempts_from (first + 1) n.
Proof.
  unfold attempts_from. simpl. rewrite Z.add_0_r. f_equal.
  rewrite <- seq_shift, map_map. apply map_ext. intros i. lia.
Qed.


Section CallProperties.

Variable E : Type.
Variable py_int : string -> result string Z.
Variable model_validate : pyvalue -> result string ProblemDetails.
Variable str_float : Q -> string.

Local Abbreviation run := (request py_int model_validate str_float).
Local Abbreviation loop := (request_loop py_int model_validate str_float).

(** X7. A response with a status from 200 to 299 ends the call on the
    attempt it arrives on, with nothing after the physical call. The call
    returns [None] for a 204 and for a content type without
    ["application/json"] (or no content type); otherwise it returns the
    decoded body, and when the body does not decode it raises a
    [NetworkError] ["Unexpected error: ..."] without another attempt. *)
Theorem success_ends_call (self : HttpClient E) client req timeout_arg
    max_attempts n attempt last w r e' :
  client req (env w) = (Return r, e') ->
  200 <= status_code r <= 299 ->
  exists res,
    loop self client req timeout_arg max_attempts (S n) attempt last w
    = (res, record (EvSend req) e' w)
    /\ (status_code r = 204 -> res = Return PNone)
    /\ (status_code r <> 204 ->
        headers_get "content-type" (resp_headers r) = None ->
        res = Return PNone)
    /\ (forall ct,
          status_code r <> 204 ->
          headers_get "content-type" (resp_headers r) = Some ct ->
          (str_contains "application/json" ct = false -> res = Return PNone)
          /\ (str_contains "application/json" ct = true ->
              (forall v, resp_json r = Return v -> res = Return v)
              /\ (forall text, resp_json r = Raise text ->
                  exists err, res = Raise (SDK err)
                              /\ cls err = ClsNetworkError
                              /\ message err = "Unexpected error: " ++ text
                              /\ cause err = Some (ValueError text)))).
Proof.
  intros Hc [Hlo Hhi].
  assert (Hs : is_success r = true).
  { unfold is_success. apply andb_true_iff. split; now apply Z.leb_le. }
  simpl. unfold bind at 1. unfold try_except, try_block, bind at 1, client_request.
  rewrite Hc. simpl. rewrite Hs.
  destruct (Z.eqb_spec (status_code r) 204) as [H204|H204].
  - eexists. split; [reflexivity|]. split; [reflexivity|].
    split; [contradiction|]. intros ct Hne. contradiction.
  - destruct (headers_get "content-type" (resp_headers r)) as [ct|] eqn:Hct.
    + destruct (str_contains "application/json" ct) eqn:Hjson.
      * unfold bind. destruct (resp_json r) as [v|text] eqn:Hj; simpl;
          eexists; (split; [reflexivity|]); (split; [contradiction|]);
          (split; [discriminate|]); intros ct' _ [= <-];
          (split; [congruence|]); intros _; split.
        -- now intros v' [= <-].
        -- discriminate.
        -- discriminate.
        -- intros text' [= <-]. eexists. repeat split.
      * eexists. split; [reflexivity|]. split; [contradiction|].
        split; [discriminate|]. intros ct' _ [= <-].
        split; [reflexivity | congruence].
    + change (str_contains "application/json" "") with false. cbv iota.
      eexists. split; [reflexivity|]. split; [contradiction|].
      split; [reflexivity|]. intros ct _ Hne. discriminate.
Qed.

Lemma map_Return_inj (X A : Type) (a b : list A) :
  map (@Return X A) a = map Return b -> a = b.
Proof.
  revert b. induction a as [|x a IH]; intros [|y b]; try discriminate.
  - reflexivity.
  - cbn [map]. intros [= -> H]. f_equal. now apply IH.
Qed.

(** The delays after the attempts [first], [first + 1], ..., [n] of them,
    are all computed when the backoff is constant or none of these attempts
    is beyond 1024. *)
Lemma delays_computed (rc : RetryConfig) (n : nat) : forall first,
  1 <= first ->
  exponential rc = false \/ first + Z.of_nat n <= 1025 ->
  exists delays : list Q,
    map (fun k => _calculate_delay rc k None) (attempts_from first n)
    = map Return delays.
Proof.
  induction n as [|n IH]; intros first H1 Hb.
  - exists []. reflexivity.
  - destruct (IH (first + 1)) as [ds Hds]; [lia | destruct Hb; [now left | right; lia]|].
    rewrite attempts_from_S. cbn [map]. rewrite Hds.
    destruct Hb as [Hc|Hb].
    + exists (base_delay rc :: ds). cbn [map]. f_equal.
      now apply calculate_delay_constant.
    + eexists (_ :: ds). cbn [map]. f_equal.
      apply calculate_delay_backoff. lia.
Qed.

(** When every physical call of the loop fails to connect and the delays
    after the attempts are computed, the loop uses up the range, sleeping
    between the attempts. *)
Lemma loop_all_network (self : HttpClient E) client req timeout_arg max_attempts :
  forall n attempt last w delays,
    attempt + Z.of_nat n = max_attempts ->
    (forall i, (i <= n)%nat ->
       exists t, fst (client req (attempt_state client req (env w) i))
                 = Raise (HttpxNetworkError t)) ->
    map (fun k => _calculate_delay (_retry_config self) k None)
        (attempts_from attempt n)
    = map Return delays ->
    exists t e' tr,
      loop self client req timeout_arg max_attempts (S n) attempt last w
      = (Raise (SDK (NetworkError "Network error" (Some (HttpxNetworkError t)))),
         {| env := e'; trace := trace w ++ tr |})
      /\ fst (client req (attempt_state client req (env w) n))
         = Raise (HttpxNetworkError t)
      /\ sends tr = S n
      /\ slept tr = delays.
Proof.
  induction n as [|n IH]; intros attempt last w delays Hmax Hall Hds.
  - destruct (Hall 0%nat (Nat.le_refl _)) as (t & Hc).
    simpl in Hc. destruct (client req (env w)) as [res e'] eqn:Hcall.
    simpl in Hc. subst res.
    rewrite loop_network_final with (t := t) (e' := e'); [|exact Hcall|lia].
    destruct delays; [|discriminate].
    exists t, e', [EvSend req]. simpl. rewrite Hcall. repeat split; auto.
  - destruct (Hall 0%nat (Nat.le_0_l _)) as (t & Hc).
    simpl in Hc. destruct (client req (env w)) as [res e'] eqn:Hcall.
    simpl in Hc. subst res.
    rewrite attempts_from_S in Hds. destruct delays as [|d ds]; [discriminate|].
    cbn [map] in Hds. injection Hds as Hd Hds.
    rewrite loop_network_retry with (t := t) (e' := e') (d := d);
      [|exact Hcall|lia|exact Hd].
    destruct (IH (attempt + 1) (Some (HttpxNetworkError t))
                (record (EvSleep d) e' (record (EvSend req) e' w)) ds)
      as (t' & e'' & tr & Hloop & Hc' & Hsends & Hslept).
    + lia.
    + intros i Hi. destruct (Hall (S i) ltac:(lia)) as (ti & Hi').
      exists ti. simpl in Hi'. rewrite Hcall in Hi'. exact Hi'.
    + exact Hds.
    + rewrite Hloop. unfold record. cbn [trace env].
      rewrite <- !app_assoc. cbn [app].
      exists t', e'', (EvSend req :: EvSleep d :: tr).
      split; [reflexivity|].
      split; [simpl; rewrite Hcall; exact Hc'|]. split.
      * unfold sends in *. simpl. now rewrite Hsends.
      * unfold slept in *. cbn [flat_map app]. now rewrite Hslept.
Qed.

(** X8. When the headers are built and, on each of the [max_attempts]
    attempts of the call, the physical call raises a connectivity error, a
    client configured with [retries >= 0], and with a constant backoff or
    at most 1025 attempts, makes exactly [max_attempts] physical calls,
    sleeps after each but the last for the delay computed from the attempt
    number (1, 2, ...) without an error, and raises a [NetworkError]
    ["Network error"] whose cause is the connectivity error of the last
    attempt. *)
Theorem connectivity_failure_exhausts (self : HttpClient E) client method path
    query body timeout_arg no_retry w hs w1 :
  _client self = Some client ->
  0 <= _retries self ->
  _build_headers self w = (Return hs, w1) ->
  let req := physical_request self method path query body timeout_arg hs in
  let max_attempts := max_attempts_of self no_retry in
  (forall i, Z.of_nat i < max_attempts ->
     exists t, fst (client req (attempt_state client req (env w1) i))
               = Raise (HttpxNetworkError t)) ->
  exponential (_retry_config self) = false \/ max_attempts <= 1025 ->
  exists t (tr : list Event),
    fst (run self method path query body timeout_arg no_retry w)
    = Raise (SDK (NetworkError "Network error" (Some (HttpxNetworkError t))))
    /\ fst (client req (attempt_state client req (env w1)
                          (Z.to_nat (max_attempts - 1))))
       = Raise (HttpxNetworkError t)
    /\ trace (snd (run self method path query body timeout_arg no_retry w))
       = (trace w1 ++ tr)%list
    /\ Z.of_nat (sends tr) = max_attempts
    /\ map (fun k => _calculate_delay (_retry_config self) k None)
           (attempts_from 1 (Z.to_nat (max_attempts - 1)))
       = map Return (slept tr).
Proof.
  intros Hc Hret Hb req max_attempts Hall Hbound.
  assert (Hmax : 1 <= max_attempts).
  { unfold max_attempts, max_attempts_of. destruct no_retry; lia. }
  rewrite (request_open _ _ _ _ _ _ _ _ _ _ _ _ _ Hc), Hb.
  fold max_attempts. fold req.
  replace (Z.to_nat max_attempts) with (S (Z.to_nat (max_attempts - 1))) by lia.
  destruct (delays_computed (_retry_config self) (Z.to_nat (max_attempts - 1)) 1)
    as [delays Hds]; [lia | destruct Hbound; [now left | right; lia]|].
  destruct (loop_all_network self client req timeout_arg max_attempts
              (Z.to_nat (max_attempts - 1)) 1 None w1 delays)
    as (t & e' & tr & Hloop & Hc' & Hsends & Hslept).
  - lia.
  - intros i Hi. apply Hall. lia.
  - exact Hds.
  - rewrite Hloop. simpl.
    exists t, tr. split; [reflexivity|]. split; [exact Hc'|].
    split; [reflexivity|]. split; [lia|]. now rewrite Hslept.
Qed.

(** X9. With [no_retry], a call whose headers are built makes exactly one
    physical call and never sleeps, whatever the transport does and
    whatever [retries] is. *)
Theorem no_retry_single_call (self : HttpClient E) client method path query
    body timeout_arg w hs w1 :
  _client self = Some client ->
  _build_headers self w = (Return hs, w1) ->
  exists e',
    snd (run self method path query body timeout_arg true w)
    = record (EvSend (physical_request self method path query body
                        timeout_arg hs)) e' w1.
Proof.
  intros Hc Hb.
  rewrite (request_open _ _ _ _ _ _ _ _ _ _ _ _ _ Hc), Hb.
  change (max_attempts_of self true) with 1.
  change (Z.to_nat 1) with 1%nat. cbn [request_loop]. unfold bind at 1.
  destruct (attempt_shape E py_int model_validate str_float self client
              (physical_request self method path query body timeout_arg hs)
              timeout_arg 1 1 None w1)
    as (res & e' & tl & Hstep & [[-> Hne]|(d & l & _ & _ & Hlt)]); [|lia].
  rewrite Hstep. exists e'.
  destruct res as [[v|l]|x]; [reflexivity | now elim (Hne l) | reflexivity].
Qed.

(** X10. With [retries < 0] and without [no_retry] the range of attempts
    is empty: once the headers are built the call makes no physical call
    and raises the fallback [NetworkError] ["Request failed after retries"],
    without a cause. *)
Theorem negative_retries_no_call (self : HttpClient E) client method path query
    body timeout_arg w hs w1 :
  _client self = Some client ->
  _retries self < 0 ->
  _build_headers self w = (Return hs, w1) ->
  run self method path query body timeout_arg false w
  = (Raise (SDK (NetworkError "Request failed after retries" None)), w1).
Proof.
  intros Hc Hneg Hb.
  rewrite (request_open _ _ _ _ _ _ _ _ _ _ _ _ _ Hc), Hb.
  unfold max_attempts_of.
  replace (Z.to_nat (_retries self + 1)) with 0%nat by lia.
  reflexivity.
Qed.

(** X11. A client that was never entered, or that was exited, refuses every
    request with a [RuntimeError] and touches nothing: the token callback
    is not consulted and no physical call is made. Entering it again makes
    it usable. *)
Theorem request_requires_open (self : HttpClient E) method path query body
    timeout_arg no_retry w :
  (_client self = None ->
   run self method path query body timeout_arg no_retry w
   = (Raise (Foreign (RuntimeError
                        "HttpClient must be used as async context manager")), w))
  /\ (forall config, _client (init_HttpClient (E := E) config) = None)
  /\ _client (aexit self) = None
  /\ (forall transport, _client (aenter (aexit self) transport) = Some transport).
Proof.
  split; [|repeat split].
  intros Hc. unfold request. now rewrite Hc.
Qed.

End CallProperties.

(** A 200 with a JSON body, on attempt 1 of 3. *)
Lemma success_ends_call_200 :
  let self := anonymous_client 2 (constant_server ok_200) in
  let req := physical_request self "GET" "/health" None None None [] in
  (constant_server ok_200 req (env (start tt)) = (Return ok_200, tt)
   /\ 200 <= status_code ok_200 <= 299)
  /\ request_loop decimal_int fields_validate whole_float self
       (constant_server ok_200) req None 3 3 1 None (start tt)
     = (Return (PDict [("success", PBool true)]),
        record (EvSend req) tt (start tt)).
Proof.
  intros self req. split; [split; [reflexivity | split; discriminate]|].
  destruct (success_ends_call unit decimal_int fields_validate whole_float self
              (constant_server ok_200) req None 3 2%nat 1 None (start tt)
              ok_200 tt eq_refl ltac:(split; discriminate))
    as (res & Hloop & _ & _ & Hct).
  rewrite Hloop. f_equal.
  destruct (Hct "application/json" ltac:(discriminate) eq_refl) as (_ & Hjson).
  destruct (Hjson eq_refl) as (Hv & _).
  now apply Hv.
Defined.

(** Three retries against a transport that never connects: four physical
    calls with sleeps of 1, 2 and 4 seconds between them. *)
Lemma connectivity_failure_exhausts_refusing :
  let self := anonymous_client 3 refusing in
  let out := request decimal_int fields_validate whole_float self
               "GET" "/Cards" None None None false (start tt) in
  (_client self = Some refusing /\ 0 <= _retries self
   /\ _build_headers self (start tt) = (Return [], start tt))
  /\ exists tr : list Event,
       fst out = Raise (SDK (NetworkError "Network error"
                               (Some (HttpxNetworkError "connection refused"))))
       /\ trace (snd out) = tr
       /\ Z.of_nat (sends tr) = 4
       /\ Forall2 Qeq (slept tr) [1; 2; 4]%Q.
Proof.
  intros self out.
  split; [split; [reflexivity | split; [discriminate | reflexivity]]|].
  destruct (connectivity_failure_exhausts unit decimal_int fields_validate
              whole_float self refusing "GET" "/Cards" None None None false
              (start tt) [] (start tt) eq_refl ltac:(discriminate) eq_refl)
    as (t & tr & Hres & Hc & Htr & Hsends & Hslept).
  { intros i _. exists "connection refused". reflexivity. }
  { right. discriminate. }
  cbn in Hc. assert (Ht : t = "connection refused") by congruence. subst t.
  exists tr. split; [exact Hres|]. split; [exact Htr|]. split; [exact Hsends|].
  assert (Hd : map (@Return pyexn Q) (slept tr) = map Return [1; 2; 4]%Q)
    by (rewrite <- Hslept; vm_compute; reflexivity).
  apply map_Return_inj in Hd. rewrite Hd. repeat constructor.
Defined.

(** [no_retry] against the same transport, with five retries configured. *)
Lemma no_retry_single_call_refusing :
  let self := anonymous_client 5 refusing in
  (_client self = Some refusing
   /\ _build_headers self (start tt) = (Return [], start tt))
  /\ trace (snd (request decimal_int fields_validate whole_float self
                   "POST" "/Cards/1/views" None None None true (start tt)))
     = [EvSend (physical_request self "POST" "/Cards/1/views" None None None [])].
Proof.
  intros self. split; [split; reflexivity|].
  destruct (no_retry_single_call unit decimal_int fields_validate whole_float
              self refusing "POST" "/Cards/1/views" None None None (start tt)
              [] (start tt) eq_refl eq_refl) as (e' & Hw).
  rewrite Hw. reflexivity.
Defined.

(** [retries = -1]. *)
Lemma negative_retries_no_call_minus_one :
  let self := anonymous_client (-1) (constant_server ok_200) in
  (_client self = Some (constant_server ok_200) /\ _retries self < 0
   /\ _build_headers self (start tt) = (Return [], start tt))
  /\ request decimal_int fields_validate whole_float self
       "GET" "/health" None None None false (start tt)
     = (Raise (SDK (NetworkError "Request failed after retries" None)), start tt).
Proof.
  intros self. split; [split; [reflexivity | split; reflexivity]|].
  exact (negative_retries_no_call unit decimal_int fields_validate whole_float
           self (constant_server ok_200) "GET" "/health" None None None
           (start tt) [] (start tt) eq_refl eq_refl eq_refl).
Defined.

(** The rotating client after leaving its context: the callback is not
    consulted. *)
Lemma request_requires_open_exited :
  _client (aexit rotating_client) = None
  /\ request decimal_int fields_validate whole_float (aexit rotating_client)
       "GET" "/Cards" None None None false (start (0%nat, 0%nat))
     = (Raise (Foreign (RuntimeError
                          "HttpClient must be used as async context manager")),
        start (0%nat, 0%nat)).
Proof.
  split; [reflexivity|].
  destruct (request_requires_open (nat * nat) decimal_int fields_validate
              whole_float (aexit rotating_client) "GET" "/Cards" None None None
              false (start (0%nat, 0%nat))) as (H & _).
  exact (H eq_refl).
Defined.

(* ----------------------------------------------------------------- *)
(** ** client/pagination.py: walking and iterating *)

Section IterationProperties.

Variables T F S X : Type.
Variable call : F -> Z -> Z -> S -> result X (option (Page T F)) * S.

Lemma anext_pending fuel x rest cur st :
  anext call fuel {| pending := x :: rest; current_page := cur |} st
  = Some (Return (Some (x, {| pending := rest; current_page := cur |})), st).
Proof. destruct fuel; reflexivity. Qed.

Lemma anext_more_fuel fuel : forall c st r,
  anext call fuel c st = Some r -> anext call (Datatypes.S fuel) c st = Some r.
Proof.
  induction fuel as [|fuel IH]; intros c st r.
  - simpl. destruct (pending c); [|auto].
    destruct (current_page c) as [cp|]; [|auto].
    destruct (has_next (_pagination cp)); [discriminate | auto].
  - intros H. cbn [anext] in *. destruct (pending c); [|exact H].
    destruct (current_page c) as [cp|]; [|exact H].
    destruct (has_next (_pagination cp)); [|exact H].
    destruct (next_page call cp st) as [[nxt|e] st1]; [|exact H].
    apply IH. exact H.
Qed.

Lemma drain_more_fuel fuel : forall c st r,
  drain call fuel c st = Some r -> drain call (Datatypes.S fuel) c st = Some r.
Proof.
  induction fuel as [|fuel IH]; intros c st r; [discriminate|].
  intros H. cbn [drain] in H.
  destruct (anext call fuel c st) as [[[[[x c']|]|e] st1]|] eqn:Ha;
    try discriminate;
    change (drain call (Datatypes.S (Datatypes.S fuel)) c st)
      with (match anext call (Datatypes.S fuel) c st with
            | None => None
            | Some (Raise e, st') => Some (Raise e, st')
            | Some (Return None, st') => Some (Return [], st')
            | Some (Return (Some (x, c')), st') =>
                match drain call (Datatypes.S fuel) c' st' with
                | Some (Return xs, st'') => Some (Return (x :: xs), st'')
                | other => other
                end
            end);
    rewrite (anext_more_fuel _ _ _ _ Ha); [|exact H|exact H].
  destruct (drain call fuel c' st1) as [r1|] eqn:Hd; [|discriminate].
  rewrite (IH _ _ _ Hd). exact H.
Qed.

Lemma drain_fuel_le fuel fuel' c st r :
  (fuel <= fuel')%nat ->
  drain call fuel c st = Some r -> drain call fuel' c st = Some r.
Proof.
  induction 1 as [|fuel' _ IH]; [auto|].
  intros H. apply drain_more_fuel, IH, H.
Qed.

Lemma drain_pending pend : forall cur st fuel xs st',
  drain call fuel {| pending := []; current_page := cur |} st
  = Some (Return xs, st') ->
  drain call (fuel + length pend) {| pending := pend; current_page := cur |} st
  = Some (Return (pend ++ xs)%list, st').
Proof.
  induction pend as [|x rest IH]; intros cur st fuel xs st' H.
  - simpl. now rewrite Nat.add_0_r.
  - simpl length. rewrite Nat.add_succ_r. cbn [drain].
    rewrite anext_pending. now rewrite (IH _ _ _ _ _ H).
Qed.

Lemma drain_walk st p qs st' :
  successive_pages call st p qs st' ->
  exists fuel,
    drain call fuel {| pending := []; current_page := Some p |} st
    = Some (Return (flat_map _data qs), st').
Proof.
  induction 1 as [st p Hlast | st p q st1 qs st' Hnext Hfetch _ [f1 IH]].
  - exists 1%nat. simpl. now rewrite Hlast.
  - apply (drain_pending (_data q)) in IH.
    destruct (f1 + length (_data q))%nat as [|f3] eqn:Hf; [discriminate|].
    exists (Datatypes.S (Datatypes.S f3)).
    cbn [drain] in IH.
    change (drain call (Datatypes.S (Datatypes.S f3))
              {| pending := []; current_page := Some p |} st)
      with (match anext call (Datatypes.S f3)
                    {| pending := []; current_page := Some p |} st with
            | None => None
            | Some (Raise e, st') => Some (Raise e, st')
            | Some (Return None, st') => Some (Return [], st')
            | Some (Return (Some (x, c')), st') =>
                match drain call (Datatypes.S f3) c' st' with
                | Some (Return xs, st'') => Some (Return (x :: xs), st'')
                | other => other
                end
            end).
    cbn [anext pending current_page]. rewrite Hnext, Hfetch.
    destruct (anext call f3 _ st1) as [[[[[x c']|]|e] st2]|];
      try discriminate; [|exact IH].
    destruct (drain call f3 c' st2) as [r1|] eqn:Hd; [|discriminate].
    rewrite (drain_more_fuel _ _ _ _ Hd). exact IH.
Qed.

(** X12. For every page from which the successive pages [qs] are reached,
    iterating the page to the end yields, once the fuel is enough, the
    items of the page followed by those of the pages of [qs], in order,
    and leaves the same state behind as [to_list]: the same result and the
    same fetcher calls. *)
Theorem iteration_agrees_with_to_list st p qs st' :
  successive_pages call st p qs st' ->
  exists fuel0,
    forall fuel,
      (fuel0 <= fuel)%nat ->
      drain call fuel (aiter p) st
      = Some (Return (_data p ++ flat_map _data qs)%list, st')
      /\ drain call fuel (aiter p) st = to_list call fuel p st.
Proof.
  intros Hwalk.
  destruct (drain_walk _ _ _ _ Hwalk) as [f1 Hd].
  apply (drain_pending (_data p)) in Hd.
  exists (Nat.max (f1 + length (_data p)) (length qs)).
  intros fuel Hfuel.
  assert (Hdrain : drain call fuel (aiter p) st
                   = Some (Return (_data p ++ flat_map _data qs)%list, st')).
  { eapply drain_fuel_le; [|exact Hd]. lia. }
  split; [exact Hdrain|].
  rewrite Hdrain. symmetry. unfold to_list.
  apply to_list_loop_walk; [exact Hwalk | lia].
Qed.

Lemma take_pending n : forall pend cur fuel st,
  (n <= length pend)%nat ->
  take call n fuel {| pending := pend; current_page := cur |} st
  = Some (Return (firstn n pend), st).
Proof.
  induction n as [|n IH]; intros pend cur fuel st Hn; [reflexivity|].
  destruct pend as [|x rest]; [simpl in Hn; lia|].
  cbn [take]. rewrite anext_pending, IH by (simpl in Hn; lia).
  reflexivity.
Qed.

(** Asking one item more than are pending costs the fetch of the next
    page, and then what asking one item of the page it returned costs. *)
Lemma take_one_more (p q : Page T F) (st st1 : Walk S) fuel :
  has_next (_pagination p) = true ->
  next_page call p st = (Return (Some q), st1) ->
  forall pend,
    take call (Datatypes.S (length pend)) (Datatypes.S fuel)
      {| pending := pend; current_page := Some p |} st
    = match take call 1 fuel (aiter q) st1 with
      | Some (Return xs, st2) => Some (Return (pend ++ xs)%list, st2)
      | other => other
      end.
Proof.
  intros Hnext Hf pend.
  remember (take call 1 fuel (aiter q) st1) as one eqn:Hone.
  induction pend as [|x rest IH].
  - subst one. cbn [length take anext pending current_page app].
    rewrite Hnext, Hf. unfold aiter.
    destruct (anext call fuel _ st1) as [[[[[y c']|]|e] st2]|]; reflexivity.
  - cbn [length]. remember (Datatypes.S (length rest)) as m.
    cbn [take]. rewrite anext_pending. subst m. rewrite IH.
    destruct one as [[[xs|e] st2]|]; reflexivity.
Qed.

(** X13. Iteration is lazy. Taking up to as many items as the page holds
    yields them in order without any fetcher call, even when [has_next]
    holds and with no fuel at all. Asking for one more item calls the
    fetcher, for the next page number. When the page it returns holds an
    item, that item is yielded and the fetcher has been called once. In
    general the iteration goes on as asking one item of the page returned,
    so an empty page with [has_next] costs a further call and an empty page
    without it ends the iteration; it ends as well when the fetcher returns
    no page, and what the fetcher raises is raised. *)
Theorem iteration_is_lazy (p : Page T F) (st : Walk S) :
  (forall n fuel,
      (n <= length (_data p))%nat ->
      take call n fuel (aiter p) st = Some (Return (firstn n (_data p)), st))
  /\ (forall q st1 y ys fuel,
        has_next (_pagination p) = true ->
        next_page call p st = (Return (Some q), st1) ->
        _data q = y :: ys ->
        take call (Datatypes.S (length (_data p))) (Datatypes.S fuel) (aiter p) st
        = Some (Return (_data p ++ [y])%list, st1)
        /\ fetches st1 = (fetches st ++ [next_call p])%list)
  /\ (forall q st1 fuel,
        has_next (_pagination p) = true ->
        next_page call p st = (Return (Some q), st1) ->
        take call (Datatypes.S (length (_data p))) (Datatypes.S fuel) (aiter p) st
        = match take call 1 fuel (aiter q) st1 with
          | Some (Return xs, st2) => Some (Return (_data p ++ xs)%list, st2)
          | other => other
          end
        /\ fetches st1 = (fetches st ++ [next_call p])%list
        /\ (_data q = [] -> has_next (_pagination q) = false ->
            take call (Datatypes.S (length (_data p))) (Datatypes.S fuel)
              (aiter p) st
            = Some (Return (_data p), st1)))
  /\ (forall st1 fuel,
        has_next (_pagination p) = true ->
        next_page call p st = (Return None, st1) ->
        take call (Datatypes.S (length (_data p))) (Datatypes.S fuel) (aiter p) st
        = Some (Return (_data p), st1))
  /\ (forall e st1 fuel,
        has_next (_pagination p) = true ->
        next_page call p st = (Raise e, st1) ->
        take call (Datatypes.S (length (_data p))) (Datatypes.S fuel) (aiter p) st
        = Some (Raise e, st1)).
Proof.
  assert (Hrec : forall r st1,
             has_next (_pagination p) = true ->
             next_page call p st = (r, st1) ->
             fetches st1 = (fetches st ++ [next_call p])%list).
  { intros r st1 Hnext Hfetch.
    unfold next_page, await_fetcher in Hfetch. rewrite Hnext in Hfetch.
    simpl in Hfetch. destruct (call _ _ _ _) as [r' s'].
    now injection Hfetch as _ <-. }
  assert (Hend : forall r st1 fuel,
             has_next (_pagination p) = true ->
             next_page call p st = (r, st1) ->
             (r = Return None \/ exists e, r = Raise e) ->
             forall pend,
               take call (Datatypes.S (length pend)) (Datatypes.S fuel)
                 {| pending := pend; current_page := Some p |} st
               = Some (match r with
                       | Return _ => Return pend
                       | Raise e => Raise e
                       end, st1)).
  { intros r st1 fuel Hnext Hfetch Hr. induction pend as [|x rest IH].
    - cbn [length take anext pending current_page].
      rewrite Hnext, Hfetch.
      destruct Hr as [-> | [e ->]]; [|reflexivity].
      destruct fuel; reflexivity.
    - cbn [length]. remember (Datatypes.S (length rest)) as m.
      cbn [take]. rewrite anext_pending. subst m. rewrite IH.
      destruct r; reflexivity. }
  split; [|split; [|split; [|split]]].
  - intros n fuel Hn. now apply take_pending.
  - intros q st1 y ys fuel Hnext Hfetch Hq.
    split; [|now apply (Hrec _ _ Hnext Hfetch)].
    unfold aiter at 1.
    rewrite (take_one_more p q st st1 fuel Hnext Hfetch).
    unfold aiter. rewrite Hq. cbn [take]. rewrite anext_pending. reflexivity.
  - intros q st1 fuel Hnext Hfetch.
    split; [|split; [now apply (Hrec _ _ Hnext Hfetch)|]].
    + unfold aiter at 1. apply (take_one_more p q st st1 fuel Hnext Hfetch).
    + intros Hq Hlast. unfold aiter at 1.
      rewrite (take_one_more p q st st1 fuel Hnext Hfetch).
      unfold aiter. rewrite Hq. cbn [take].
      destruct fuel; cbn [anext pending current_page]; rewrite Hlast;
        now rewrite app_nil_r.
  - intros st1 fuel Hnext Hfetch.
    exact (Hend _ _ fuel Hnext Hfetch (or_introl eq_refl) (_data p)).
  - intros e st1 fuel Hnext Hfetch.
    exact (Hend _ _ fuel Hnext Hfetch (or_intror (ex_intro _ e eq_refl))
             (_data p)).
Qed.

Lemma to_list_loop_up_to st p qs last st1 :
  pages_up_to call st p qs last st1 ->
  forall fuel all_items,
    to_list_loop call (length qs + fuel) all_items (Some p) st
    = to_list_loop call fuel (all_items ++ flat_map _data qs)%list
        (Some last) st1.
Proof.
  induction 1 as [st p | st p q st2 qs last st1 Hnext Hfetch _ IH];
    intros fuel all_items.
  - simpl. now rewrite app_nil_r.
  - cbn [length Nat.add to_list_loop]. rewrite Hnext, Hfetch, IH.
    cbn [flat_map]. now rewrite app_assoc.
Qed.

(** X14. [to_list] does not outlive a failing or an empty fetch. When the
    pages [qs] are reached and the next fetch raises, [to_list] raises the
    same exception and the items gathered so far are not returned; when the
    next fetch returns [None] although [has_next] holds, [to_list] stops
    there and returns the items of the pages reached. *)
Theorem to_list_stops_at_failed_fetch st p qs last st1 :
  pages_up_to call st p qs last st1 ->
  has_next (_pagination last) = true ->
  (forall e st2 fuel,
      next_page call last st1 = (Raise e, st2) ->
      (length qs < fuel)%nat ->
      to_list call fuel p st = Some (Raise e, st2))
  /\ (forall st2 fuel,
        next_page call last st1 = (Return None, st2) ->
        (length qs < fuel)%nat ->
        to_list call fuel p st
        = Some (Return (_data p ++ flat_map _data qs)%list, st2)).
Proof.
  intros Hup Hnext.
  split; intros; unfold to_list;
    replace fuel with (length qs + Datatypes.S (fuel - length qs - 1))%nat by lia;
    rewrite (to_list_loop_up_to _ _ _ _ _ Hup);
    cbn [to_list_loop]; rewrite Hnext; rewrite H.
  - reflexivity.
  - destruct (fuel - length qs - 1)%nat; reflexivity.
Qed.

(** X15. [to_list] has no bound of its own on the number of pages: behind
    a fetcher that answers every call with a page whose [has_next] holds,
    it never returns, whatever the fuel. *)
Theorem to_list_endless (p : Page T F) :
  (forall f pg sz s, exists q s',
      call f pg sz s = (Return (Some q), s')
      /\ has_next (_pagination q) = true) ->
  has_next (_pagination p) = true ->
  forall fuel st, to_list call fuel p st = None.
Proof.
  intros Hall Hp fuel. unfold to_list. generalize (_data p) as acc.
  revert p Hp. induction fuel as [|fuel IH]; intros p Hp acc st.
  - simpl. now rewrite Hp.
  - cbn [to_list_loop]. rewrite Hp. unfold next_page, await_fetcher.
    rewrite Hp. simpl.
    destruct (Hall (_fetcher p) (page (_pagination p) + 1)
                (page_size (_pagination p)) (resource st))
      as (q & s' & Hc & Hq).
    rewrite Hc. apply IH. exact Hq.
Qed.

(** X16. A response without pagination metadata ([None] or an empty
    mapping) is one full page: page 1 of 1, holding all the items, with
    neither successor nor predecessor. On it [next_page] and
    [previous_page] return [None] and [to_list] returns the items, all
    without calling the fetcher. *)
Theorem create_page_unpaginated (data : list T)
    (pagination_info : option (list (string * pyvalue))) (fetcher : F) :
  pagination_info = None \/ pagination_info = Some [] ->
  exists p,
    create_page data pagination_info fetcher = Some p
    /\ _data p = data
    /\ _fetcher p = fetcher
    /\ _pagination p
       = {| page := 1;
            page_size := Z.of_nat (length data);
            total_count := Z.of_nat (length data);
            total_pages := 1;
            has_next := false;
            has_previous := false |}
    /\ forall st fuel,
         next_page call p st = (Return None, st)
         /\ previous_page call p st = (Return None, st)
         /\ to_list call fuel p st = Some (Return data, st).
Proof.
  intros [-> | ->]; eexists; (split; [reflexivity|]);
    do 3 (split; [reflexivity|]); intros st fuel;
    (split; [reflexivity|]); (split; [reflexivity|]);
    destruct fuel; reflexivity.
Qed.

End IterationProperties.

(** Iterating the three pages of one item each. *)
Lemma iteration_agrees_three_pages :
  let st := {| resource := tt; fetches := [] |} in
  successive_pages three_pages st (page_of_three 1 "Pikachu")
    [page_of_three 2 "Charizard"; page_of_three 3 "Bulbasaur"]
    {| resource := tt; fetches := [(2, 1); (3, 1)] |}
  /\ exists fuel,
       drain three_pages fuel (aiter (page_of_three 1 "Pikachu")) st
       = Some (Return ["Pikachu"; "Charizard"; "Bulbasaur"],
               {| resource := tt; fetches := [(2, 1); (3, 1)] |}).
Proof.
  intros st.
  assert (Hwalk : successive_pages three_pages st (page_of_three 1 "Pikachu")
                    [page_of_three 2 "Charizard"; page_of_three 3 "Bulbasaur"]
                    {| resource := tt; fetches := [(2, 1); (3, 1)] |}).
  { eapply successive_next; [reflexivity | reflexivity |].
    eapply successive_next; [reflexivity | reflexivity |].
    apply successive_end. reflexivity. }
  split; [exact Hwalk|].
  destruct (iteration_agrees_with_to_list _ _ _ _ three_pages _ _ _ _ Hwalk)
    as (fuel0 & H).
  exists fuel0. exact (proj1 (H fuel0 (le_n fuel0))).
Defined.

(** The first page of three: its item costs no fetch, the second item
    costs one. *)
Lemma iteration_is_lazy_three_pages :
  let st := {| resource := tt; fetches := [] |} in
  take three_pages 1 0 (aiter (page_of_three 1 "Pikachu")) st
  = Some (Return ["Pikachu"], st)
  /\ take three_pages 2 1 (aiter (page_of_three 1 "Pikachu")) st
     = Some (Return ["Pikachu"; "Charizard"],
             {| resource := tt; fetches := [(2, 1)] |}).
Proof.
  intros st.
  destruct (iteration_is_lazy _ _ _ _ three_pages (page_of_three 1 "Pikachu") st)
    as (Hfirst & Hmore & _).
  split.
  - exact (Hfirst 1%nat 0%nat (le_n 1)).
  - exact (proj1 (Hmore (page_of_three 2 "Charizard")
                    {| resource := tt; fetches := [(2, 1)] |}
                    "Charizard" [] 0%nat eq_refl eq_refl eq_refl)).
Defined.

(** The third fetch fails: the two items gathered are lost. *)
Lemma to_list_third_fetch_fails :
  let st := {| resource := tt; fetches := [] |} in
  (pages_up_to third_fails st (page_of_three 1 "Pikachu")
     [page_of_three 2 "Charizard"] (page_of_three 2 "Charizard")
     {| resource := tt; fetches := [(2, 1)] |}
   /\ has_next (_pagination (page_of_three 2 "Charizard")) = true)
  /\ to_list third_fails 2 (page_of_three 1 "Pikachu") st
     = Some (Raise (HttpxNetworkError "connection refused"),
             {| resource := tt; fetches := [(2, 1); (3, 1)] |}).
Proof.
  intros st.
  assert (Hup : pages_up_to third_fails st (page_of_three 1 "Pikachu")
                  [page_of_three 2 "Charizard"] (page_of_three 2 "Charizard")
                  {| resource := tt; fetches := [(2, 1)] |}).
  { eapply up_to_next; [reflexivity | reflexivity | apply up_to_here]. }
  split; [split; [exact Hup | reflexivity]|].
  destruct (to_list_stops_at_failed_fetch _ _ _ _ third_fails _ _ _ _ _
              Hup eq_refl) as (Hraise & _).
  apply Hraise; [reflexivity | repeat constructor].
Defined.

(** The endless listing, with fuel for a thousand pages. *)
Lemma to_list_endless_ditto :
  let p := {| _data := ["Ditto"];
              _pagination := {| page := 1; page_size := 1; total_count := 1;
                                total_pages := 1; has_next := true;
                                has_previous := false |};
              _fetcher := tt |} in
  has_next (_pagination p) = true
  /\ to_list endless 1000 p {| resource := tt; fetches := [] |} = None.
Proof.
  intros p. split; [reflexivity|].
  apply to_list_endless; [|reflexivity].
  intros f pg sz s. eexists. exists s. split; reflexivity.
Defined.

(** [create_page([], None, fetcher)]. *)
Lemma create_page_unpaginated_empty :
  exists p : Page string unit,
    create_page [] None tt = Some p
    /\ _pagination p
       = {| page := 1; page_size := 0; total_count := 0; total_pages := 1;
            has_next := false; has_previous := false |}
    /\ to_list endless 0 p {| resource := tt; fetches := [] |}
       = Some (Return [], {| resource := tt; fetches := [] |}).
Proof.
  destruct (create_page_unpaginated string unit unit pyexn endless [] None tt
              (or_introl eq_refl))
    as (p & Hp & _ & _ & Hinfo & Hnav).
  exists p. split; [exact Hp|]. split; [exact Hinfo|].
  exact (proj2 (proj2 (Hnav {| resource := tt; fetches := [] |} 0%nat))).
Defined.

(* ----------------------------------------------------------------- *)
(** ** client/resources and client/client.py *)


Section ResourceProperties.

Variable E : Type.
Variable py_int : string -> result string Z.
Variable model_validate : pyvalue -> result string ProblemDetails.
Variable str_float : Q -> string.

Local Abbreviation run := (request py_int model_validate str_float).
Local Abbreviation loop := (request_loop py_int model_validate str_float).

(** What the loop does with a success response. *)
Lemma loop_success (self : HttpClient E) client req timeout_arg max_attempts
    n attempt last w r e' :
  client req (env w) = (Return r, e') ->
  is_success r = true ->
  loop self client req timeout_arg max_attempts (S n) attempt last w
  = (if status_code r =? 204 then Return PNone
     else if str_contains "application/json"
               match headers_get "content-type" (resp_headers r) with
               | Some v => v
               | None => ""
               end
          then match resp_json r with
               | Return v => Return v
               | Raise text =>
                   Raise (SDK (NetworkError ("Unexpected error: " ++ text)
                                            (Some (ValueError text))))
               end
          else Return PNone,
     record (EvSend req) e' w).
Proof.
  intros Hc Hs.
  simpl. unfold bind at 1. unfold try_except, try_block, bind at 1, client_request.
  rewrite Hc. simpl. rewrite Hs.
  destruct (status_code r =? 204); [reflexivity|].
  destruct (str_contains _ _); [|reflexivity].
  unfold bind. destruct (resp_json r); reflexivity.
Qed.

(** A GET whose first physical call is answered by a success response. *)
Lemma get_success (self : HttpClient E) client path query w hs w1 r e' :
  _client self = Some client ->
  0 <= _retries self ->
  _build_headers self w = (Return hs, w1) ->
  client (physical_request self "GET" path query None None hs) (env w1)
  = (Return r, e') ->
  200 <= status_code r <= 299 ->
  Http.get py_int model_validate str_float self path query w
  = (if status_code r =? 204 then Return PNone
     else if str_contains "application/json"
               match headers_get "content-type" (resp_headers r) with
               | Some v => v
               | None => ""
               end
          then match resp_json r with
               | Return v => Return v
               | Raise text =>
                   Raise (SDK (NetworkError ("Unexpected error: " ++ text)
                                            (Some (ValueError text))))
               end
          else Return PNone,
     record (EvSend (physical_request self "GET" path query None None hs)) e' w1).
Proof.
  intros Hc Hret Hb Hsend [Hlo Hhi].
  unfold Http.get.
  rewrite (request_open _ _ _ _ _ _ _ _ _ _ _ _ _ Hc), Hb.
  unfold max_attempts_of.
  replace (Z.to_nat (_retries self + 1))
    with (S (Z.to_nat (_retries self))) by lia.
  apply loop_success; [exact Hsend|].
  unfold is_success. apply andb_true_iff. split; now apply Z.leb_le.
Qed.

(** X18. [CardsResource.get] turns an empty success into an error of its
    own. When the first physical call is answered by a 2xx response that
    is a 204, or has no JSON content type, or whose JSON body is falsy or a
    mapping with a falsy or missing [data], the method raises
    [NotFoundError] ["Card not found"] with status 404 and no problem
    details, after that single physical call. *)
Theorem cards_get_not_found (CardDetail : Type)
    (validate_card : pyvalue -> result string CardDetail)
    (self : HttpClient E) client id w hs w1 r e' :
  _client self = Some client ->
  0 <= _retries self ->
  _build_headers self w = (Return hs, w1) ->
  client (physical_request self "GET" ("/Cards/" ++ id) None None None hs) (env w1)
  = (Return r, e') ->
  200 <= status_code r <= 299 ->
  status_code r = 204
  \/ headers_get "content-type" (resp_headers r) = None
  \/ (exists ct, headers_get "content-type" (resp_headers r) = Some ct
                 /\ str_contains "application/json" ct = false)
  \/ (exists v, resp_json r = Return v
                /\ (truthy v = false
                    \/ exists d, v = PDict d
                                 /\ truthy (Base.py_get "data" d) = false)) ->
  exists err,
    Cards.get py_int model_validate str_float validate_card self id w
    = (Raise (SDK err),
       record (EvSend (physical_request self "GET" ("/Cards/" ++ id)
                         None None None hs)) e' w1)
    /\ cls err = ClsNotFoundError
    /\ status err = 404
    /\ message err = "Card not found"
    /\ raw err = None.
Proof.
  intros Hc Hret Hb Hsend Hst Hempty.
  exists (NotFoundError "Card not found" None).
  split; [|repeat split].
  unfold Cards.get, bind at 1.
  rewrite (get_success self client _ None w hs w1 r e' Hc Hret Hb Hsend Hst).
  destruct (status_code r =? 204) eqn:H204; [reflexivity|].
  destruct Hempty as [H|[H|[(ct & H & Hct)|(v & Hv & Hfalsy)]]].
  - apply Z.eqb_neq in H204. contradiction.
  - rewrite H. reflexivity.
  - rewrite H, Hct. reflexivity.
  - destruct (str_contains _ _); [|reflexivity].
    rewrite Hv. destruct Hfalsy as [Hf|(d & -> & Hd)].
    + simpl. now rewrite Hf.
    + simpl. destruct d as [|kv d']; [reflexivity|].
      simpl. now rewrite Hd.
Qed.

(** X19. [_create_paged_response] on what a list endpoint may return. A
    response that is not a mapping, such as the [None] that [request]
    returns for a 204, raises an [AttributeError]. A mapping whose [data]
    is missing, [None] or empty and whose [pagination] is missing or
    [None] gives one empty page: page 1 of 1 with page size 0, no
    successor and no predecessor. *)
Theorem create_paged_response_edges (Mdl F : Type)
    (validate : pyvalue -> result string Mdl) (fetcher : F) :
  (forall v,
      (forall d, v <> PDict d) ->
      Base._create_paged_response validate v fetcher
      = Raise (Base.no_attribute_get v))
  /\ Base._create_paged_response validate PNone fetcher
     = Raise (OtherException "'NoneType' object has no attribute 'get'")
  /\ (forall d,
        truthy (Base.py_get "data" d) = false ->
        Base.py_get "pagination" d = PNone ->
        Base._create_paged_response validate (PDict d) fetcher
        = Return (Some {| _data := [];
                          _pagination := {| page := 1; page_size := 0;
                                            total_count := 0; total_pages := 1;
                                            has_next := false;
                                            has_previous := false |};
                          _fetcher := fetcher |})).
Proof.
  split; [|split; [reflexivity|]].
  - intros v Hv. destruct v; try reflexivity. now elim (Hv d).
  - intros d Hdata Hpag. unfold Base._create_paged_response.
    rewrite Hdata, Hpag. reflexivity.
Qed.

(** X20. [FavoritesResource.list] asks for [page] and [pageSize] (1 and 20
    when no options are given). When the first physical call is answered by
    a 204, the method raises the [AttributeError] of [None.get], not an
    error of the SDK, after that single physical call. *)
Theorem favorites_list_no_content (FavoriteCard : Type)
    (validate_favorite : pyvalue -> result string FavoriteCard)
    (self : HttpClient E) client options w hs w1 r e' :
  let opts := match options with
              | Some o => o
              | None => Favorites.default_options
              end in
  let req := physical_request self "GET" "/Favorites"
               (Some [("page", PInt (Favorites.page opts));
                      ("pageSize", PInt (Favorites.page_size opts))])
               None None hs in
  _client self = Some client ->
  0 <= _retries self ->
  _build_headers self w = (Return hs, w1) ->
  client req (env w1) = (Return r, e') ->
  status_code r = 204 ->
  req_params req = Some [("page", PInt (Favorites.page opts));
                         ("pageSize", PInt (Favorites.page_size opts))]
  /\ Favorites.list py_int model_validate str_float validate_favorite
       self options w
     = (Raise (Foreign (OtherException
                          "'NoneType' object has no attribute 'get'")),
        record (EvSend req) e' w1).
Proof.
  intros opts req Hc Hret Hb Hsend H204.
  split; [reflexivity|].
  unfold Favorites.list, bind at 1. fold opts.
  change (Base._build_query [("page", PInt (Favorites.page opts));
                             ("pageSize", PInt (Favorites.page_size opts))])
    with [("page", PInt (Favorites.page opts));
          ("pageSize", PInt (Favorites.page_size opts))].
  rewrite (get_success self client _ _ w hs w1 r e' Hc Hret Hb Hsend
             ltac:(lia)).
  rewrite H204. reflexivity.
Qed.

(** X21. [with_config] gives a client that has not been entered, also when
    the client it is called on has: [health] on it raises the
    [RuntimeError] of an [HttpClient] used outside its context and touches
    nothing. Its configuration is the old one with the named fields
    replaced; once entered, a client made with a new non-empty static token
    sends that token, whatever authentication the old one had. *)
Theorem with_config_not_entered (self : Client.PokeForgeClient E)
    (kwargs : Client.Changes E) (w : World E) :
  Client.health py_int model_validate str_float
    (Client.with_config self kwargs) w
  = (Raise (Foreign (RuntimeError
                       "HttpClient must be used as async context manager")), w)
  /\ (forall transport,
        Client.health py_int model_validate str_float
          (Client.with_config (Client.aenter self transport) kwargs) w
        = (Raise (Foreign (RuntimeError
                             "HttpClient must be used as async context manager")),
           w))
  /\ Client._config (Client.with_config self kwargs)
     = Client.replace (Client._config self) kwargs
  /\ (Client.new_retries kwargs = None ->
      _retries (Client._http (Client.with_config self kwargs))
      = retries (Client._config self))
  /\ (forall token transport,
        token <> "" ->
        Client.new_auth kwargs = Some (Some (StaticAuth token)) ->
        _build_headers
          (Client._http (Client.aenter (Client.with_config self kwargs) transport))
          w
        = (Return [("Authorization", "Bearer " ++ token)], w)).
Proof.
  split; [reflexivity|]. split; [reflexivity|]. split; [reflexivity|].
  split.
  - intros Hn. simpl. now rewrite Hn.
  - intros token transport Hne Hauth.
    assert (Hb : String.eqb token "" = false) by now apply String.eqb_neq.
    unfold _build_headers, bind, get_token. simpl. rewrite Hauth. simpl.
    rewrite Hb. simpl. now rewrite Hb.
Qed.

End ResourceProperties.

(** A card whose envelope comes back with [data: null]. *)
Lemma cards_get_not_found_empty_envelope :
  let self := anonymous_client 3 (constant_server empty_envelope_200) in
  let req := physical_request self "GET" "/Cards/missing" None None None [] in
  (_client self = Some (constant_server empty_envelope_200)
   /\ 0 <= _retries self
   /\ _build_headers self (start tt) = (Return [], start tt)
   /\ constant_server empty_envelope_200 req tt = (Return empty_envelope_200, tt)
   /\ 200 <= status_code empty_envelope_200 <= 299)
  /\ exists err,
       Cards.get decimal_int fields_validate whole_float
         (fun v : pyvalue => @Return string pyvalue v) self "missing" (start tt)
       = (Raise (SDK err), record (EvSend req) tt (start tt))
       /\ cls err = ClsNotFoundError
       /\ message err = "Card not found".
Proof.
  intros self req.
  split; [repeat split; discriminate|].
  destruct (cards_get_not_found unit decimal_int fields_validate whole_float
              pyvalue (fun v => Return v) self
              (constant_server empty_envelope_200) "missing" (start tt) []
              (start tt) empty_envelope_200 tt eq_refl ltac:(discriminate)
              eq_refl eq_refl ltac:(split; discriminate))
    as (err & Hget & Hc & _ & Hm & _).
  { right. right. right. eexists. split; [reflexivity|].
    right. eexists. split; reflexivity. }
  exists err. split; [exact Hget|]. split; [exact Hc | exact Hm].
Defined.

(** The favorites of a server that answers 204. *)
Lemma favorites_list_no_content_204 :
  let self := anonymous_client 3 (constant_server no_content_204) in
  let req := physical_request self "GET" "/Favorites"
               (Some [("page", PInt 1); ("pageSize", PInt 20)]) None None [] in
  (_client self = Some (constant_server no_content_204)
   /\ 0 <= _retries self
   /\ _build_headers self (start tt) = (Return [], start tt)
   /\ constant_server no_content_204 req tt = (Return no_content_204, tt)
   /\ status_code no_content_204 = 204)
  /\ Favorites.list decimal_int fields_validate whole_float
       (fun v : pyvalue => @Return string pyvalue v) self None (start tt)
     = (Raise (Foreign (OtherException
                          "'NoneType' object has no attribute 'get'")),
        record (EvSend req) tt (start tt)).
Proof.
  intros self req.
  split; [repeat split; discriminate|].
  exact (proj2 (favorites_list_no_content unit decimal_int fields_validate
                  whole_float pyvalue (fun v => Return v) self
                  (constant_server no_content_204) None (start tt) []
                  (start tt) no_content_204 tt eq_refl ltac:(discriminate)
                  eq_refl eq_refl eq_refl)).
Defined.

Section HintProperties.

Variable E : Type.
Variable py_int : string -> result string Z.
Variable model_validate : pyvalue -> result string ProblemDetails.
Variable str_float : Q -> string.

Local Abbreviation run := (request py_int model_validate str_float).
Local Abbreviation loop := (request_loop py_int model_validate str_float).
Local Abbreviation handle := (_handle_error_response py_int model_validate).

(** X22. The hint of the server is what is slept. When a 429 response with
    [Retry-After: k], for a non-zero integer [k], arrives with attempts
    left and converts to an error, then, whatever the attempt number and
    the backoff settings: if [k] has a float (its magnitude is below
    [2^1024 - 2^970]), the loop sleeps [min(1000 k / 1000, max_delay)],
    that is [min(k, max_delay)] seconds, and goes on with the next attempt;
    otherwise the division of the hint raises [OverflowError] inside the
    attempt, and the call ends there, without a sleep, with a
    [NetworkError] ["Unexpected error: ..."]. *)
Theorem hinted_retry_sleeps_hint (self : HttpClient E) client req timeout_arg
    max_attempts n attempt last w r e' h k err :
  client req (env w) = (Return r, e') ->
  status_code r = 429 ->
  headers_get "retry-after" (resp_headers r) = Some h ->
  h <> "" ->
  py_int h = Return k ->
  k <> 0 ->
  handle r = Return err ->
  attempt < max_attempts ->
  (Z.abs k < float_limit ->
   loop self client req timeout_arg max_attempts (S n) attempt last w
   = loop self client req timeout_arg max_attempts n (attempt + 1) last
       (record (EvSleep (Qmin (inject_Z (k * 1000) / 1000)
                              (max_delay (_retry_config self))))
          e' (record (EvSend req) e' w))
   /\ (Qmin (inject_Z (k * 1000) / 1000) (max_delay (_retry_config self))
       == Qmin (inject_Z k) (max_delay (_retry_config self)))%Q)
  /\ (float_limit <= Z.abs k ->
      loop self client req timeout_arg max_attempts (S n) attempt last w
      = (Raise (SDK (NetworkError
                       "Unexpected error: integer division result too large for a float"
                       (Some division_too_large))),
         record (EvSend req) e' w)).
Proof.
  intros Hc Hst Hh Hne Hint Hk Herr Hlt.
  destruct (handle_429_parsed py_int model_validate r err h k
              Hst Hh Hne Hint Herr) as (Hcls & _ & Hra).
  assert (Hs : is_success r = false).
  { unfold is_success. now rewrite Hst. }
  assert (Hd : _calculate_delay (_retry_config self) attempt (Some err)
               = match div_1000 (k * 1000) with
                 | Return seconds =>
                     Return (py_min seconds (max_delay (_retry_config self)))
                 | Raise x => Raise x
                 end).
  { apply calculate_delay_hinted; [exact Hcls | exact Hra | lia]. }
  split; intros Hrange.
  - split.
    + apply loop_status_retry with (r := r) (err := err);
        [exact Hc|exact Hs|exact Herr|exact Hlt|now left|].
      rewrite Hd, div_1000_computed by lia. now rewrite py_min_Qmin.
    + assert (Heq : (inject_Z (k * 1000) / 1000 == inject_Z k)%Q).
      { rewrite inject_Z_mult. field. }
      now rewrite Heq.
  - apply loop_status_delay_raises with (r := r) (err := err)
                                        (x := division_too_large);
      [exact Hc|exact Hs|exact Herr|exact Hlt|now left|].
    rewrite Hd, div_1000_overflow by lia. reflexivity.
Qed.

(** X23. Every physical call of a logical call carries the same timeout:
    the [timeout] argument when it is given and not zero, and the timeout
    of the client otherwise; a [timeout] of zero is taken as not given. *)
Theorem request_timeout_override (self : HttpClient E) client method path query
    body timeout_arg no_retry w :
  _client self = Some client ->
  exists tr : list Event,
    trace (snd (run self method path query body timeout_arg no_retry w))
    = (trace w ++ tr)%list
    /\ Forall (fun ev =>
                 forall r, ev = EvSend r ->
                 req_timeout r
                 = match timeout_arg with
                   | Some t => if Qnum t =? 0 then _timeout self else t
                   | None => _timeout self
                   end) tr.
Proof.
  intros Hc.
  destruct (request_trace E py_int model_validate str_float self client method
              path query body timeout_arg no_retry w Hc)
    as (tok & tr & Htok & Hs0 & _ & Htr & _ & _ & hs & Hall & _).
  exists (tok ++ tr)%list. split; [exact Htr|].
  apply Forall_app. split.
  - apply Forall_forall. intros ev Hev r ->.
    exfalso. unfold sends in Hs0.
    assert (Hf : In (EvSend r) (filter is_send tok))
      by (apply filter_In; split; [exact Hev | reflexivity]).
    destruct (filter is_send tok); [contradiction | discriminate].
  - destruct (calls_of_one_request _ _ Hall) as (_ & _ & Hr).
    eapply Forall_impl; [|exact Hr].
    intros ev Hev r Heq. rewrite (Hev r Heq). simpl.
    unfold request_timeout_of, float_truthy.
    destruct timeout_arg as [t|]; [|reflexivity].
    destruct (Qnum t =? 0); reflexivity.
Qed.

End HintProperties.

(** [Retry-After: 5] on attempt 1 of 4, with the default backoff. *)
Lemma hinted_retry_sleeps_hint_5 :
  let r := json_response 429 [("retry-after", "5")]
             (PDict [("title", PStr "Rate Limit Exceeded")]) in
  let self := anonymous_client 3 (constant_server r) in
  let req := physical_request self "GET" "/Cards" None None None [] in
  (constant_server r req (env (start tt)) = (Return r, tt)
   /\ status_code r = 429
   /\ headers_get "retry-after" (resp_headers r) = Some "5"
   /\ decimal_int "5" = Return 5
   /\ 1 < 4)
  /\ exists d,
       request_loop decimal_int fields_validate whole_float self
         (constant_server r) req None 4 4 1 None (start tt)
       = request_loop decimal_int fields_validate whole_float self
           (constant_server r) req None 4 3 2 None
           (record (EvSleep d) tt (record (EvSend req) tt (start tt)))
       /\ (d == 5)%Q.
Proof.
  intros r self req. split; [repeat split|].
  destruct (hinted_retry_sleeps_hint unit decimal_int fields_validate whole_float
              self (constant_server r) req None 4 3%nat 1 None (start tt)
              r tt "5" 5
              (RateLimitError "Rate Limit Exceeded"
                 (Some {| pd_type := None; pd_title := Some "Rate Limit Exceeded";
                          pd_status := None; pd_detail := None;
                          pd_instance := None; pd_errors := None |})
                 (Some 5000))
              eq_refl eq_refl eq_refl ltac:(discriminate) eq_refl
              ltac:(discriminate) eq_refl eq_refl)
    as (Hcomputed & _).
  destruct Hcomputed as (Hloop & Hd); [vm_compute; reflexivity|].
  eexists. split; [exact Hloop|]. rewrite Hd. reflexivity.
Defined.

(** A [timeout] of zero on a client whose timeout is 30 seconds. *)
Lemma request_timeout_override_zero :
  let self := anonymous_client 0 (constant_server ok_200) in
  _client self = Some (constant_server ok_200)
  /\ exists tr : list Event,
       trace (snd (request decimal_int fields_validate whole_float self
                     "GET" "/health" None None (Some 0%Q) false (start tt)))
       = tr
       /\ Forall (fun ev => forall r, ev = EvSend r -> req_timeout r = 30%Q) tr.
Proof.
  intros self. split; [reflexivity|].
  destruct (request_timeout_override unit decimal_int fields_validate whole_float
              self (constant_server ok_200) "GET" "/health" None None
              (Some 0%Q) false (start tt) eq_refl) as (tr & Htr & Hall).
  exists tr. split; [exact Htr | exact Hall].
Defined.

(* ----------------------------------------------------------------- *)
(** ** client/http.py: delays that are not computed *)



Lemma backoff_computed (rc : RetryConfig) (attempt : Z) :
  exponential rc = false \/ 1 <= attempt <= 1024 ->
  exists d, _calculate_delay rc attempt None = Return d.
Proof.
  intros [H|H]; eexists.
  - now apply calculate_delay_constant.
  - now apply calculate_delay_backoff.
Qed.

Section OverflowProperties.

Variable E : Type.
Variable py_int : string -> result string Z.
Variable model_validate : pyvalue -> result string ProblemDetails.
Variable str_float : Q -> string.

Local Abbreviation run := (request py_int model_validate str_float).
Local Abbreviation loop := (request_loop py_int model_validate str_float).
Local Abbreviation handle := (_handle_error_response py_int model_validate).




(** The error made of a response with a status other than 429 carries no
    hint. *)
Lemma other_status_no_hint (r : Response) (err : PokeForgeError) :
  status_code r <> 429 ->
  handle r = Return err ->
  no_hint (Some err).
Proof.
  intros Hst Herr. simpl. intros Hcls. exfalso.
  unfold _handle_error_response in Herr.
  apply Z.eqb_neq in Hst as Hst'. rewrite Hst' in Herr.
  rewrite (from_response_class _ _ _ _ Herr) in Hcls.
  destruct (error_map_get_cases (status_code r))
    as [[_ H]|[[_ H]|[[_ H]|[[_ H]|[[H _]|(_ & _ & _ & _ & _ & H)]]]]];
    try (rewrite H in Hcls; discriminate). contradiction.
Qed.

(** X26. From the error made of a response a delay is always computed when
    the backoff is constant or the attempt number is between 1 and 1024,
    provided that the integer of a [Retry-After] header on a 429, if there
    is one, has a float (its magnitude is below [2^1024 - 2^970]). *)
Theorem retry_delay_computed (r : Response) (err : PokeForgeError)
    (rc : RetryConfig) (attempt : Z) :
  handle r = Return err ->
  exponential rc = false \/ 1 <= attempt <= 1024 ->
  (forall h k,
      status_code r = 429 ->
      headers_get "retry-after" (resp_headers r) = Some h ->
      py_int h = Return k ->
      Z.abs k < float_limit) ->
  exists d, _calculate_delay rc attempt (Some err) = Return d.
Proof.
  intros Herr Hb Hrange.
  destruct (backoff_computed rc attempt Hb) as [d0 Hd0].
  assert (Hno : no_hint (Some err) ->
                exists d, _calculate_delay rc attempt (Some err) = Return d).
  { intros Hno. exists d0. now rewrite (calculate_delay_no_hint _ _ _ Hno). }
  destruct (Z.eq_dec (status_code r) 429) as [Hst|Hst];
    [|apply Hno; now apply other_status_no_hint with (r := r)].
  destruct (str_truthy (headers_get "retry-after" (resp_headers r))) eqn:Ht.
  - apply str_truthy_true in Ht as (h & Hh & Hne).
    destruct (py_int h) as [k|text] eqn:Hint.
    + destruct (handle_429_parsed py_int model_validate r err h k
                  Hst Hh Hne Hint Herr) as (Hcls & _ & Hra).
      destruct (Z.eq_dec k 0) as [->|Hk].
      * apply Hno. simpl. intros _. right. exact Hra.
      * rewrite (calculate_delay_hinted rc attempt err (k * 1000) Hcls Hra)
          by lia.
        rewrite div_1000_computed; [eauto|].
        specialize (Hrange h k Hst Hh Hint). lia.
    + exfalso. unfold _handle_error_response in Herr.
      rewrite Hst, Hh in Herr. simpl in Herr.
      destruct (String.eqb_spec h ""); [contradiction|]. simpl in Herr.
      rewrite Hint in Herr. discriminate.
  - apply Hno. simpl. intros _. left.
    unfold _handle_error_response in Herr. rewrite Hst in Herr.
    simpl in Herr. rewrite Ht in Herr.
    now destruct (handle_429_made model_validate r err None Herr)
      as (_ & _ & Hra).
Qed.

End OverflowProperties.



(** [Retry-After: 5] on a 429, after attempt 7. *)
Lemma retry_delay_computed_5 :
  let r := json_response 429 [("retry-after", "5")]
             (PDict [("title", PStr "Rate Limit Exceeded")]) in
  (exists err, _handle_error_response decimal_int fields_validate r = Return err)
  /\ forall err,
       _handle_error_response decimal_int fields_validate r = Return err ->
       exists d, _calculate_delay default_RetryConfig 7 (Some err) = Return d.
Proof.
  intros r. split; [eexists; reflexivity|].
  intros err Herr.
  apply (retry_delay_computed decimal_int fields_validate r err
           default_RetryConfig 7 Herr).
  - right. lia.
  - intros h k _ Hh Hk. injection Hh as <-.
    assert (k = 5) by (vm_compute in Hk; congruence). subst k.
    vm_compute. reflexivity.
Defined.
